(** * NaviMed-Scheduler: the patient queue of [backend/queue_manager.py]
      and the admission endpoint of [backend/main.py]

    A shallow embedding of [PatientScorer], [DynamicQueueManager] and
    [get_next_patient_rl], followed by what the queue guarantees.

    Conventions of the embedding.
    - Python [float] scores are rationals ([Q]).  Every base score is a small
      integer, on which float arithmetic is exact; an oracle boost is an
      arbitrary rational, added exactly.
    - Python [int] is [Z].  A [str] is the sequence of its code points, and
      a [string] holds a [str] whose code points are below 256, one per
      character: [len] is [String.length] and [lower] follows [str.lower] on
      these code points.
    - A constant [dict] literal is an association list read with [dict_get],
      which is [dict.get(key, default)].
    - The database session is the list of [Patient] rows and the list of
      [Appointment] rows, in the order [select(...)] returns them.
    - [logger.warning] and [logger.error] records and calls of the
      scheduling oracle are collected in a trace (a writer monad).  The [print] diagnostics go to
      standard output and are left out.
    - [list.sort] is stable; it is embedded as a stable insertion sort, which
      returns the same list as any other stable sort. *)

From Stdlib Require Import String Ascii List Bool ZArith QArith Qround Qminmax.
From Stdlib Require Import Lia Lqa Permutation Sorted DecimalString.
Import ListNotations.

Local Open Scope Z_scope.

(** ** Python strings *)

Module PyStr.

(** [c.lower()] of a code point below 256: the capitals A-Z (65..90) and the
    accented capitals 192..222, the multiplication sign 215 apart, have their
    small letter 32 places further on; every other code point stays. *)
Definition lower_char (c : ascii) : ascii :=
  let n := nat_of_ascii c in
  if ((65 <=? n) && (n <=? 90)
      || (192 <=? n) && (n <=? 222) && negb (n =? 215))%nat
  then ascii_of_nat (n + 32) else c.

(** [c.upper()] of an ASCII code point. *)
Definition upper_ascii (c : ascii) : ascii :=
  let n := nat_of_ascii c in
  if (97 <=? n)%nat && (n <=? 122)%nat then ascii_of_nat (n - 32) else c.

(** [s.lower()] *)
Fixpoint lower (s : string) : string :=
  match s with
  | EmptyString => EmptyString
  | String c s' => String (lower_char c) (lower s')
  end.

(** [s.capitalize()]: first character upper-cased, the rest lower-cased.
    The one string the queue capitalizes is joined from constant ASCII
    texts, so its first character is an ASCII letter. *)
Definition capitalize (s : string) : string :=
  match s with
  | EmptyString => EmptyString
  | String c s' => String (upper_ascii c) (lower s')
  end.

(** [needle in hay] *)
Fixpoint contains (needle hay : string) : bool :=
  if String.prefix needle hay then true
  else match hay with
       | EmptyString => false
       | String _ hay' => contains needle hay'
       end.

(** [sep.join(parts)] *)
Definition join (sep : string) (parts : list string) : string :=
  String.concat sep parts.

(** Truth value of an [Optional[str]]: [None] and the empty string are falsy. *)
Definition truthy (s : option string) : bool :=
  match s with
  | None => false
  | Some EmptyString => false
  | Some _ => true
  end.

End PyStr.

(** ** Python dictionaries with constant contents *)

Definition dict (V : Type) := list (string * V).

(** [d.get(key, default)] *)
Definition dict_get {V : Type} (d : dict V) (key : string) (default : V) : V :=
  match find (fun kv => String.eqb (fst kv) key) d with
  | Some kv => snd kv
  | None => default
  end.

(** ** Rational comparisons and rounding *)

(** [x < y] on floats *)
Definition Qltb (x y : Q) : bool := negb (Qle_bool y x).

(** Nearest integer, a tie going to the even neighbour. *)
Definition round_half_even (q : Q) : Z :=
  let f := Qfloor q in
  match Qcompare (q - inject_Z f) (1 # 2) with
  | Lt => f
  | Gt => f + 1
  | Eq => if Z.even f then f else f + 1
  end.

(** [round(x, 2)] *)
Definition round2 (x : Q) : Q := Qred (round_half_even (x * 100) # 100).

(** ** [models.py]: the rows the queue reads *)

Module Patient.
(** The columns of [Patient] that the queue code reads. *)
Record t := mk {
  id : Z;
  name : string;
  age : Z;
  conditions : option string;
  risk_level : string;
  no_show_probability : Q
}.
End Patient.

Module Appointment.
(** The columns of [Appointment] that the queue code reads. *)
Record t := mk {
  patient_id : Z;
  appointment_type : string;
  status : string
}.
End Appointment.

(** The database as a session shows it. *)
Record Session := mkSession {
  patients : list Patient.t;          (* session.exec(select(Patient)).all() *)
  appointments : list Appointment.t   (* session.exec(select(Appointment)).all() *)
}.

(** The row of a primary key, if the table has one: what
    [session.get(Patient, patient_id)] returns when it returns. *)
Definition session_get (session : Session) (patient_id : Z) : option Patient.t :=
  find (fun p => Patient.id p =? patient_id) (patients session).

(** The database is SQLite ([database.py]), whose integers are signed and 64
    bits wide. *)
Definition sqlite_integer (n : Z) : bool :=
  (- 2 ^ 63 <=? n) && (n <? 2 ^ 63).

Inductive Lookup :=
| LookupRaises                          (* OverflowError *)
| LookupReturns (row : option Patient.t).

(** [session.get(Patient, patient_id)].  A row that the session has loaded,
    as every row is once [calculate_queue_order] has run its [select], is
    handed out from the session's identity map.  For any other key a SELECT
    is sent, and the driver refuses ([OverflowError]) to bind an integer that
    SQLite cannot hold. *)
Definition session_lookup (session : Session) (patient_id : Z) : Lookup :=
  match session_get session patient_id with
  | Some patient => LookupReturns (Some patient)
  | None => if sqlite_integer patient_id then LookupReturns None else LookupRaises
  end.

(** ** The raw booking queue of [main.py] *)

Module QueueEntry.
(** An entry of [appointment_queue], as [book_appointment_with_rl] builds it
    (the keys read by the code embedded here; the booking clock is an
    integer). *)
Record t := mk {
  patient_id : Z;
  name : string;
  appointment_type : string;
  priority : string;
  is_emergency : bool;
  queue_timestamp : Z
}.
End QueueEntry.

(** ** The scheduling oracle and the trace of effects *)

(** What [get_scheduling_recommendation] hands back, as far as the queue
    looks: the [urgency_boost] key of the returned dict, when present. *)
Record RLRec := mkRLRec { urgency_boost : option Q }.

Inductive RLOutcome :=
| RLRaises                          (* the call raises an exception *)
| RLReturns (rec : option RLRec).   (* it returns [None] or a dict *)

(** The oracle, by its arguments [patient_id], [appointment_type] and
    [priority]. *)
Definition Oracle := Z -> string -> string -> RLOutcome.

Inductive event :=
| RLCall (patient_id : Z) (appointment_type priority : string)
| LogWarning (patient_id : Z)       (* "RL recommendation failed for patient ..." *)
| LogError.                         (* "Emergency reorder failed: ..." *)

Definition trace := list event.

(** Computations that call the oracle or log. *)
Definition M (A : Type) : Type := (A * trace)%type.

Definition ret {A} (a : A) : M A := (a, []).

Definition bind {A B} (m : M A) (k : A -> M B) : M B :=
  let (a, t1) := m in
  let (b, t2) := k a in
  (b, t1 ++ t2).

Definition tell (es : list event) : M unit := (tt, es).

Definition value {A} (m : M A) : A := fst m.
Definition effects {A} (m : M A) : trace := snd m.

Notation "x <- m ;; k" := (bind m (fun x => k))
  (at level 61, m at next level, right associativity).
Notation "m ;;; k" := (bind m (fun _ => k))
  (at level 61, right associativity).

Fixpoint mapM {A B} (f : A -> M B) (l : list A) : M (list B) :=
  match l with
  | [] => ret []
  | a :: l' => b <- f a ;; bs <- mapM f l' ;; ret (b :: bs)
  end.

(** The oracle calls of a trace, by patient id. *)
Definition rl_calls (tr : trace) : list Z :=
  flat_map (fun e => match e with RLCall pid _ _ => [pid] | _ => [] end) tr.

(** The warnings of a trace. *)
Definition warnings (tr : trace) : list Z :=
  flat_map (fun e => match e with LogWarning pid => [pid] | _ => [] end) tr.

(** ** [PatientScorer] *)

Module PatientScorer.

Definition risk_scores : dict Z :=
  [("high", 30); ("medium", 20); ("low", 10)]%string.

Definition chronic_conditions : list string :=
  ["diabetes"; "hypertension"; "heart"; "cancer"; "kidney"; "liver"]%string.

Definition type_scores : dict Z :=
  [("emergency", 15); ("urgent", 12); ("follow_up", 8);
   ("consultation", 5); ("checkup", 3)]%string.

(** [patient.conditions and patient.conditions.lower() != "none"] *)
Definition has_conditions (patient : Patient.t) : bool :=
  match Patient.conditions patient with
  | Some c => PyStr.truthy (Some c) && negb (String.eqb (PyStr.lower c) "none")
  | None => false
  end.

(** [any(condition in patient.conditions.lower() for condition in chronic_conditions)] *)
Definition has_chronic (patient : Patient.t) : bool :=
  match Patient.conditions patient with
  | Some c => existsb (fun k => PyStr.contains k (PyStr.lower c)) chronic_conditions
  | None => false
  end.

(** [calculate_patient_score(patient, appointment_type, emergency)] *)
Definition calculate_patient_score
    (patient : Patient.t) (appointment_type : string) (emergency : bool) : Q :=
  let score := 0%Q in
  if emergency then 100%Q
  else
    let score :=
      (score + inject_Z (dict_get risk_scores (PyStr.lower (Patient.risk_level patient)) 10%Z))%Q in
    let score :=
      if Patient.age patient >=? 65 then (score + 20)%Q
      else if Patient.age patient <=? 5 then (score + 15)%Q
      else if Patient.age patient <=? 18 then (score + 10)%Q
      else score in
    let score :=
      if has_conditions patient then
        if has_chronic patient then (score + 25)%Q else (score + 15)%Q
      else score in
    let score :=
      (score + inject_Z (dict_get type_scores (PyStr.lower appointment_type) 5%Z))%Q in
    let no_show_prob := Patient.no_show_probability patient in
    let score :=
      if Qltb (3 # 10) no_show_prob then (score - 10)%Q
      else if Qltb no_show_prob (1 # 10) then (score + 5)%Q
      else score in
    Qmax score 1.

(** The five terms of the score, each on its own. *)

Definition risk_level_weight (patient : Patient.t) : Z :=
  let r := PyStr.lower (Patient.risk_level patient) in
  if String.eqb r "high" then 30
  else if String.eqb r "medium" then 20
  else 10.

Definition age_bonus (patient : Patient.t) : Z :=
  if Patient.age patient >=? 65 then 20
  else if Patient.age patient <=? 5 then 15
  else if Patient.age patient <=? 18 then 10
  else 0.

Definition condition_severity_bonus (patient : Patient.t) : Z :=
  if has_conditions patient then if has_chronic patient then 25 else 15 else 0.

Definition appointment_type_weight (appointment_type : string) : Z :=
  let a := PyStr.lower appointment_type in
  if String.eqb a "emergency" then 15
  else if String.eqb a "urgent" then 12
  else if String.eqb a "follow_up" then 8
  else if String.eqb a "consultation" then 5
  else if String.eqb a "checkup" then 3
  else 5.

Definition no_show_adjustment (patient : Patient.t) : Z :=
  if Qltb (3 # 10) (Patient.no_show_probability patient) then -10
  else if Qltb (Patient.no_show_probability patient) (1 # 10) then 5
  else 0.

End PatientScorer.

(** ** Stable descending sort: [l.sort(key=..., reverse=True)] *)

Section Sort.
Context {A : Type} (key : A -> Q).

(** [x] goes in front of the first element whose key is not above its own,
    so elements with equal keys keep the order they came in. *)
Fixpoint insert_desc (x : A) (l : list A) : list A :=
  match l with
  | [] => [x]
  | y :: l' => if Qltb (key x) (key y) then y :: insert_desc x l' else x :: l
  end.

Definition sort_desc (l : list A) : list A := fold_right insert_desc [] l.

(** [x] may stand before [y] in a descending list. *)
Definition desc (x y : A) : Prop := (key y <= key x)%Q.

End Sort.

(** ** [DynamicQueueManager] *)

Module PatientItem.
(** The working dict [patient_item] of [calculate_queue_order]. *)
Record t := mk {
  patient : Patient.t;
  score : Q;
  appointment_type : string;
  is_emergency : bool;
  wait_time_minutes : Z;
  rl_recommendation : option RLRec
}.
End PatientItem.

Module Ticket.
(** An element of the returned [queue_items].  The emergency ticket of
    [reorder_queue_for_emergency] has no ["appointment_duration"] and no
    ["is_emergency"] key: these two are optional. *)
Record t := mk {
  id : Z;
  name : string;
  age : Z;
  conditions : option string;
  risk_level : string;
  score : Q;
  queue_position : Z;
  estimated_wait_minutes : Z;
  appointment_duration : option Z;
  appointment_type : string;
  is_emergency : option bool;
  status : string;
  priority_reason : string;
  rl_optimized : bool
}.
End Ticket.

Module DynamicQueueManager.

Definition appointment_durations : dict Z :=
  [("general_checkup", 15); ("followup", 12); ("diagnostics", 30);
   ("consultation_routine", 25); ("consultation_urgent", 40);
   ("emergency", 60); ("consultation", 25); ("checkup", 15);
   ("follow_up", 12); ("urgent", 40)]%string.

(** [_calculate_wait_time(patient)] *)
Definition _calculate_wait_time (patient : Patient.t) : Z :=
  let base_wait := 15 in
  if String.eqb (Patient.risk_level patient) "high" then base_wait
  else if String.eqb (Patient.risk_level patient) "medium" then base_wait + 10
  else base_wait + 20.

(** [_get_priority_reason(item)].  The working dict has no ["rl_optimized"]
    key, so [item.get("rl_optimized")] is [None] and "AI optimized" is never
    appended. *)
Definition _get_priority_reason (item : PatientItem.t) : string :=
  let patient := PatientItem.patient item in
  let score := PatientItem.score item in
  let reasons :=
    [if Qle_bool 80 score then "High priority"
     else if Qle_bool 60 score then "Medium priority"
     else "Standard priority"]%string in
  let reasons :=
    if Patient.age patient >=? 65 then reasons ++ ["senior citizen"%string]
    else if Patient.age patient <=? 5 then reasons ++ ["young child"%string]
    else reasons in
  let reasons :=
    if String.eqb (Patient.risk_level patient) "high"
    then reasons ++ ["high risk condition"%string] else reasons in
  let reasons :=
    if PatientScorer.has_conditions patient
    then reasons ++ ["chronic condition"%string] else reasons in
  PyStr.capitalize (PyStr.join " - " reasons).

(** [appointment_queue[0].get('patient_id')] when the queue is given and not
    empty, [None] otherwise. *)
Definition first_appointment_patient_id
    (appointment_queue : option (list QueueEntry.t)) : option Z :=
  match appointment_queue with
  | Some (e :: _) => Some (QueueEntry.patient_id e)
  | _ => None
  end.

Definition scheduled_patient_ids (session : Session) : list Z :=
  map Appointment.patient_id
    (filter (fun apt => String.eqb (Appointment.status apt) "scheduled")
       (appointments session)).

(** [[p for p in patients if p.id not in scheduled_patient_ids]] *)
Definition waiting_patients (session : Session) : list Patient.t :=
  filter (fun p => negb (existsb (Z.eqb (Patient.id p)) (scheduled_patient_ids session)))
    (patients session).

(** [next((q for q in appointment_queue if q.get('patient_id') == patient.id), None)] *)
Definition queue_patient
    (appointment_queue : option (list QueueEntry.t)) (patient : Patient.t)
    : option QueueEntry.t :=
  match appointment_queue with
  | Some entries => find (fun q => QueueEntry.patient_id q =? Patient.id patient) entries
  | None => None
  end.

(** The body of the scoring loop up to the construction of [patient_item]. *)
Definition patient_item
    (session : Session) (appointment_queue : option (list QueueEntry.t))
    (patient : Patient.t) : PatientItem.t :=
  let appointment_type := "consultation"%string in
  let is_emergency := false in
  let '(appointment_type, is_emergency) :=
    match queue_patient appointment_queue patient with
    | Some q => (QueueEntry.appointment_type q, QueueEntry.is_emergency q)
    | None => (appointment_type, is_emergency)
    end in
  let pending_appointments :=
    filter (fun apt => (Appointment.patient_id apt =? Patient.id patient)
                       && String.eqb (Appointment.status apt) "pending")
      (appointments session) in
  let '(appointment_type, is_emergency) :=
    match pending_appointments with
    | apt :: _ =>
        let appointment_type := Appointment.appointment_type apt in
        (appointment_type,
         if String.eqb (PyStr.lower appointment_type) "emergency" then true
         else is_emergency)
    | [] => (appointment_type, is_emergency)
    end in
  let score :=
    PatientScorer.calculate_patient_score patient appointment_type is_emergency in
  PatientItem.mk patient score appointment_type is_emergency
    (_calculate_wait_time patient) None.

(** [patient.id == first_appointment_patient_id] *)
Definition is_first_appointment (first_id : option Z) (patient : Patient.t) : bool :=
  match first_id with
  | Some i => Patient.id patient =? i
  | None => false
  end.

(** The scoring loop: [(scored_patients, first_appointment_item)] after it. *)
Definition score_waiting_patients
    (session : Session) (appointment_queue : option (list QueueEntry.t))
    : list PatientItem.t * option PatientItem.t :=
  let first_id := first_appointment_patient_id appointment_queue in
  fold_left
    (fun acc patient =>
       let item := patient_item session appointment_queue patient in
       if is_first_appointment first_id patient
       then (fst acc, Some item)
       else (fst acc ++ [item], snd acc))
    (waiting_patients session) ([], None).

(** [item["score"] += rl_rec.get("urgency_boost", 0)] under the guard
    [rl_rec and rl_rec.get("urgency_boost")]: a missing or zero boost is
    falsy. *)
Definition boosted_score (score : Q) (rl_rec : option RLRec) : Q :=
  match rl_rec with
  | Some r =>
      match urgency_boost r with
      | Some b => if Qeq_bool b 0 then score else (score + b)%Q
      | None => score
      end
  | None => score
  end.

(** Formatting of one entry of [scored_patients]. *)
Definition queue_item
    (item : PatientItem.t) (position estimated_wait_minutes appointment_duration : Z)
    : Ticket.t :=
  let patient := PatientItem.patient item in
  {| Ticket.id := Patient.id patient;
     Ticket.name := Patient.name patient;
     Ticket.age := Patient.age patient;
     Ticket.conditions := Patient.conditions patient;
     Ticket.risk_level := Patient.risk_level patient;
     Ticket.score := round2 (PatientItem.score item);
     Ticket.queue_position := position;
     Ticket.estimated_wait_minutes := estimated_wait_minutes;
     Ticket.appointment_duration := Some appointment_duration;
     Ticket.appointment_type := PatientItem.appointment_type item;
     Ticket.is_emergency := Some (PatientItem.is_emergency item);
     Ticket.status := "waiting";
     Ticket.priority_reason := _get_priority_reason item;
     Ticket.rl_optimized :=
       match PatientItem.rl_recommendation item with Some _ => true | None => false end |}.

(** Formatting of [first_appointment_item]. *)
Definition first_queue_item
    (item : PatientItem.t) (estimated_wait_minutes appointment_duration : Z)
    : Ticket.t :=
  let patient := PatientItem.patient item in
  {| Ticket.id := Patient.id patient;
     Ticket.name := Patient.name patient;
     Ticket.age := Patient.age patient;
     Ticket.conditions := Patient.conditions patient;
     Ticket.risk_level := Patient.risk_level patient;
     Ticket.score := round2 (PatientItem.score item);
     Ticket.queue_position := 1;
     Ticket.estimated_wait_minutes := estimated_wait_minutes;
     Ticket.appointment_duration := Some appointment_duration;
     Ticket.appointment_type := PatientItem.appointment_type item;
     Ticket.is_emergency := Some (PatientItem.is_emergency item);
     Ticket.status := "waiting";
     Ticket.priority_reason := "First appointment - no reordering";
     Ticket.rl_optimized := false |}.

Definition duration_of (item : PatientItem.t) : Z :=
  dict_get appointment_durations (PatientItem.appointment_type item) 15.

(** The loop [for index, item in enumerate(scored_patients)], with
    [position = index + start_position] and the running
    [cumulative_wait_time]. *)
Fixpoint format_scored
    (items : list PatientItem.t) (position total_patients cumulative_wait_time : Z)
    : list Ticket.t :=
  match items with
  | [] => []
  | item :: rest =>
      let appointment_duration := duration_of item in
      let '(estimated_wait_minutes, cumulative_wait_time) :=
        if position =? total_patients then (0, cumulative_wait_time)
        else if position =? 1 then (appointment_duration, appointment_duration)
        else (cumulative_wait_time, cumulative_wait_time + appointment_duration) in
      queue_item item position estimated_wait_minutes appointment_duration
      :: format_scored rest (position + 1) total_patients cumulative_wait_time
  end.

Section WithOracle.
Variable rl_service : Oracle.

(** The body of the loop over [scored_patients[:10]]: the oracle is called;
    when it raises, a warning is logged and the item is left as it was. *)
Definition consult (item : PatientItem.t) : M PatientItem.t :=
  let patient := PatientItem.patient item in
  tell [RLCall (Patient.id patient) (PatientItem.appointment_type item)
          (Patient.risk_level patient)] ;;;
  match rl_service (Patient.id patient) (PatientItem.appointment_type item)
          (Patient.risk_level patient) with
  | RLReturns rl_rec =>
      ret (PatientItem.mk patient
             (boosted_score (PatientItem.score item) rl_rec)
             (PatientItem.appointment_type item)
             (PatientItem.is_emergency item)
             (PatientItem.wait_time_minutes item)
             rl_rec)
  | RLRaises =>
      tell [LogWarning (Patient.id patient)] ;;; ret item
  end.

(** [scored_patients] after the oracle loop.  The slice
    [scored_patients[:10]] shares its dicts with the list, so the first ten
    entries are the updated ones. *)
Definition consult_top (scored_patients : list PatientItem.t)
    : M (list PatientItem.t) :=
  consulted <- mapM consult (firstn 10 scored_patients) ;;
  ret (consulted ++ skipn 10 scored_patients).

(** [scored_patients] after
    [scored_patients.sort(key=lambda x: x["score"], reverse=True)]. *)
Definition ranked_patients (scored_patients : list PatientItem.t)
    : M (list PatientItem.t) :=
  boosted <- consult_top scored_patients ;;
  ret (sort_desc PatientItem.score boosted).

(** [calculate_queue_order(session, appointment_queue)].  Nothing in the body
    raises on rows of the declared types, so the [except] branch (log an
    error, return the empty list) is not reached. *)
Definition calculate_queue_order
    (session : Session) (appointment_queue : option (list QueueEntry.t))
    : M (list Ticket.t) :=
  let '(scored_patients, first_appointment_item) :=
    score_waiting_patients session appointment_queue in
  scored_patients <- ranked_patients scored_patients ;;
  let queue_items := [] in
  let cumulative_wait_time := 0 in
  let '(queue_items, cumulative_wait_time) :=
    match first_appointment_item with
    | Some item =>
        let appointment_duration := duration_of item in
        let total_patients := Z.of_nat (length scored_patients) + 1 in
        let is_only_patient := total_patients =? 1 in
        (queue_items ++
           [first_queue_item item
              (if is_only_patient then 0 else appointment_duration)
              appointment_duration],
         if negb is_only_patient then appointment_duration else cumulative_wait_time)
    | None => (queue_items, cumulative_wait_time)
    end in
  let start_position :=
    match first_appointment_item with Some _ => 2 | None => 1 end in
  let total_patients :=
    Z.of_nat (length scored_patients)
    + match first_appointment_item with Some _ => 1 | None => 0 end in
  ret (queue_items
       ++ format_scored scored_patients start_position total_patients
            cumulative_wait_time).

(** The entry put in front by [reorder_queue_for_emergency]. *)
Definition emergency_item (emergency_patient : Patient.t) : Ticket.t :=
  let emergency_score :=
    PatientScorer.calculate_patient_score emergency_patient "emergency" true in
  {| Ticket.id := Patient.id emergency_patient;
     Ticket.name := Patient.name emergency_patient;
     Ticket.age := Patient.age emergency_patient;
     Ticket.conditions := Patient.conditions emergency_patient;
     Ticket.risk_level := "high";
     Ticket.score := emergency_score;
     Ticket.queue_position := 1;
     Ticket.estimated_wait_minutes := 0;
     Ticket.appointment_duration := None;
     Ticket.appointment_type := "emergency";
     Ticket.is_emergency := None;
     Ticket.status := "emergency";
     Ticket.priority_reason := "Emergency case - immediate attention required";
     Ticket.rl_optimized := false |}.

(** [item["queue_position"] += 1; item["estimated_wait_minutes"] += 15] *)
Definition delay_item (item : Ticket.t) : Ticket.t :=
  {| Ticket.id := Ticket.id item;
     Ticket.name := Ticket.name item;
     Ticket.age := Ticket.age item;
     Ticket.conditions := Ticket.conditions item;
     Ticket.risk_level := Ticket.risk_level item;
     Ticket.score := Ticket.score item;
     Ticket.queue_position := Ticket.queue_position item + 1;
     Ticket.estimated_wait_minutes := Ticket.estimated_wait_minutes item + 15;
     Ticket.appointment_duration := Ticket.appointment_duration item;
     Ticket.appointment_type := Ticket.appointment_type item;
     Ticket.is_emergency := Ticket.is_emergency item;
     Ticket.status := Ticket.status item;
     Ticket.priority_reason := Ticket.priority_reason item;
     Ticket.rl_optimized := Ticket.rl_optimized item |}.

(** [reorder_queue_for_emergency(session, emergency_patient_id)].  The current
    queue is computed without the booking queue.  When the lookup of the
    patient raises, the [except] branch logs an error and computes the queue
    order once more. *)
Definition reorder_queue_for_emergency
    (session : Session) (emergency_patient_id : Z) : M (list Ticket.t) :=
  current_queue <- calculate_queue_order session None ;;
  match session_lookup session emergency_patient_id with
  | LookupRaises =>
      tell [LogError] ;;; calculate_queue_order session None
  | LookupReturns None => ret current_queue
  | LookupReturns (Some emergency_patient) =>
      let reordered_queue := [emergency_item emergency_patient] in
      ret (reordered_queue
           ++ map delay_item
                (filter (fun item => negb (Ticket.id item =? emergency_patient_id))
                   current_queue))
  end.

End WithOracle.

End DynamicQueueManager.

(** ** [main.py]: the booking queue, the completed history and [/next_patient] *)

Module Main.

(** What is copied into [completed_patients]: a ticket of the ordered queue,
    or (FIFO fallback) a raw queue entry. *)
Inductive Assigned :=
| AssignedTicket (t : Ticket.t)
| AssignedEntry (q : QueueEntry.t).

(** The copied dict with its two added keys. *)
Record Completed := mkCompleted {
  record : Assigned;
  completed_at : Z;
  completion_order : Z
}.

(** The module-level state: the database and the two global lists. *)
Record State := mkState {
  db : Session;
  appointment_queue : list QueueEntry.t;
  completed_patients : list Completed
}.

Inductive Exn :=
| HTTPException (status_code : Z) (detail : string).

Record Response := mkResponse {
  assigned_patient : Assigned;
  rl_decision : bool;
  selection_reason : string;
  remaining_queue_size : Z
}.

Inductive Outcome :=
| Raised (e : Exn)
| Returned (r : Response).

Section Endpoints.
Variable rl_service : Oracle.
(** [str(e)] of an [HTTPException], which depends on the installed web
    framework. *)
Variable str_exn : Exn -> string.

(** [get_next_patient_rl].  [now] is the clock read for ["completed_at"].
    The guard's [HTTPException] is raised inside the outer [try], whose
    handler wraps it in a second one.  The inner handler (priority-based
    fallback) needs [calculate_queue_order] to raise, which it does not. *)
Definition get_next_patient_rl (now : Z) (st : State) : M (Outcome * State) :=
  match appointment_queue st with
  | [] =>
      let e := HTTPException 400 "Queue is empty" in
      ret (Raised (HTTPException 400 ("Error getting next patient: " ++ str_exn e)), st)
  | first :: others =>
      optimized_queue <-
        DynamicQueueManager.calculate_queue_order rl_service (db st)
          (Some (appointment_queue st)) ;;
      match optimized_queue with
      | selected_patient :: _ =>
          let completed_patient :=
            mkCompleted (AssignedTicket selected_patient) now
              (Z.of_nat (length (completed_patients st)) + 1) in
          let completed := completed_patients st ++ [completed_patient] in
          let queue :=
            filter (fun p => negb (QueueEntry.patient_id p =? Ticket.id selected_patient))
              (appointment_queue st) in
          ret (Returned
                 (mkResponse (AssignedTicket selected_patient) true
                    "RL model optimization" (Z.of_nat (length queue))),
               mkState (db st) queue completed)
      | [] =>
          (* selected = appointment_queue.pop(0) *)
          let selected := first in
          let queue := others in
          let completed_patient :=
            mkCompleted (AssignedEntry selected) now
              (Z.of_nat (length (completed_patients st)) + 1) in
          let completed := completed_patients st ++ [completed_patient] in
          ret (Returned
                 (mkResponse (AssignedEntry selected) false "FIFO fallback"
                    (Z.of_nat (length queue))),
               mkState (db st) queue completed)
      end
  end.

End Endpoints.

(** The wait estimate of [get_current_queue], over the raw queue:
    per entry, [(estimated_wait, appointment_duration)]. *)
Fixpoint current_queue_waits
    (queue : list QueueEntry.t) (i cumulative_wait_time : Z) : list (Z * Z) :=
  match queue with
  | [] => []
  | patient :: rest =>
      let appointment_duration :=
        dict_get DynamicQueueManager.appointment_durations
          (QueueEntry.appointment_type patient) 15 in
      let '(estimated_wait_minutes, cumulative_wait_time) :=
        if i =? 0 then (0, appointment_duration)
        else (cumulative_wait_time, cumulative_wait_time + appointment_duration) in
      (estimated_wait_minutes, appointment_duration)
      :: current_queue_waits rest (i + 1) cumulative_wait_time
  end.

End Main.


(** ** Vocabulary of the statements *)

Section Vocabulary.
Import DynamicQueueManager.

Definition item_id (item : PatientItem.t) : Z :=
  Patient.id (PatientItem.patient item).

(** [scored_patients] as the scoring loop leaves it: the candidates for
    positions after the pinned one, in the order of the patient table, with
    their base scores. *)
Definition candidates (session : Session) (q : option (list QueueEntry.t))
    : list PatientItem.t :=
  fst (score_waiting_patients session q).

(** [first_appointment_item] as the scoring loop leaves it. *)
Definition pinned (session : Session) (q : option (list QueueEntry.t))
    : option PatientItem.t :=
  snd (score_waiting_patients session q).

(** The candidates after the oracle loop, still in table order. *)
Definition boosted (rl : Oracle) (session : Session) (q : option (list QueueEntry.t))
    : list PatientItem.t :=
  value (consult_top rl (candidates session q)).

(** The candidates after the sort. *)
Definition ranked (rl : Oracle) (session : Session) (q : option (list QueueEntry.t))
    : list PatientItem.t :=
  value (ranked_patients rl (candidates session q)).

(** The list returned by [calculate_queue_order]. *)
Definition snapshot (rl : Oracle) (session : Session) (q : option (list QueueEntry.t))
    : list Ticket.t :=
  value (calculate_queue_order rl session q).

(** The tickets of the snapshot behind the pinned one (all of them when none
    is pinned). *)
Definition non_pinned (rl : Oracle) (session : Session) (q : option (list QueueEntry.t))
    : list Ticket.t :=
  match pinned session q with
  | Some _ => tl (snapshot rl session q)
  | None => snapshot rl session q
  end.

(** The duration a ticket carries (0 for a ticket without the key). *)
Definition duration (t : Ticket.t) : Z :=
  match Ticket.appointment_duration t with
  | Some d => d
  | None => 0
  end.

Definition Zsum (l : list Z) : Z := fold_right Z.add 0 l.

Definition total_duration (l : list Ticket.t) : Z := Zsum (map duration l).

(** The duration [get_current_queue] reads off a raw queue entry. *)
Definition entry_duration (e : QueueEntry.t) : Z :=
  dict_get appointment_durations (QueueEntry.appointment_type e) 15.

(** When the patient of a ticket was booked: the clock of their first entry
    in the raw queue. *)
Definition booking_timestamp (queue : list QueueEntry.t) (patient_id : Z) : option Z :=
  option_map QueueEntry.queue_timestamp
    (find (fun e => QueueEntry.patient_id e =? patient_id) queue).

(** The patient of the first raw booking is the first ticket, at position 1. *)
Definition pinned_head_holds
    (rl : Oracle) (session : Session) (first : QueueEntry.t) (rest : list QueueEntry.t)
    : Prop :=
  exists t others,
    snapshot rl session (Some (first :: rest)) = t :: others
    /\ Ticket.id t = QueueEntry.patient_id first
    /\ Ticket.queue_position t = 1.

(** Seed and recurrence of the wait estimate: the first ticket waits its own
    duration when others follow (0 when alone), every later one waits what
    its predecessor waits plus the predecessor's duration. *)
Definition wait_recurrence (l : list Ticket.t) : Prop :=
  (forall t, nth_error l 0 = Some t ->
     Ticket.estimated_wait_minutes t = if (length l =? 1)%nat then 0 else duration t)
  /\ (forall i prev t,
        nth_error l i = Some prev -> nth_error l (S i) = Some t ->
        Ticket.estimated_wait_minutes t
        = Ticket.estimated_wait_minutes prev + duration prev).

(** The last ticket waits the durations of all the others. *)
Definition last_waits_for_all_others (l : list Ticket.t) : Prop :=
  forall t, nth_error l (length l - 1) = Some t ->
    Ticket.estimated_wait_minutes t = total_duration (removelast l).

(** Descending score, and among equal scores ascending booking time. *)
Definition ordered_by_score_then_booking
    (queue : list QueueEntry.t) (l : list Ticket.t) : Prop :=
  forall i j ti tj,
    (i < j)%nat -> nth_error l i = Some ti -> nth_error l j = Some tj ->
    (Ticket.score tj <= Ticket.score ti)%Q
    /\ ((Ticket.score ti == Ticket.score tj)%Q ->
        forall bi bj,
          booking_timestamp queue (Ticket.id ti) = Some bi ->
          booking_timestamp queue (Ticket.id tj) = Some bj ->
          bi <= bj).

End Vocabulary.

(** ** Sample data *)

Module Samples.

Definition patient (id age : Z) (risk : string) : Patient.t :=
  Patient.mk id "p" age (Some "None specified"%string) risk (15 # 100).

Definition entry (pid : Z) (type : string) (emergency : bool) (ts : Z) : QueueEntry.t :=
  QueueEntry.mk pid "p" type "medium" emergency ts.

(** An oracle that knows nothing: it answers with a dict without a boost. *)
Definition no_boost : Oracle := fun _ _ _ => RLReturns (Some (mkRLRec None)).

(** An oracle that raises a 5-point boost for every patient it is asked about. *)
Definition boost5 : Oracle := fun _ _ _ => RLReturns (Some (mkRLRec (Some 5%Q))).

(** An oracle that always fails. *)
Definition failing : Oracle := fun _ _ _ => RLRaises.

(** [str(e)] in a framework that prints the detail of the exception. *)
Definition str_exn (e : Main.Exn) : string :=
  match e with Main.HTTPException _ detail => detail end.

(** Three patients of equal standing, none with an appointment row. *)
Definition three_patients : Session :=
  mkSession [patient 1 30 "low"; patient 2 30 "low"; patient 3 30 "low"] [].

(** Patient 1 booked first, then patient 3, then patient 2. *)
Definition booked_1_3_2 : list QueueEntry.t :=
  [entry 1 "checkup" false 10; entry 3 "checkup" false 20; entry 2 "checkup" false 30].

(** The same patients; patient 1 already holds a scheduled appointment. *)
Definition head_scheduled : Session :=
  mkSession [patient 1 30 "low"; patient 2 30 "low"; patient 3 30 "low"]
    [Appointment.mk 1 "consultation" "scheduled"].

(** Patient 1 booked first, then patient 2; patient 3 never booked. *)
Definition booked_1_2 : list QueueEntry.t :=
  [entry 1 "checkup" false 10; entry 2 "checkup" false 20].

(** Patient 1 booked twice (two requests with the same e-mail address), with
    patient 2 in between. *)
Definition booked_1_2_1 : list QueueEntry.t :=
  [entry 1 "checkup" false 10; entry 2 "checkup" false 20; entry 1 "followup" false 30].

(** Eleven waiting patients: ten of low risk, then a senior of high risk. *)
Definition eleven_patients : Session :=
  mkSession
    (map (fun i => patient i 30 "low") [1; 2; 3; 4; 5; 6; 7; 8; 9; 10]
     ++ [patient 11 70 "high"])
    [].

End Samples.

(** ** Shapes of lists used in the statements *)

(** The list 1, 2, ..., n. *)
Definition one_to (n : nat) : list Z := map (fun k => Z.of_nat k + 1) (seq 0 n).

(** How many elements of a list pass a test: [len([x for x in l if f(x)])]. *)
Definition count {A} (f : A -> bool) (l : list A) : Z := Z.of_nat (length (filter f l)).

(** ** [models.py]: priority levels *)

Module Models.

(** A Python value, by the types that [get_priority_score] tells apart.  A
    [bool] is an [int] to [isinstance]; a [float] is a rational, as the
    scores are (the floats that are no numbers, on which [int] raises, have
    no counterpart). *)
Inductive PyValue :=
| VStr (s : string)
| VBool (b : bool)
| VInt (n : Z)
| VFloat (x : Q)
| VOther.                (* [None], a list, a dict, ... *)

(** [int(x)] of a float: the fraction is cut off, towards zero. *)
Definition int_of_float (x : Q) : Z := Z.quot (Qnum x) (Zpos (Qden x)).

Inductive PriorityLevel :=
| VERY_LOW | LOW | MEDIUM | HIGH | VERY_HIGH | CRITICAL | EMERGENCY.

(** The members in the order of their definition, which is the order
    [for level in PriorityLevel] visits them. *)
Definition PriorityLevel_members : list PriorityLevel :=
  [VERY_LOW; LOW; MEDIUM; HIGH; VERY_HIGH; CRITICAL; EMERGENCY].

(** [level.value] *)
Definition level_value (level : PriorityLevel) : string :=
  match level with
  | VERY_LOW => "very_low"
  | LOW => "low"
  | MEDIUM => "medium"
  | HIGH => "high"
  | VERY_HIGH => "very_high"
  | CRITICAL => "critical"
  | EMERGENCY => "emergency"
  end.

Definition level_eqb (a b : PriorityLevel) : bool :=
  String.eqb (level_value a) (level_value b).

Definition PRIORITY_RANKING : list (PriorityLevel * Z) :=
  [(CRITICAL, 7); (EMERGENCY, 7); (VERY_HIGH, 5); (HIGH, 4); (MEDIUM, 3);
   (LOW, 2); (VERY_LOW, 1)].

(** [PRIORITY_RANKING.get(level, default)] *)
Definition ranking_get (level : PriorityLevel) (default : Z) : Z :=
  match find (fun kv => level_eqb (fst kv) level) PRIORITY_RANKING with
  | Some kv => snd kv
  | None => default
  end.

(** [get_priority_score(priority)]: a string is looked up among the levels;
    a number goes through [int]; anything else ranks as "medium". *)
Definition get_priority_score (priority : PyValue) : Z :=
  match priority with
  | VStr priority =>
      match find (fun level => String.eqb (level_value level) (PyStr.lower priority))
              PriorityLevel_members with
      | Some level => ranking_get level 3
      | None => 3
      end
  | VBool b => if b then 1 else 0
  | VInt n => n
  | VFloat x => int_of_float x
  | VOther => 3
  end.

End Models.

(** ** [main.py]: encoding of the queue for the learned model *)

Module PatientData.
(** The dict handed to [encode_patient]; every key may be missing. *)
Record t := mk {
  appointment_type : option string;
  priority : option Models.PyValue;
  is_emergency : option bool;
  gender : option string;
  age : option Z;
  symptoms : option string
}.
End PatientData.

Module Encoding.

(** [d.get(key, default)] on a dict whose key may be missing. *)
Definition get_or {A} (v : option A) (default : A) : A :=
  match v with
  | Some a => a
  | None => default
  end.

Definition type_map : dict Z :=
  [("checkup", 0); ("followup", 1); ("diagnostics", 2); ("emergency", 3);
   ("consultation", 4); ("vaccination", 5)]%string.

Definition gender_map : dict Z :=
  [("male", 0); ("female", 1); ("other", 2)]%string.

(** [encode_patient(patient_data)].  The last component is [len] of the
    symptoms, the number of their code points, over 200. *)
Definition encode_patient (patient_data : PatientData.t) : list Q :=
  [ (inject_Z (dict_get type_map
                 (get_or (PatientData.appointment_type patient_data) "checkup"%string) 0%Z) / 5)%Q;
    (inject_Z (Models.get_priority_score
                 (get_or (PatientData.priority patient_data) (Models.VStr "medium")) - 1)
     / 6)%Q;
    (if get_or (PatientData.is_emergency patient_data) false then 1 else 0)%Q;
    (inject_Z (dict_get gender_map
                 (get_or (PatientData.gender patient_data) "other"%string) 2%Z) / 2)%Q;
    Qmin (inject_Z (get_or (PatientData.age patient_data) 30%Z) / 100) 1;
    (inject_Z (Z.of_nat (String.length
                           (get_or (PatientData.symptoms patient_data) ""%string))) / 200)%Q ].

(** [encode_queue(queue)]: the [while] loop appends rows of zeros until there
    are fifty. *)
Definition encode_queue (queue : list PatientData.t) : list (list Q) :=
  let encoded := map encode_patient queue in
  let max_queue_size := 50%nat in
  let encoded := encoded ++ repeat (repeat 0%Q 6) (max_queue_size - length encoded) in
  firstn max_queue_size encoded.

End Encoding.

(** ** Stable ascending sort: [l.sort(key=...)] with an integer key *)

Section SortAsc.
Context {A : Type} (key : A -> Z).

(** [x] goes in front of the first element whose key is not below its own. *)
Fixpoint insert_asc (x : A) (l : list A) : list A :=
  match l with
  | [] => [x]
  | y :: l' => if key y <? key x then y :: insert_asc x l' else x :: l
  end.

Definition sort_asc (l : list A) : list A := fold_right insert_asc [] l.

(** [x] may stand before [y] in an ascending list. *)
Definition asc (x y : A) : Prop := key x <= key y.

End SortAsc.

(** ** [main.py]: the other queue endpoints *)

Module Endpoints.
Import Main.

(** What an endpoint does: raise, or return a body. *)
Inductive Result (A : Type) :=
| Raises (e : Exn)
| Returns (a : A).
Arguments Raises {A} e.
Arguments Returns {A} a.

(** [token["role"] in ["admin", "doctor"]] *)
Definition authorized (role : string) : bool :=
  existsb (String.eqb role) ["admin"; "doctor"]%string.

(** [str(n)] of an integer. *)
Definition str_int (n : Z) : string := DecimalString.NilZero.string_of_int (Z.to_int n).

(** *** [/queue/real-time] *)

Record RealTimeMetadata := mkRealTimeMetadata {
  rt_total_patients : Z;
  rt_emergency_count : Z;
  rt_high_priority_count : Z;
  rt_ai_optimized_count : Z;
  rt_last_updated : Z;
  rt_next_update : Z;
  rt_optimization_algorithm : string;
  rt_system_load : string
}.

Record RealTimeInsights := mkRealTimeInsights {
  rt_busiest_time_predicted : string;
  rt_recommended_action : string;
  rt_efficiency_score : Q;
  rt_patient_satisfaction_prediction : string
}.

Record RealTimeQueue := mkRealTimeQueue {
  rt_status : string;
  rt_queue : list Ticket.t;
  rt_metadata : RealTimeMetadata;
  rt_insights : RealTimeInsights
}.

(** *** [/queue/update-priorities] *)

Record PriorityUpdate := mkPriorityUpdate {
  pu_status : string;
  pu_message : string;
  pu_updated_queue : list Ticket.t;
  pu_priority_changes : list (Z * Q);
  pu_total_patients : Z;
  pu_optimization_active : bool;
  pu_timestamp : Z
}.

(** [priority_updates[patient_id]] when [patient_id in priority_updates]. *)
Definition updates_get (priority_updates : list (Z * Q)) (patient_id : Z) : option Q :=
  option_map snd (find (fun kv => fst kv =? patient_id) priority_updates).

(** The body of the loop that applies the manual adjustments. *)
Definition adjust (priority_updates : list (Z * Q)) (item : Ticket.t) : Ticket.t :=
  match updates_get priority_updates (Ticket.id item) with
  | Some new_score =>
      {| Ticket.id := Ticket.id item;
         Ticket.name := Ticket.name item;
         Ticket.age := Ticket.age item;
         Ticket.conditions := Ticket.conditions item;
         Ticket.risk_level := Ticket.risk_level item;
         Ticket.score := new_score;
         Ticket.queue_position := Ticket.queue_position item;
         Ticket.estimated_wait_minutes := Ticket.estimated_wait_minutes item;
         Ticket.appointment_duration := Ticket.appointment_duration item;
         Ticket.appointment_type := Ticket.appointment_type item;
         Ticket.is_emergency := Ticket.is_emergency item;
         Ticket.status := Ticket.status item;
         Ticket.priority_reason := Ticket.priority_reason item ++ " - Manually adjusted";
         Ticket.rl_optimized := false |}
  | None => item
  end.

(** The duration looked up for a ticket:
    [appointment_durations.get(item.get("appointment_type", "consultation"), 15)]. *)
Definition ticket_duration (item : Ticket.t) : Z :=
  dict_get DynamicQueueManager.appointment_durations (Ticket.appointment_type item) 15.

(** The loop [for index, item in enumerate(updated_queue)] that renumbers the
    tickets and recomputes their wait. *)
Fixpoint renumber (items : list Ticket.t) (index cumulative_wait_time : Z)
    : list Ticket.t :=
  match items with
  | [] => []
  | item :: rest =>
      let appointment_duration := ticket_duration item in
      let '(estimated_wait_minutes, cumulative_wait_time) :=
        if index =? 0 then (appointment_duration, appointment_duration)
        else (cumulative_wait_time, cumulative_wait_time + appointment_duration) in
      {| Ticket.id := Ticket.id item;
         Ticket.name := Ticket.name item;
         Ticket.age := Ticket.age item;
         Ticket.conditions := Ticket.conditions item;
         Ticket.risk_level := Ticket.risk_level item;
         Ticket.score := Ticket.score item;
         Ticket.queue_position := index + 1;
         Ticket.estimated_wait_minutes := estimated_wait_minutes;
         Ticket.appointment_duration := Some appointment_duration;
         Ticket.appointment_type := Ticket.appointment_type item;
         Ticket.is_emergency := Ticket.is_emergency item;
         Ticket.status := Ticket.status item;
         Ticket.priority_reason := Ticket.priority_reason item;
         Ticket.rl_optimized := Ticket.rl_optimized item |}
      :: renumber rest (index + 1) cumulative_wait_time
  end.

(** *** [/queue/reorder_rl] *)

Record Reorder := mkReorder {
  ro_message : string;
  ro_reordered : bool;
  ro_new_queue_size : option Z;
  ro_optimization_method : option string;
  ro_top_3_patients : option (list string)
}.

(** [{item.get('id'): i for i, item in enumerate(optimized_queue)}], read at
    [patient_id]: a later ticket with the same id overwrites an earlier one. *)
Fixpoint patient_order (optimized_queue : list Ticket.t) (i patient_id : Z) : option Z :=
  match optimized_queue with
  | [] => None
  | item :: rest =>
      match patient_order rest (i + 1) patient_id with
      | Some j => Some j
      | None => if Ticket.id item =? patient_id then Some i else None
      end
  end.

(** [patient_order.get(x['patient_id'], 999)] *)
Definition order_key (optimized_queue : list Ticket.t) (x : QueueEntry.t) : Z :=
  match patient_order optimized_queue 0 (QueueEntry.patient_id x) with
  | Some i => i
  | None => 999
  end.

(** *** [/queue/current] *)

Module EnhancedPatient.
(** A copy of a queue entry with the keys [get_current_queue] adds. *)
Record t := mk {
  entry : QueueEntry.t;
  current_position : Z;
  estimated_wait : Z;
  appointment_duration : Z;
  in_queue_for : Z
}.
End EnhancedPatient.

Record QueueSummary := mkQueueSummary {
  qs_total_in_queue : Z;
  qs_current_patient_duration : Z;
  qs_next_patient_wait : Z
}.

Record CurrentQueue := mkCurrentQueue {
  cq_queue : list EnhancedPatient.t;
  cq_total_patients : Z;
  cq_average_wait_time : string;
  cq_next_patient : option EnhancedPatient.t;
  cq_current_patient : option EnhancedPatient.t;
  cq_queue_summary : QueueSummary;
  cq_rl_optimized : bool;
  cq_last_updated : Z
}.

(** The loop [for i, patient in enumerate(appointment_queue)].  The time an
    entry has spent in the queue is the difference of two clock readings. *)
Fixpoint enhance (queue : list QueueEntry.t) (now i cumulative_wait_time : Z)
    : list EnhancedPatient.t :=
  match queue with
  | [] => []
  | patient :: rest =>
      let appointment_duration :=
        dict_get DynamicQueueManager.appointment_durations
          (QueueEntry.appointment_type patient) 15 in
      let '(estimated_wait_minutes, cumulative_wait_time) :=
        if i =? 0 then (0, appointment_duration)
        else if i =? 1
             then (cumulative_wait_time, cumulative_wait_time + appointment_duration)
             else (cumulative_wait_time, cumulative_wait_time + appointment_duration) in
      EnhancedPatient.mk patient (i + 1) estimated_wait_minutes appointment_duration
        (now - QueueEntry.queue_timestamp patient)
      :: enhance rest now (i + 1) cumulative_wait_time
  end.

(** [get_current_queue()] at clock reading [now]. *)
Definition get_current_queue (now : Z) (st : State) : CurrentQueue :=
  let enhanced_queue := enhance (appointment_queue st) now 0 0 in
  let queue_length := Z.of_nat (length (appointment_queue st)) in
  let total_in_queue := Z.max 0 (queue_length - 1) in
  let average_wait_time :=
    if queue_length <=? 1 then 0
    else match nth_error enhanced_queue 1 with
         | Some p => EnhancedPatient.estimated_wait p
         | None => 0
         end in
  {| cq_queue := enhanced_queue;
     cq_total_patients := total_in_queue;
     cq_average_wait_time := str_int average_wait_time ++ " minutes";
     cq_next_patient :=
       if (1 <? length enhanced_queue)%nat then nth_error enhanced_queue 1 else None;
     cq_current_patient := nth_error enhanced_queue 0;
     cq_queue_summary :=
       {| qs_total_in_queue := total_in_queue;
          qs_current_patient_duration :=
            match enhanced_queue with
            | p :: _ => EnhancedPatient.appointment_duration p
            | [] => 0
            end;
          qs_next_patient_wait := average_wait_time |};
     cq_rl_optimized := true;
     cq_last_updated := now |}.

(** *** [/queue/assign-next] *)

(** A slot of the recommendation, with the keys the endpoint reads. *)
Record Slot := mkSlot {
  slot_datetime : string;
  slot_doctor_id : Z;
  slot_doctor_name : string;
  slot_score : Q
}.

(** The recommendation as [assign_next_patient] reads it: its ["status"] and
    its ["available_slots"] (a missing key reads as [None], which is falsy
    as the empty list is). *)
Record SlotRec := mkSlotRec {
  rec_status : option string;
  available_slots : list Slot
}.

(** The call raises an exception [e] (given by [str(e)]) or returns a dict. *)
Inductive SlotOutcome :=
| SlotRaises (message : string)
| SlotReturns (r : SlotRec).

(** [datetime.fromisoformat(s)]: a [ValueError] (given by its [str]), or the
    date and time, rendered ["%Y-%m-%d"] and ["%H:%M:%S"]. *)
Inductive Parsed :=
| ParseError (message : string)
| ParsedAs (date time : string).

(** [get_scheduling_recommendation] by its argument [patient_id]; the other
    arguments are constants at this call. *)
Definition SlotOracle := Z -> SlotOutcome.

Record Assignment := mkAssignment {
  as_patient_id : Z;
  as_patient_name : string;
  as_doctor_id : Z;
  as_doctor_name : string;
  as_appointment_date : string;
  as_appointment_time : string;
  as_ai_score : Q
}.

Record AssignNext := mkAssignNext {
  an_status : string;
  an_message : string;
  an_assignment : option Assignment
}.

(** [patient_priority_score(patient)] *)
Definition patient_priority_score (patient : Patient.t) : Z :=
  let risk_score :=
    dict_get [("high", 3); ("medium", 2); ("low", 1)]%string
      (Patient.risk_level patient) 1 in
  let condition_score :=
    match Patient.conditions patient with
    | Some c => if PyStr.truthy (Some c) && negb (String.eqb c "None") then 2 else 1
    | None => 1
    end in
  let age_score := if Patient.age patient >=? 65 then 2 else 1 in
  risk_score + condition_score + age_score.

(** *** [/queue/emergency-reorder] *)

Record EmergencyPatient := mkEmergencyPatient {
  ep_id : Z;
  ep_name : string;
  ep_conditions : option string;
  ep_new_position : Z
}.

Record EmergencySummary := mkEmergencySummary {
  es_emergency_cases : Z;
  es_waiting_patients : Z;
  es_avg_delay_minutes : Z
}.

Record EmergencyReorder := mkEmergencyReorder {
  er_status : string;
  er_message : string;
  er_emergency_patient : option EmergencyPatient;
  er_reordered_queue : option (list Ticket.t);
  er_total_affected_patients : option Z;
  er_queue_summary : option EmergencySummary;
  er_timestamp : option Z
}.

Section WithServices.
Variable rl_service : Oracle.
Variable slot_service : SlotOracle.
Variable fromisoformat : string -> Parsed.
(** [str(e)] of the [OverflowError] raised by the database driver. *)
Variable str_overflow : string.

(** [get_real_time_queue] at clock reading [now] (in seconds).  Nothing in
    the body raises, so the [except] branch is not reached. *)
Definition get_real_time_queue (now : Z) (st : State) : M RealTimeQueue :=
  live_queue <-
    DynamicQueueManager.calculate_queue_order rl_service (db st)
      (Some (appointment_queue st)) ;;
  ret {| rt_status := "live";
         rt_queue := live_queue;
         rt_metadata :=
           {| rt_total_patients := Z.of_nat (length live_queue);
              rt_emergency_count :=
                count (fun item => String.eqb (Ticket.status item) "emergency") live_queue;
              rt_high_priority_count :=
                count (fun item => Qle_bool 70 (Ticket.score item)) live_queue;
              rt_ai_optimized_count := count Ticket.rl_optimized live_queue;
              rt_last_updated := now;
              rt_next_update := now + 30;
              rt_optimization_algorithm :=
                "RL-based Priority Scoring with Emergency Handling";
              rt_system_load := "Normal" |};
         rt_insights :=
           {| rt_busiest_time_predicted := "14:00-16:00";
              rt_recommended_action := "Monitor high-priority patients";
              rt_efficiency_score := 875 # 10;
              rt_patient_satisfaction_prediction := "High" |} |}.

(** [update_queue_priorities(priority_updates, token, db)].  The role check
    stands before the [try]; nothing inside the [try] raises. *)
Definition update_queue_priorities
    (priority_updates : list (Z * Q)) (role : string) (now : Z) (st : State)
    : M (Result PriorityUpdate) :=
  if negb (authorized role) then ret (Raises (HTTPException 403 "Not authorized"))
  else
    current_queue <-
      DynamicQueueManager.calculate_queue_order rl_service (db st)
        (Some (appointment_queue st)) ;;
    let updated_queue := map (adjust priority_updates) current_queue in
    let updated_queue := sort_desc Ticket.score updated_queue in
    let updated_queue := renumber updated_queue 0 0 in
    ret (Returns
           {| pu_status := "success";
              pu_message :=
                "Updated priorities for "
                ++ str_int (Z.of_nat (length priority_updates)) ++ " patients";
              pu_updated_queue := updated_queue;
              pu_priority_changes := priority_updates;
              pu_total_patients := Z.of_nat (length updated_queue);
              pu_optimization_active := true;
              pu_timestamp := now |}).

(** [reorder_queue_with_rl(db)]: the response and the state it leaves. *)
Definition reorder_queue_with_rl (st : State) : M (Reorder * State) :=
  match appointment_queue st with
  | [] => ret (mkReorder "Queue is empty" false None None None, st)
  | _ :: _ =>
      optimized_queue <-
        DynamicQueueManager.calculate_queue_order rl_service (db st)
          (Some (appointment_queue st)) ;;
      match optimized_queue with
      | _ :: _ =>
          let queue := sort_asc (order_key optimized_queue) (appointment_queue st) in
          ret (mkReorder "Queue reordered using RL optimization" true
                 (Some (Z.of_nat (length queue))) (Some "RL-based"%string)
                 (Some (map QueueEntry.name (firstn 3 queue))),
               mkState (db st) queue (completed_patients st))
      | [] =>
          ret (mkReorder "RL optimization unavailable, queue unchanged" false
                 None None None, st)
      end
  end.

(** [assign_next_patient(token, db)]: the response and the database it
    leaves.  Every row read from the table has an id, so the filter
    [p.id is not None] keeps all of them. *)
Definition assign_next_patient (role : string) (session : Session)
    : Result AssignNext * Session :=
  if negb (authorized role) then (Raises (HTTPException 403 "Not authorized"), session)
  else
    let waiting_patients := DynamicQueueManager.waiting_patients session in
    match sort_desc (fun p => inject_Z (patient_priority_score p)) waiting_patients with
    | [] =>
        (Returns (mkAssignNext "no_waiting_patients"
                    "No patients in queue waiting for appointments" None), session)
    | next_patient :: _ =>
        match slot_service (Patient.id next_patient) with
        | SlotRaises message =>
            (Returns (mkAssignNext "error" ("Error in AI scheduling: " ++ message) None),
             session)
        | SlotReturns recommendation =>
            match rec_status recommendation, available_slots recommendation with
            | Some s, best_slot :: _ =>
                if String.eqb s "success" then
                  match fromisoformat (slot_datetime best_slot) with
                  | ParseError message =>
                      (Returns (mkAssignNext "error"
                                  ("Error in AI scheduling: " ++ message) None),
                       session)
                  | ParsedAs appointment_date appointment_time =>
                      let new_appointment :=
                        Appointment.mk (Patient.id next_patient) "checkup" "scheduled" in
                      (Returns
                         (mkAssignNext "success"
                            ("Successfully assigned " ++ Patient.name next_patient
                             ++ " to next available slot")
                            (Some (mkAssignment (Patient.id next_patient)
                                     (Patient.name next_patient)
                                     (slot_doctor_id best_slot)
                                     (slot_doctor_name best_slot)
                                     appointment_date appointment_time
                                     (slot_score best_slot)))),
                       mkSession (patients session)
                         (appointments session ++ [new_appointment]))
                  end
                else
                  (Returns (mkAssignNext "no_slots_available"
                              "No available appointment slots found" None), session)
            | _, _ =>
                (Returns (mkAssignNext "no_slots_available"
                            "No available appointment slots found" None), session)
            end
        end
    end.

(** [emergency_queue_reorder(emergency_patient_id, token, db)].  The role
    check stands before the [try]; inside it the second lookup of the
    patient can raise, which the [except] branch turns into an answer. *)
Definition emergency_queue_reorder
    (emergency_patient_id : Z) (role : string) (now : Z) (session : Session)
    : M (Result EmergencyReorder) :=
  if negb (authorized role) then ret (Raises (HTTPException 403 "Not authorized"))
  else
    emergency_queue <-
      DynamicQueueManager.reorder_queue_for_emergency rl_service session
        emergency_patient_id ;;
    match emergency_queue with
    | [] =>
        ret (Returns (mkEmergencyReorder "error"
                        "Failed to reorder queue for emergency patient"
                        None None None None None))
    | _ :: _ =>
        match session_lookup session emergency_patient_id with
        | LookupRaises =>
            ret (Returns (mkEmergencyReorder "error"
                            ("Emergency queue reorder failed: " ++ str_overflow)
                            None None None None None))
        | LookupReturns None =>
            ret (Returns (mkEmergencyReorder "error" "Emergency patient not found"
                            None None None None None))
        | LookupReturns (Some emergency_patient) =>
            ret (Returns
                   (mkEmergencyReorder "success"
                      ("Queue reordered for emergency patient: "
                       ++ Patient.name emergency_patient)
                      (Some (mkEmergencyPatient (Patient.id emergency_patient)
                               (Patient.name emergency_patient)
                               (Patient.conditions emergency_patient) 1))
                      (Some emergency_queue)
                      (Some (Z.of_nat (length emergency_queue) - 1))
                      (Some (mkEmergencySummary 1
                               (Z.of_nat (length emergency_queue)) 15))
                      (Some now)))
        end
    end.

End WithServices.

End Endpoints.

(** The oracle's answer is stored on the item:
    [item["rl_recommendation"] is not None]. *)
Definition has_recommendation (item : PatientItem.t) : bool :=
  match PatientItem.rl_recommendation item with Some _ => true | None => false end.

(** The records of the history are numbered 1, 2, ... in the order they were
    appended. *)
Definition completion_orders_consecutive (history : list Main.Completed) : Prop :=
  map Main.completion_order history = one_to (length history).

(** An oracle that never moves a score: whatever it returns carries no boost,
    or a boost of zero. *)
Definition never_boosts (rl : Oracle) : Prop :=
  forall patient_id appointment_type priority r b,
    rl patient_id appointment_type priority = RLReturns (Some r) ->
    urgency_boost r = Some b -> (b == 0)%Q.

(** The score of an item is the one [calculate_patient_score] gives for the
    type and the flag the item carries. *)
Definition base_scored (item : PatientItem.t) : Prop :=
  PatientItem.score item
  = PatientScorer.calculate_patient_score (PatientItem.patient item)
      (PatientItem.appointment_type item) (PatientItem.is_emergency item).

Module Samples2.

(** Patient 1 booked first; patients 2 and 3 booked as emergencies. *)
Definition booked_two_emergencies : list QueueEntry.t :=
  [Samples.entry 1 "checkup" false 10; Samples.entry 2 "emergency" true 20;
   Samples.entry 3 "emergency" true 30].

(** A slot service with one free slot for whoever asks. *)
Definition one_slot : Endpoints.SlotOracle :=
  fun _ =>
    Endpoints.SlotReturns
      (Endpoints.mkSlotRec (Some "success"%string)
         [Endpoints.mkSlot "2025-01-06T09:00:00" 7 "Dr. Smith" (9 # 10)]).

(** A parser that knows the one timestamp above. *)
Definition parse_sample (s : string) : Endpoints.Parsed :=
  if String.eqb s "2025-01-06T09:00:00"
  then Endpoints.ParsedAs "2025-01-06" "09:00:00"
  else Endpoints.ParseError "Invalid isoformat string".

(** A senior of high risk with a chronic condition, between two others. *)
Definition mixed_patients : Session :=
  mkSession
    [Samples.patient 1 30 "low";
     Patient.mk 2 "q" 70 (Some "diabetes"%string) "high" (15 # 100);
     Samples.patient 3 30 "medium"]
    [].

End Samples2.

(** A number with at most two decimals: a whole number of hundredths, which
    [round(x, 2)] leaves as it is. *)
Definition two_decimals (x : Q) : Prop := exists k : Z, (x * 100 == inject_Z k)%Q.

(** An oracle whose boosts are whole numbers, which floats add to the base
    scores without rounding. *)
Definition whole_boosts (rl : Oracle) : Prop :=
  forall patient_id appointment_type priority r b,
    rl patient_id appointment_type priority = RLReturns (Some r) ->
    urgency_boost r = Some b -> exists k : Z, (b == inject_Z k)%Q.

Module Samples3.

(** An oracle that raises the score of patient 2 by 0.004 and knows nothing
    about anybody else. *)
Definition boost_third_decimal : Oracle :=
  fun patient_id _ _ =>
    if patient_id =? 2 then RLReturns (Some (mkRLRec (Some (4 # 1000))))
    else RLReturns None.

(** The database of the three patients once [/queue/assign-next], called by
    a doctor while one slot is free, has given that slot away. *)
Definition after_assign_next : Session :=
  snd (Endpoints.assign_next_patient Samples2.one_slot Samples2.parse_sample "doctor"
         Samples.three_patients).

End Samples3.

(** * Properties *)

(** ** The trace monad *)

Lemma value_bind {A B} (m : M A) (k : A -> M B) :
  value (bind m k) = value (k (value m)).
Proof.
  unfold value, bind. destruct m as [a t1]. simpl. destruct (k a). reflexivity.
Qed.

Lemma effects_bind {A B} (m : M A) (k : A -> M B) :
  effects (bind m k) = effects m ++ effects (k (value m)).
Proof.
  unfold value, effects, bind. destruct m as [a t1]. simpl. destruct (k a). reflexivity.
Qed.

Lemma value_ret {A} (a : A) : value (ret a) = a.
Proof. reflexivity. Qed.

Lemma effects_ret {A} (a : A) : effects (ret a) = [].
Proof. reflexivity. Qed.

Lemma M_eta {A} (m : M A) : m = (value m, effects m).
Proof. destruct m; reflexivity. Qed.

Lemma value_mapM {A B} (f : A -> M B) (l : list A) :
  value (mapM f l) = map (fun a => value (f a)) l.
Proof.
  induction l as [|a l IH]; simpl; [reflexivity|].
  rewrite value_bind, value_bind, value_ret, IH. reflexivity.
Qed.

Lemma effects_mapM {A B} (f : A -> M B) (l : list A) :
  effects (mapM f l) = flat_map (fun a => effects (f a)) l.
Proof.
  induction l as [|a l IH]; simpl; [reflexivity|].
  rewrite effects_bind, effects_bind, effects_ret, IH, app_nil_r. reflexivity.
Qed.

Lemma rl_calls_app (t1 t2 : trace) : rl_calls (t1 ++ t2) = rl_calls t1 ++ rl_calls t2.
Proof. unfold rl_calls. apply flat_map_app. Qed.

Lemma warnings_app (t1 t2 : trace) : warnings (t1 ++ t2) = warnings t1 ++ warnings t2.
Proof. unfold warnings. apply flat_map_app. Qed.

(** ** Rationals *)

Lemma Qltb_lt (x y : Q) : Qltb x y = true <-> (x < y)%Q.
Proof.
  unfold Qltb. rewrite negb_true_iff. split; intro H.
  - apply Qnot_le_lt. intro Hle. apply Qle_bool_iff in Hle. congruence.
  - destruct (Qle_bool y x) eqn:E; [|reflexivity].
    apply Qle_bool_iff in E. exfalso. apply (Qlt_not_le _ _ H E).
Qed.

Lemma Qltb_ge (x y : Q) : Qltb x y = false <-> (y <= x)%Q.
Proof.
  unfold Qltb. rewrite negb_false_iff. apply Qle_bool_iff.
Qed.

(** Turns [H : (x ?= y) = c] into the order between [x] and [y]. *)
Ltac compare_to_order H :=
  first [apply Qeq_alt in H | apply Qlt_alt in H | apply Qgt_alt in H].

Lemma round_half_even_bounds (q : Q) :
  Qfloor q <= round_half_even q <= Qfloor q + 1.
Proof.
  unfold round_half_even.
  destruct (Qcompare _ _); [destruct (Z.even _)| |]; lia.
Qed.

(** Rounding to the nearest integer is monotone. *)
Lemma round_half_even_mono (a b : Q) :
  (a <= b)%Q -> round_half_even a <= round_half_even b.
Proof.
  intro Hab.
  pose proof (Qfloor_resp_le _ _ Hab) as Hf.
  destruct (Z.eq_dec (Qfloor a) (Qfloor b)) as [E|NE].
  - unfold round_half_even. rewrite <- E.
    destruct (Qcompare (a - inject_Z (Qfloor a)) (1 # 2)) eqn:Ca;
      destruct (Qcompare (b - inject_Z (Qfloor a)) (1 # 2)) eqn:Cb;
      try (destruct (Z.even (Qfloor a)); lia);
      compare_to_order Ca; compare_to_order Cb; exfalso; lra.
  - pose proof (round_half_even_bounds a). pose proof (round_half_even_bounds b). lia.
Qed.

(** [round(x, 2)] is monotone. *)
Lemma round2_mono (a b : Q) : (a <= b)%Q -> (round2 a <= round2 b)%Q.
Proof.
  intro Hab. unfold round2. rewrite !Qred_correct.
  assert (H : round_half_even (a * 100) <= round_half_even (b * 100)).
  { apply round_half_even_mono. lra. }
  unfold Qle. simpl. lia.
Qed.

(** ** The stable descending sort *)

Section SortFacts.
Context {A : Type} (key : A -> Q).

Lemma insert_desc_perm (x : A) (l : list A) :
  Permutation (insert_desc key x l) (x :: l).
Proof.
  induction l as [|y l IH]; simpl; [reflexivity|].
  destruct (Qltb (key x) (key y)); [|reflexivity].
  rewrite IH. apply perm_swap.
Qed.

Lemma sort_desc_perm (l : list A) : Permutation (sort_desc key l) l.
Proof.
  induction l as [|x l IH]; simpl; [reflexivity|].
  rewrite insert_desc_perm. now constructor.
Qed.

Lemma sort_desc_length (l : list A) : length (sort_desc key l) = length l.
Proof. apply Permutation_length, sort_desc_perm. Qed.

Lemma insert_desc_sorted (x : A) (l : list A) :
  StronglySorted (desc key) l -> StronglySorted (desc key) (insert_desc key x l).
Proof.
  induction 1 as [|y l Hs IH Hy]; simpl.
  - constructor; constructor.
  - destruct (Qltb (key x) (key y)) eqn:E.
    + constructor; [exact IH|].
      apply (Permutation_Forall (Permutation_sym (insert_desc_perm x l))).
      constructor; [|exact Hy].
      apply Qltb_lt in E. unfold desc. lra.
    + apply Qltb_ge in E.
      constructor; [constructor; assumption|].
      constructor; [exact E|].
      eapply Forall_impl; [|exact Hy].
      unfold desc. intros z Hz. lra.
Qed.

(** The sorted list is in descending order of the key. *)
Lemma sort_desc_sorted (l : list A) : StronglySorted (desc key) (sort_desc key l).
Proof.
  induction l as [|x l IH]; simpl; [constructor|].
  now apply insert_desc_sorted.
Qed.

Lemma insert_desc_filter (p : A -> bool) (x : A) (l : list A) :
  (forall y, p x = true -> p y = true -> Qltb (key x) (key y) = false) ->
  filter p (insert_desc key x l) = filter p (x :: l).
Proof.
  intro Hp. induction l as [|y l IH]; [reflexivity|].
  simpl insert_desc. destruct (Qltb (key x) (key y)) eqn:E; [|reflexivity].
  simpl in *. rewrite IH.
  destruct (p x) eqn:Px; [|reflexivity].
  destruct (p y) eqn:Py; [|reflexivity].
  rewrite (Hp y eq_refl Py) in E. discriminate.
Qed.

(** Stability: the elements with a given key come out in the order they went
    in. *)
Lemma sort_desc_stable (s : Q) (l : list A) :
  filter (fun a => Qeq_bool (key a) s) (sort_desc key l)
  = filter (fun a => Qeq_bool (key a) s) l.
Proof.
  induction l as [|x l IH]; [reflexivity|].
  simpl sort_desc. rewrite insert_desc_filter.
  - simpl. rewrite IH. reflexivity.
  - intros y Hx Hy. apply Qltb_ge.
    apply Qeq_bool_iff in Hx. apply Qeq_bool_iff in Hy. lra.
Qed.

End SortFacts.

(** ** [PatientScorer] *)

Section ScorerFacts.
Import PatientScorer.

Lemma risk_scores_get (r : string) :
  dict_get risk_scores r 10
  = if String.eqb r "high" then 30 else if String.eqb r "medium" then 20 else 10.
Proof.
  unfold dict_get, risk_scores. cbn [find fst snd].
  rewrite !(String.eqb_sym _ r).
  repeat (destruct (String.eqb r _); [reflexivity|]). reflexivity.
Qed.

Lemma type_scores_get (a : string) :
  dict_get type_scores a 5
  = if String.eqb a "emergency" then 15
    else if String.eqb a "urgent" then 12
    else if String.eqb a "follow_up" then 8
    else if String.eqb a "consultation" then 5
    else if String.eqb a "checkup" then 3
    else 5.
Proof.
  unfold dict_get, type_scores. cbn [find fst snd].
  rewrite !(String.eqb_sym _ a).
  repeat (destruct (String.eqb a _); [reflexivity|]). reflexivity.
Qed.

Ltac split_ifs :=
  repeat match goal with
         | |- context [if ?c then _ else _] => destruct c
         end.

(** Without the emergency flag the score is the sum of the five terms,
    raised to 1 when below. *)
Lemma calculate_patient_score_sum (patient : Patient.t) (appointment_type : string) :
  calculate_patient_score patient appointment_type false
  = Qmax (inject_Z (risk_level_weight patient + age_bonus patient
                    + condition_severity_bonus patient
                    + appointment_type_weight appointment_type
                    + no_show_adjustment patient)) 1.
Proof.
  unfold calculate_patient_score, risk_level_weight, age_bonus,
    condition_severity_bonus, appointment_type_weight, no_show_adjustment.
  rewrite risk_scores_get, type_scores_get.
  cbv zeta. split_ifs; reflexivity.
Qed.

Lemma score_terms_bounds (patient : Patient.t) (appointment_type : string) :
  3 <= risk_level_weight patient + age_bonus patient
       + condition_severity_bonus patient
       + appointment_type_weight appointment_type
       + no_show_adjustment patient <= 95.
Proof.
  unfold risk_level_weight, age_bonus, condition_severity_bonus,
    appointment_type_weight, no_show_adjustment.
  cbv zeta. split_ifs; lia.
Qed.

Lemma Qmax_1_bounds (z : Z) : 3 <= z <= 95 -> (1 <= Qmax (inject_Z z) 1 <= 100)%Q.
Proof.
  intros [Hl Hu].
  assert (H1 : (1 <= inject_Z z)%Q) by (unfold Qle; simpl; lia).
  assert (H2 : (inject_Z z <= 100)%Q) by (unfold Qle; simpl; lia).
  rewrite (Q.max_l _ _ H1). split; assumption.
Qed.

(** C6.  Whatever the patient and the appointment type, the score computed by
    [calculate_patient_score] lies between 1 and 100.  With the emergency flag
    it is exactly 100.  Without it, it is the sum of the weight of the risk
    level, the age bonus (one of three exclusive brackets), the bonus for the
    severity of the conditions, the base weight of the appointment type and
    the no-show adjustment, raised to 1 when below.  The function reads
    nothing but its arguments: equal arguments give equal scores. *)
Theorem calculate_patient_score_range_and_terms
    (patient : Patient.t) (appointment_type : string) (emergency : bool) :
  (1 <= calculate_patient_score patient appointment_type emergency <= 100)%Q
  /\ calculate_patient_score patient appointment_type true = 100%Q
  /\ calculate_patient_score patient appointment_type false
     = Qmax (inject_Z (risk_level_weight patient + age_bonus patient
                       + condition_severity_bonus patient
                       + appointment_type_weight appointment_type
                       + no_show_adjustment patient)) 1
  /\ (forall patient' appointment_type' emergency',
        patient' = patient /\ appointment_type' = appointment_type
        /\ emergency' = emergency ->
        calculate_patient_score patient' appointment_type' emergency'
        = calculate_patient_score patient appointment_type emergency).
Proof.
  repeat split.
  - destruct emergency; [vm_compute; discriminate|].
    rewrite calculate_patient_score_sum.
    apply Qmax_1_bounds, score_terms_bounds.
  - destruct emergency; [vm_compute; discriminate|].
    rewrite calculate_patient_score_sum.
    apply Qmax_1_bounds, score_terms_bounds.
  - apply calculate_patient_score_sum.
  - intros p' a' e' (-> & -> & ->). reflexivity.
Qed.

End ScorerFacts.

(** ** The scoring loop *)

Section QueueFacts.
Import DynamicQueueManager.

Lemma candidates_eq (session : Session) (q : option (list QueueEntry.t)) :
  candidates session q
  = map (patient_item session q)
      (filter (fun p => negb (is_first_appointment (first_appointment_patient_id q) p))
         (waiting_patients session)).
Proof.
  unfold candidates, score_waiting_patients.
  induction (waiting_patients session) as [|p l IH] using rev_ind; [reflexivity|].
  rewrite fold_left_app, filter_app, map_app. simpl.
  destruct (is_first_appointment _ p); simpl.
  - rewrite app_nil_r. exact IH.
  - rewrite IH. reflexivity.
Qed.

Lemma pinned_eq (session : Session) (q : option (list QueueEntry.t)) :
  pinned session q
  = option_map (patient_item session q)
      (find (is_first_appointment (first_appointment_patient_id q))
         (rev (waiting_patients session))).
Proof.
  unfold pinned, score_waiting_patients.
  induction (waiting_patients session) as [|p l IH] using rev_ind; [reflexivity|].
  rewrite fold_left_app, rev_app_distr. simpl.
  destruct (is_first_appointment _ p); simpl; [reflexivity|exact IH].
Qed.

Lemma patient_item_patient session q p :
  PatientItem.patient (patient_item session q p) = p.
Proof.
  unfold patient_item.
  destruct (queue_patient q p); destruct (filter _ _); reflexivity.
Qed.

Lemma item_id_patient_item session q p :
  item_id (patient_item session q p) = Patient.id p.
Proof. unfold item_id. now rewrite patient_item_patient. Qed.

(** A patient is pinned exactly when the patient of the first raw booking is
    a waiting patient; the pinned item is that patient's. *)
Lemma pinned_some (session : Session) first rest :
  In (QueueEntry.patient_id first) (map Patient.id (waiting_patients session)) ->
  exists item,
    pinned session (Some (first :: rest)) = Some item
    /\ item_id item = QueueEntry.patient_id first.
Proof.
  intro Hin. rewrite pinned_eq. simpl.
  apply in_map_iff in Hin. destruct Hin as (p & Hp & Hin).
  destruct (find _ (rev (waiting_patients session))) as [p'|] eqn:F.
  - apply find_some in F. destruct F as [_ F]. apply Z.eqb_eq in F.
    eexists; split; [reflexivity|]. now rewrite item_id_patient_item.
  - exfalso. apply in_rev in Hin.
    pose proof (find_none _ _ F p Hin) as N.
    simpl in N. rewrite Hp, Z.eqb_refl in N. discriminate.
Qed.

Lemma pinned_none (session : Session) (q : option (list QueueEntry.t)) :
  (forall p, In p (waiting_patients session) ->
             is_first_appointment (first_appointment_patient_id q) p = false) ->
  pinned session q = None.
Proof.
  intro H. rewrite pinned_eq.
  destruct (find _ _) as [p|] eqn:F; [|reflexivity].
  apply find_some in F. destruct F as [Hin F].
  apply in_rev in Hin. rewrite (H p Hin) in F. discriminate.
Qed.

Lemma pinned_item_first (session : Session) (q : option (list QueueEntry.t)) item :
  pinned session q = Some item ->
  In (PatientItem.patient item) (waiting_patients session)
  /\ first_appointment_patient_id q = Some (item_id item).
Proof.
  rewrite pinned_eq. intro H.
  destruct (find _ _) as [p|] eqn:F; [|discriminate].
  injection H as <-. apply find_some in F. destruct F as [Hin F].
  rewrite patient_item_patient, item_id_patient_item. split; [now apply in_rev|].
  unfold is_first_appointment in F.
  destruct (first_appointment_patient_id q); [|discriminate].
  apply Z.eqb_eq in F. now rewrite F.
Qed.

(** ** The oracle loop *)

Lemma value_consult rl item :
  value (consult rl item)
  = match rl (item_id item) (PatientItem.appointment_type item)
            (Patient.risk_level (PatientItem.patient item)) with
    | RLReturns rl_rec =>
        PatientItem.mk (PatientItem.patient item)
          (boosted_score (PatientItem.score item) rl_rec)
          (PatientItem.appointment_type item) (PatientItem.is_emergency item)
          (PatientItem.wait_time_minutes item) rl_rec
    | RLRaises => item
    end.
Proof.
  unfold consult, item_id. rewrite value_bind.
  destruct (rl _ _ _); [|reflexivity].
  rewrite value_bind. reflexivity.
Qed.

Lemma rl_calls_consult rl item :
  rl_calls (effects (consult rl item)) = [item_id item].
Proof.
  unfold consult, item_id. rewrite effects_bind.
  destruct (rl _ _ _); [|reflexivity].
  rewrite effects_bind. reflexivity.
Qed.

Lemma consult_patient rl item :
  PatientItem.patient (value (consult rl item)) = PatientItem.patient item.
Proof. rewrite value_consult. destruct (rl _ _ _); reflexivity. Qed.

Lemma consult_appointment_type rl item :
  PatientItem.appointment_type (value (consult rl item))
  = PatientItem.appointment_type item.
Proof. rewrite value_consult. destruct (rl _ _ _); reflexivity. Qed.

Lemma value_consult_top rl l :
  value (consult_top rl l)
  = map (fun item => value (consult rl item)) (firstn 10 l) ++ skipn 10 l.
Proof.
  unfold consult_top. rewrite value_bind, value_ret, value_mapM. reflexivity.
Qed.

Lemma consult_top_ids rl l :
  map item_id (value (consult_top rl l)) = map item_id l.
Proof.
  rewrite value_consult_top, map_app, map_map.
  rewrite <- (firstn_skipn 10 l) at 3. rewrite map_app. f_equal.
  apply map_ext. intro item. unfold item_id. now rewrite consult_patient.
Qed.

Lemma value_ranked_patients rl l :
  value (ranked_patients rl l)
  = sort_desc PatientItem.score (value (consult_top rl l)).
Proof. unfold ranked_patients. now rewrite value_bind, value_ret. Qed.

Lemma ranked_eq rl session q :
  ranked rl session q = sort_desc PatientItem.score (boosted rl session q).
Proof. apply value_ranked_patients. Qed.

Lemma ranked_ids_perm rl session q :
  Permutation (map item_id (ranked rl session q)) (map item_id (candidates session q)).
Proof.
  rewrite ranked_eq. unfold boosted.
  rewrite <- (consult_top_ids rl (candidates session q)).
  apply Permutation_map, sort_desc_perm.
Qed.

(** ** Formatting *)

Lemma format_scored_ids items position total cumulative :
  map Ticket.id (format_scored items position total cumulative) = map item_id items.
Proof.
  revert position cumulative.
  induction items as [|item items IH]; intros; [reflexivity|].
  simpl. destruct (if position =? total then _ else _) as [w c].
  simpl. now rewrite IH.
Qed.

Lemma format_scored_scores items position total cumulative :
  map Ticket.score (format_scored items position total cumulative)
  = map (fun item => round2 (PatientItem.score item)) items.
Proof.
  revert position cumulative.
  induction items as [|item items IH]; intros; [reflexivity|].
  simpl. destruct (if position =? total then _ else _) as [w c].
  simpl. now rewrite IH.
Qed.

(** The snapshot when a patient is pinned. *)
Lemma snapshot_pinned rl session q item :
  pinned session q = Some item ->
  let items := ranked rl session q in
  let total := Z.of_nat (length items) + 1 in
  snapshot rl session q
  = first_queue_item item (if total =? 1 then 0 else duration_of item) (duration_of item)
    :: format_scored items 2 total (if negb (total =? 1) then duration_of item else 0).
Proof.
  intros Hp items total. subst items total.
  unfold snapshot, calculate_queue_order, ranked, pinned, candidates in *.
  destruct (score_waiting_patients session q) as [scored first]. simpl in Hp. subst first.
  simpl fst. rewrite value_bind. reflexivity.
Qed.

(** The snapshot when no patient is pinned. *)
Lemma snapshot_unpinned rl session q :
  pinned session q = None ->
  let items := ranked rl session q in
  snapshot rl session q = format_scored items 1 (Z.of_nat (length items)) 0.
Proof.
  intros Hp items. subst items.
  unfold snapshot, calculate_queue_order, ranked, pinned, candidates in *.
  destruct (score_waiting_patients session q) as [scored first]. simpl in Hp. subst first.
  simpl fst. rewrite value_bind. simpl. now rewrite Z.add_0_r.
Qed.

End QueueFacts.

(** ** Who is in the snapshot *)

Section Membership.
Import DynamicQueueManager.

Lemma ranked_length rl session q :
  length (ranked rl session q) = length (candidates session q).
Proof.
  rewrite <- (length_map item_id (ranked rl session q)).
  rewrite <- (length_map item_id (candidates session q)).
  apply Permutation_length, ranked_ids_perm.
Qed.

Lemma candidates_ids session q :
  map item_id (candidates session q)
  = map Patient.id
      (filter (fun p => negb (is_first_appointment (first_appointment_patient_id q) p))
         (waiting_patients session)).
Proof.
  rewrite candidates_eq, map_map. apply map_ext. intro p.
  apply item_id_patient_item.
Qed.

Lemma waiting_patients_spec session p :
  In p (waiting_patients session) <->
  In p (patients session)
  /\ ~ exists apt, In apt (appointments session)
                  /\ Appointment.patient_id apt = Patient.id p
                  /\ Appointment.status apt = "scheduled"%string.
Proof.
  unfold waiting_patients, scheduled_patient_ids.
  rewrite filter_In, negb_true_iff.
  split; intros [Hin H]; (split; [exact Hin|]).
  - intros (apt & Ha & Hid & Hs).
    assert (E : existsb (Z.eqb (Patient.id p))
                  (map Appointment.patient_id
                     (filter (fun apt => String.eqb (Appointment.status apt) "scheduled")
                        (appointments session))) = true).
    { apply existsb_exists. exists (Patient.id p). split; [|apply Z.eqb_refl].
      apply in_map_iff. exists apt. split; [exact Hid|].
      apply filter_In. split; [exact Ha|]. now apply String.eqb_eq. }
    congruence.
  - destruct (existsb _ _) eqn:E; [|reflexivity].
    exfalso. apply H. apply existsb_exists in E. destruct E as (i & Hi & Ei).
    apply Z.eqb_eq in Ei. subst i.
    apply in_map_iff in Hi. destruct Hi as (apt & Hid & Ha).
    apply filter_In in Ha. destruct Ha as [Ha Hs].
    exists apt. repeat split; try assumption. now apply String.eqb_eq.
Qed.

Lemma perm_in_iff {A} (x : A) (l l' : list A) :
  Permutation l l' -> (In x l <-> In x l').
Proof.
  intro H. split; apply Permutation_in; [exact H|now apply Permutation_sym].
Qed.

(** The ids of the snapshot are the ids of the waiting patients. *)
Lemma snapshot_ids rl session q pid :
  In pid (map Ticket.id (snapshot rl session q))
  <-> In pid (map Patient.id (waiting_patients session)).
Proof.
  destruct (pinned session q) as [item|] eqn:P.
  - rewrite (snapshot_pinned rl session q item P). simpl.
    rewrite format_scored_ids, (perm_in_iff pid _ _ (ranked_ids_perm rl session q)).
    rewrite candidates_ids.
    destruct (pinned_item_first session q item P) as [Hw Hf].
    rewrite !in_map_iff. split.
    + intros [<- | (p & Hp & Hin)].
      * exists (PatientItem.patient item). split; [reflexivity|exact Hw].
      * apply filter_In in Hin. exists p. tauto.
    + intros (p & Hp & Hin).
      destruct (is_first_appointment (first_appointment_patient_id q) p) eqn:F.
      * left. rewrite Hf in F. simpl in F. apply Z.eqb_eq in F.
        unfold item_id in F. congruence.
      * right. exists p. split; [exact Hp|]. apply filter_In. now rewrite F.
  - rewrite (snapshot_unpinned rl session q P).
    rewrite format_scored_ids, (perm_in_iff pid _ _ (ranked_ids_perm rl session q)).
    rewrite candidates_ids, !in_map_iff.
    split; intros (p & Hp & Hin); exists p; (split; [exact Hp|]).
    + apply filter_In in Hin. tauto.
    + apply filter_In. split; [exact Hin|].
      rewrite pinned_eq in P.
      destruct (find _ _) eqn:F; [discriminate|].
      apply in_rev in Hin. now rewrite (find_none _ _ F p Hin).
Qed.

(** C10.  The patients of a snapshot of [calculate_queue_order] are the rows
    of the patient table that have no appointment with status "scheduled",
    whatever the raw booking queue holds.  So a waiting patient appears
    whether booked or not, and a booked patient with a scheduled appointment
    does not appear; both happen in the sample where patient 1 is booked and
    scheduled and patient 3 never booked. *)
Theorem snapshot_members_are_unscheduled_patients
    (rl : Oracle) (session : Session) (q : option (list QueueEntry.t)) :
  (forall pid,
     In pid (map Ticket.id (snapshot rl session q))
     <-> exists p, In p (patients session) /\ Patient.id p = pid
                   /\ ~ exists apt, In apt (appointments session)
                                    /\ Appointment.patient_id apt = pid
                                    /\ Appointment.status apt = "scheduled"%string)
  /\ (~ In 3 (map QueueEntry.patient_id Samples.booked_1_2)
      /\ In 3 (map Ticket.id
                 (snapshot rl Samples.head_scheduled (Some Samples.booked_1_2))))
  /\ (In 1 (map QueueEntry.patient_id Samples.booked_1_2)
      /\ ~ In 1 (map Ticket.id
                   (snapshot rl Samples.head_scheduled (Some Samples.booked_1_2)))).
Proof.
  assert (G : forall session q pid,
     In pid (map Ticket.id (snapshot rl session q))
     <-> exists p, In p (patients session) /\ Patient.id p = pid
                   /\ ~ exists apt, In apt (appointments session)
                                    /\ Appointment.patient_id apt = pid
                                    /\ Appointment.status apt = "scheduled"%string).
  { clear. intros session q pid.
    rewrite snapshot_ids, in_map_iff. split.
    - intros (p & Hp & Hin). apply waiting_patients_spec in Hin.
      exists p. rewrite <- Hp. tauto.
    - intros (p & Hin & Hp & Hn). exists p. split; [exact Hp|].
      apply waiting_patients_spec. rewrite Hp. tauto. }
  split; [apply G|]. split; split.
  - simpl. intros [H|[H|[]]]; discriminate.
  - apply G. exists (Samples.patient 3 30 "low"). simpl. repeat split; [tauto|].
    intros (apt & [<-|[]] & H & _). discriminate.
  - simpl. tauto.
  - rewrite G. intros (p & _ & Hp & Hn). apply Hn.
    exists (Appointment.mk 1 "consultation" "scheduled"). simpl. tauto.
Qed.

End Membership.

(** ** The pinned head *)

Section PinnedHead.
Import DynamicQueueManager.

(** Patient 1 booked first but holds a scheduled appointment: the snapshot
    is patient 3 (who never booked) at position 1, then patient 2; the
    patient of the first raw booking is not in it. *)
Lemma first_booking_not_pinned_when_scheduled :
  map Ticket.id (snapshot Samples.no_boost Samples.head_scheduled
                   (Some Samples.booked_1_2)) = [3; 2]
  /\ ~ pinned_head_holds Samples.no_boost Samples.head_scheduled
         (Samples.entry 1 "checkup" false 10) [Samples.entry 2 "checkup" false 20].
Proof.
  split; [reflexivity|].
  intros (t & others & Hs & Hid & _).
  vm_compute in Hs. injection Hs as <- _. discriminate Hid.
Qed.

Lemma pinned_head_of_waiting_patient
    (rl : Oracle) (session : Session) (first : QueueEntry.t) (rest : list QueueEntry.t) :
  In (QueueEntry.patient_id first) (map Patient.id (waiting_patients session)) ->
  pinned_head_holds rl session first rest.
Proof.
  intro Hin.
  destruct (pinned_some session first rest Hin) as (item & P & Hid).
  unfold pinned_head_holds. rewrite (snapshot_pinned rl _ _ item P).
  eexists; eexists. split; [reflexivity|]. split; [exact Hid|reflexivity].
Qed.

(** Where the pin works.  When the patient of the first raw booking is a
    waiting patient (a row of the patient table without a scheduled
    appointment), the snapshot starts with that patient's ticket, at
    position 1, whatever the scores of the others and whatever the oracle
    answers; and computing the snapshot again with other oracle answers gives
    the same first ticket. *)
Theorem first_booking_pinned_when_waiting
    (rl : Oracle) (session : Session) (first : QueueEntry.t) (rest : list QueueEntry.t) :
  In (QueueEntry.patient_id first) (map Patient.id (waiting_patients session)) ->
  pinned_head_holds rl session first rest
  /\ (forall rl',
        hd_error (snapshot rl' session (Some (first :: rest)))
        = hd_error (snapshot rl session (Some (first :: rest)))).
Proof.
  intro Hin. split; [now apply pinned_head_of_waiting_patient|].
  destruct (pinned_some session first rest Hin) as (item & P & Hid).
  intro rl'.
  rewrite (snapshot_pinned rl _ _ item P), (snapshot_pinned rl' _ _ item P).
  cbv zeta. simpl. now rewrite !ranked_length.
Qed.

Lemma first_booking_pinned_when_waiting_witness :
  pinned_head_holds Samples.boost5 Samples.three_patients
    (Samples.entry 1 "checkup" false 10)
    [Samples.entry 3 "checkup" false 20; Samples.entry 2 "checkup" false 30].
Proof.
  apply (first_booking_pinned_when_waiting Samples.boost5 Samples.three_patients).
  simpl. tauto.
Defined.

End PinnedHead.

(** ** [reorder_queue_for_emergency] *)

Section Emergency.
Import DynamicQueueManager.

Lemma session_get_id session pid p :
  session_get session pid = Some p -> Patient.id p = pid /\ In p (patients session).
Proof.
  unfold session_get. intro H. apply find_some in H. destruct H as [Hin H].
  now apply Z.eqb_eq in H.
Qed.

Lemma session_lookup_present session pid p :
  session_get session pid = Some p -> session_lookup session pid = LookupReturns (Some p).
Proof. intro H. unfold session_lookup. now rewrite H. Qed.

Lemma session_lookup_absent session pid :
  session_get session pid = None ->
  session_lookup session pid
  = if sqlite_integer pid then LookupReturns None else LookupRaises.
Proof. intro H. unfold session_lookup. now rewrite H. Qed.

Lemma value_reorder_absent rl session pid :
  session_get session pid = None ->
  value (reorder_queue_for_emergency rl session pid) = snapshot rl session None.
Proof.
  intro H. unfold reorder_queue_for_emergency, snapshot.
  rewrite value_bind, (session_lookup_absent _ _ H).
  destruct (sqlite_integer pid); [reflexivity|].
  now rewrite value_bind.
Qed.

Lemma effects_reorder_absent rl session pid :
  session_get session pid = None ->
  effects (reorder_queue_for_emergency rl session pid)
  = if sqlite_integer pid
    then effects (calculate_queue_order rl session None)
    else effects (calculate_queue_order rl session None)
         ++ LogError :: effects (calculate_queue_order rl session None).
Proof.
  intro H. unfold reorder_queue_for_emergency.
  rewrite effects_bind, (session_lookup_absent _ _ H).
  destruct (sqlite_integer pid).
  - rewrite effects_ret. apply app_nil_r.
  - now rewrite effects_bind.
Qed.

Lemma value_reorder_present rl session pid p :
  session_get session pid = Some p ->
  value (reorder_queue_for_emergency rl session pid)
  = emergency_item p
    :: map delay_item
         (filter (fun item => negb (Ticket.id item =? pid)) (snapshot rl session None)).
Proof.
  intro H. unfold reorder_queue_for_emergency.
  rewrite value_bind, (session_lookup_present _ _ _ H). reflexivity.
Qed.

(** C5.  When the patient id is that of a row of the patient table,
    [reorder_queue_for_emergency] returns a list that starts with a ticket of
    that patient with score 100, position 1, estimated wait 0 and status
    "emergency", followed by every other ticket of the ordering it computed
    (the queue order without the booking queue), in the same order, each
    with its position raised by exactly 1 and its estimated wait by exactly
    15 minutes, and its score untouched. *)
Theorem reorder_queue_for_emergency_puts_patient_first
    (rl : Oracle) (session : Session) (emergency_patient_id : Z) (p : Patient.t) :
  session_get session emergency_patient_id = Some p ->
  exists e rest,
    value (reorder_queue_for_emergency rl session emergency_patient_id) = e :: rest
    /\ Ticket.id e = emergency_patient_id
    /\ Ticket.score e = 100%Q
    /\ Ticket.queue_position e = 1
    /\ Ticket.estimated_wait_minutes e = 0
    /\ Ticket.status e = "emergency"%string
    /\ Forall2
         (fun old new =>
            Ticket.id new = Ticket.id old
            /\ Ticket.queue_position new = Ticket.queue_position old + 1
            /\ Ticket.estimated_wait_minutes new = Ticket.estimated_wait_minutes old + 15
            /\ Ticket.score new = Ticket.score old)
         (filter (fun t => negb (Ticket.id t =? emergency_patient_id))
            (snapshot rl session None))
         rest.
Proof.
  intro H. rewrite (value_reorder_present rl session _ p H).
  eexists; eexists. split; [reflexivity|].
  destruct (session_get_id _ _ _ H) as [Hid _].
  repeat split; try assumption.
  induction (filter _ _) as [|t l IH]; simpl; constructor; [|exact IH].
  repeat split.
Qed.

Lemma reorder_queue_for_emergency_puts_patient_first_witness :
  exists e rest,
    value (reorder_queue_for_emergency Samples.no_boost Samples.three_patients 2)
    = e :: rest
    /\ Ticket.id e = 2
    /\ Ticket.score e = 100%Q
    /\ Ticket.queue_position e = 1
    /\ Ticket.estimated_wait_minutes e = 0
    /\ Ticket.status e = "emergency"%string
    /\ Forall2
         (fun old new =>
            Ticket.id new = Ticket.id old
            /\ Ticket.queue_position new = Ticket.queue_position old + 1
            /\ Ticket.estimated_wait_minutes new = Ticket.estimated_wait_minutes old + 15
            /\ Ticket.score new = Ticket.score old)
         (filter (fun t => negb (Ticket.id t =? 2))
            (snapshot Samples.no_boost Samples.three_patients None))
         rest.
Proof.
  apply (reorder_queue_for_emergency_puts_patient_first Samples.no_boost
           Samples.three_patients 2 (Samples.patient 2 30 "low")).
  reflexivity.
Defined.

(** C8, as stated, fails.  No patient has id 99; the call returns the queue
    order it computed, and its trace holds the oracle calls of that
    computation and nothing else: no warning and no error record. *)
Lemma reorder_for_unknown_patient_logs_nothing :
  session_get Samples.three_patients 99 = None
  /\ value (reorder_queue_for_emergency Samples.no_boost Samples.three_patients 99)
     = snapshot Samples.no_boost Samples.three_patients None
  /\ effects (reorder_queue_for_emergency Samples.no_boost Samples.three_patients 99)
     = [RLCall 1 "consultation" "low"; RLCall 2 "consultation" "low";
        RLCall 3 "consultation" "low"]
  /\ ~ exists w,
         In w (warnings
                 (effects (reorder_queue_for_emergency Samples.no_boost
                             Samples.three_patients 99))).
Proof.
  split; [reflexivity|]. split; [reflexivity|]. split; [reflexivity|].
  intros (w & H). vm_compute in H. exact H.
Qed.

(** What happens past the range of SQLite's integers: no patient has id
    2^63, the lookup raises, an error is logged between two computations of
    the queue order, and the second one is returned. *)
Lemma reorder_for_unbindable_patient_logs_an_error :
  value (reorder_queue_for_emergency Samples.no_boost Samples.three_patients (2 ^ 63))
  = snapshot Samples.no_boost Samples.three_patients None
  /\ effects (reorder_queue_for_emergency Samples.no_boost Samples.three_patients (2 ^ 63))
     = [RLCall 1 "consultation" "low"; RLCall 2 "consultation" "low";
        RLCall 3 "consultation" "low"; LogError;
        RLCall 1 "consultation" "low"; RLCall 2 "consultation" "low";
        RLCall 3 "consultation" "low"].
Proof. split; reflexivity. Qed.

(** C8, amended.  When the patient id is that of no row of the patient
    table, [reorder_queue_for_emergency] returns the list of
    [calculate_queue_order] without the booking queue, unchanged, and it
    returns: it does not raise.  It logs no warning of its own.  For an id
    that SQLite can hold it is [calculate_queue_order] itself, trace
    included; for an id out of that range the lookup raises, and the trace is
    that of the computation, one error record, and the computation a second
    time, so the warnings of the computation appear twice and the oracle is
    consulted twice. *)
Theorem reorder_queue_for_emergency_unknown_patient
    (rl : Oracle) (session : Session) (emergency_patient_id : Z) :
  session_get session emergency_patient_id = None ->
  value (reorder_queue_for_emergency rl session emergency_patient_id)
  = value (calculate_queue_order rl session None)
  /\ (sqlite_integer emergency_patient_id = true ->
      reorder_queue_for_emergency rl session emergency_patient_id
      = calculate_queue_order rl session None)
  /\ (sqlite_integer emergency_patient_id = false ->
      effects (reorder_queue_for_emergency rl session emergency_patient_id)
      = effects (calculate_queue_order rl session None)
        ++ LogError :: effects (calculate_queue_order rl session None)).
Proof.
  intro H. split; [exact (value_reorder_absent rl _ _ H)|].
  pose proof (effects_reorder_absent rl _ _ H) as E.
  split; intro R; rewrite R in E; [|exact E].
  rewrite (M_eta (reorder_queue_for_emergency rl session emergency_patient_id)),
    (M_eta (calculate_queue_order rl session None)).
  now rewrite E, (value_reorder_absent rl _ _ H).
Qed.

Lemma reorder_queue_for_emergency_unknown_patient_witness :
  reorder_queue_for_emergency Samples.failing Samples.three_patients 99
  = calculate_queue_order Samples.failing Samples.three_patients None
  /\ effects (reorder_queue_for_emergency Samples.failing Samples.three_patients (2 ^ 63))
     = effects (calculate_queue_order Samples.failing Samples.three_patients None)
       ++ LogError
          :: effects (calculate_queue_order Samples.failing Samples.three_patients None).
Proof.
  split.
  - apply (reorder_queue_for_emergency_unknown_patient Samples.failing
             Samples.three_patients 99); reflexivity.
  - apply (reorder_queue_for_emergency_unknown_patient Samples.failing
             Samples.three_patients (2 ^ 63)); reflexivity.
Defined.

End Emergency.

(** ** [/next_patient] *)

Section NextPatient.
Import Main.

(** C7, as stated, fails.  On an empty queue the endpoint raises an
    [HTTPException] with status 400; it returns no value. *)
Lemma next_patient_on_empty_queue_raises :
  fst (value (get_next_patient_rl Samples.no_boost Samples.str_exn 0
                (mkState Samples.three_patients [] [])))
  = Raised (HTTPException 400 "Error getting next patient: Queue is empty")
  /\ ~ exists r,
         fst (value (get_next_patient_rl Samples.no_boost Samples.str_exn 0
                       (mkState Samples.three_patients [] [])))
         = Returned r.
Proof.
  split; [reflexivity|]. intros (r & H). discriminate H.
Qed.

(** C7, amended.  On an empty queue [get_next_patient_rl] raises an
    [HTTPException] with status 400 whose detail wraps the "Queue is empty"
    error; the oracle is not called, and the queue and the completed history
    stay as they were. *)
Theorem next_patient_empty_queue
    (rl : Oracle) (str : Exn -> string) (now : Z) (st : State) :
  appointment_queue st = [] ->
  get_next_patient_rl rl str now st
  = (Raised (HTTPException 400
               ("Error getting next patient: "
                ++ str (HTTPException 400 "Queue is empty"))),
     st, []).
Proof.
  intro H. unfold get_next_patient_rl. rewrite H. reflexivity.
Qed.

Lemma next_patient_empty_queue_witness :
  get_next_patient_rl Samples.boost5 Samples.str_exn 7
    (mkState Samples.three_patients [] [])
  = (Raised (HTTPException 400 "Error getting next patient: Queue is empty"),
     mkState Samples.three_patients [] [], []).
Proof.
  apply (next_patient_empty_queue Samples.boost5 Samples.str_exn 7
           (mkState Samples.three_patients [] [])).
  reflexivity.
Defined.

(** What one call does to the two lists when the queue is not empty: the
    history gains exactly one record at its end; the queue loses its first
    entry (FIFO fallback) or every entry of the selected patient. *)
Lemma next_patient_effect (rl : Oracle) (str : Exn -> string) (now : Z) (st : State) :
  appointment_queue st <> [] ->
  let st' := snd (value (get_next_patient_rl rl str now st)) in
  (exists c, completed_patients st' = completed_patients st ++ [c]
             /\ completion_order c = Z.of_nat (length (completed_patients st)) + 1)
  /\ match snapshot rl (db st) (Some (appointment_queue st)) with
     | selected :: _ =>
         appointment_queue st'
         = filter (fun p => negb (QueueEntry.patient_id p =? Ticket.id selected))
             (appointment_queue st)
     | [] => appointment_queue st' = tl (appointment_queue st)
     end.
Proof.
  intro Hne. unfold get_next_patient_rl, snapshot.
  destruct (appointment_queue st) as [|first others] eqn:Q; [congruence|].
  rewrite value_bind.
  destruct (value (DynamicQueueManager.calculate_queue_order rl (db st)
                     (Some (first :: others)))) as [|selected rest];
    simpl; (split; [eexists; split; reflexivity|reflexivity]).
Qed.

(** C2, at the failing input.  Patient 1 has two entries in the queue of
    three; one call of [get_next_patient_rl] admits patient 1 and removes
    both: the queue goes from 3 entries to 1 while the history gains one
    record. *)
Lemma next_patient_removes_every_booking_of_the_patient :
  let st := mkState Samples.three_patients Samples.booked_1_2_1 [] in
  let st' := snd (value (get_next_patient_rl Samples.no_boost Samples.str_exn 0 st)) in
  length (appointment_queue st) = 3%nat
  /\ appointment_queue st' = [Samples.entry 2 "checkup" false 20]
  /\ length (appointment_queue st') = 1%nat
  /\ length (completed_patients st') = 1%nat.
Proof. vm_compute. repeat split. Qed.

(** The other way round: patient 1, booked first, holds a scheduled
    appointment, so the ticket at position 1 is patient 3, who never booked;
    the call records patient 3 as completed and removes nothing. *)
Lemma next_patient_may_remove_no_booking :
  let st := mkState Samples.head_scheduled Samples.booked_1_2 [] in
  let st' := snd (value (get_next_patient_rl Samples.no_boost Samples.str_exn 0 st)) in
  appointment_queue st' = appointment_queue st
  /\ length (completed_patients st') = 1%nat.
Proof. vm_compute. repeat split. Qed.

End NextPatient.

(** ** The oracle *)

Section OracleFacts.
Import DynamicQueueManager.

Lemma rl_calls_mapM_consult rl l :
  rl_calls (effects (mapM (consult rl) l)) = map item_id l.
Proof.
  rewrite effects_mapM.
  induction l as [|item l IH]; [reflexivity|].
  simpl. now rewrite rl_calls_app, rl_calls_consult, IH.
Qed.

Lemma effects_calculate_queue_order rl session q :
  effects (calculate_queue_order rl session q)
  = effects (mapM (consult rl) (firstn 10 (candidates session q))).
Proof.
  unfold calculate_queue_order, candidates.
  destruct (score_waiting_patients session q) as [scored first]. simpl fst.
  rewrite effects_bind. unfold ranked_patients, consult_top.
  rewrite !effects_bind, !effects_ret, !app_nil_r.
  destruct first; simpl; now rewrite app_nil_r.
Qed.

(** The oracle is asked about the first ten candidates in the order of the
    patient table, once each, and about nobody else. *)
Lemma oracle_calls_are_first_ten_candidates rl session q :
  rl_calls (effects (calculate_queue_order rl session q))
  = map item_id (firstn 10 (candidates session q)).
Proof. now rewrite effects_calculate_queue_order, rl_calls_mapM_consult. Qed.

(** At most ten calls per snapshot. *)
Lemma oracle_calls_at_most_ten rl session q :
  (length (rl_calls (effects (calculate_queue_order rl session q))) <= 10)%nat.
Proof.
  rewrite oracle_calls_are_first_ten_candidates, length_map.
  apply firstn_le_length.
Qed.

(** A call that raises, returns [None] or returns a dict without a boost
    leaves the score as it was; a returned boost is added. *)
Lemma consult_score rl item :
  PatientItem.score (value (consult rl item))
  = match rl (item_id item) (PatientItem.appointment_type item)
            (Patient.risk_level (PatientItem.patient item)) with
    | RLRaises => PatientItem.score item
    | RLReturns None => PatientItem.score item
    | RLReturns (Some r) =>
        match urgency_boost r with
        | None => PatientItem.score item
        | Some b => if Qeq_bool b 0 then PatientItem.score item
                    else (PatientItem.score item + b)%Q
        end
    end.
Proof.
  rewrite value_consult.
  destruct (rl _ _ _) as [|[r|]]; reflexivity.
Qed.

(** C9, at the failing input.  Eleven patients wait; the eleventh has the
    highest base score (70 against 30).  The oracle, ready to add 5 points to
    anyone, is asked about patients 1 to 10, the first ten rows of the
    table, and not about patient 11: the ten lowest scores are boosted to 35,
    the top candidate is never submitted. *)
Lemma oracle_consulted_in_table_order_not_by_score :
  map (fun item => (item_id item, PatientItem.score item))
      (candidates Samples.eleven_patients None)
  = [(1, 30%Q); (2, 30%Q); (3, 30%Q); (4, 30%Q); (5, 30%Q); (6, 30%Q);
     (7, 30%Q); (8, 30%Q); (9, 30%Q); (10, 30%Q); (11, 70%Q)]
  /\ rl_calls (effects (calculate_queue_order Samples.boost5
                          Samples.eleven_patients None))
     = [1; 2; 3; 4; 5; 6; 7; 8; 9; 10]
  /\ map (fun t => (Ticket.id t, Ticket.score t, Ticket.rl_optimized t))
         (snapshot Samples.boost5 Samples.eleven_patients None)
     = [(11, 70%Q, false); (1, 35%Q, true); (2, 35%Q, true); (3, 35%Q, true);
        (4, 35%Q, true); (5, 35%Q, true); (6, 35%Q, true); (7, 35%Q, true);
        (8, 35%Q, true); (9, 35%Q, true); (10, 35%Q, true)].
Proof. vm_compute. repeat split. Qed.

End OracleFacts.

(** ** Wait estimates *)

Section Waits.
Import DynamicQueueManager.

Lemma format_scored_durations items position total cumulative :
  map duration (format_scored items position total cumulative)
  = map duration_of items.
Proof.
  revert position cumulative.
  induction items as [|item items IH]; intros; [reflexivity|].
  simpl. destruct (if position =? total then _ else _) as [w c].
  simpl. now rewrite IH.
Qed.

Lemma format_scored_length items position total cumulative :
  length (format_scored items position total cumulative) = length items.
Proof.
  rewrite <- (length_map duration), format_scored_durations. apply length_map.
Qed.

(** From position 2 on: the last ticket gets 0, every other one the running
    total of the durations before it. *)
Lemma format_scored_wait items :
  forall position total cumulative k t,
    2 <= position ->
    total = position + Z.of_nat (length items) - 1 ->
    nth_error (format_scored items position total cumulative) k = Some t ->
    Ticket.estimated_wait_minutes t
    = if (S k =? length items)%nat then 0
      else cumulative + Zsum (map duration_of (firstn k items)).
Proof.
  induction items as [|item items IH]; intros p T c k t Hp HT Hk.
  - destruct k; discriminate.
  - simpl in Hk. simpl length in *.
    destruct k as [|k].
    + destruct (Z.eqb_spec p T) as [E|NE].
      * injection Hk as <-. simpl.
        destruct items; [reflexivity|simpl in *; lia].
      * destruct (Z.eqb_spec p 1) as [E1|_]; [lia|].
        injection Hk as <-. simpl.
        destruct items; [simpl in *; lia|]. simpl. lia.
    + destruct (Z.eqb_spec p T) as [E|NE].
      * destruct items; [destruct k; discriminate|simpl in *; lia].
      * destruct (Z.eqb_spec p 1) as [E1|_]; [lia|].
        simpl in Hk.
        rewrite (IH (p + 1) T (c + duration_of item) k t); [|lia|lia|exact Hk].
        change (S (S k) =? S (length items))%nat with (S k =? length items)%nat.
        destruct (S k =? length items)%nat; [reflexivity|]. simpl. lia.
Qed.

Lemma total_duration_firstn_format k items position total cumulative :
  total_duration (firstn k (format_scored items position total cumulative))
  = Zsum (map duration_of (firstn k items)).
Proof.
  unfold total_duration. now rewrite <- firstn_map, format_scored_durations, firstn_map.
Qed.

Lemma format_scored_cons item rest position total cumulative :
  format_scored (item :: rest) position total cumulative
  = queue_item item position
      (if position =? total then 0
       else if position =? 1 then duration_of item else cumulative)
      (duration_of item)
    :: format_scored rest (position + 1) total
         (if position =? total then cumulative
          else if position =? 1 then duration_of item
          else cumulative + duration_of item).
Proof.
  simpl. destruct (position =? total); [reflexivity|].
  destruct (position =? 1); reflexivity.
Qed.

Lemma total_duration_cons t l : total_duration (t :: l) = duration t + total_duration l.
Proof. reflexivity. Qed.

(** The estimate of the ticket at index [k] of a snapshot. *)
Lemma snapshot_wait rl session q k t :
  nth_error (snapshot rl session q) k = Some t ->
  Ticket.estimated_wait_minutes t
  = if (S k =? length (snapshot rl session q))%nat then 0
    else if (k =? 0)%nat then duration t
    else total_duration (firstn k (snapshot rl session q)).
Proof.
  destruct (pinned session q) as [item|] eqn:P.
  - rewrite (snapshot_pinned rl session q item P). cbv zeta.
    set (items := ranked rl session q).
    intro Hk. simpl length. rewrite format_scored_length.
    destruct k as [|k].
    + injection Hk as <-. simpl.
      destruct items; [reflexivity|].
      simpl length. destruct (Z.eqb_spec (Z.of_nat (S (length items)) + 1) 1); [lia|].
      reflexivity.
    + simpl in Hk.
      assert (Hlen : (k < length items)%nat).
      { rewrite <- (format_scored_length items 2 (Z.of_nat (length items) + 1)
                      (if negb (Z.of_nat (length items) + 1 =? 1)
                       then duration_of item else 0)).
        apply nth_error_Some. congruence. }
      eapply format_scored_wait in Hk; [|lia|lia]. rewrite Hk.
      change (S (S k) =? S (length items))%nat with (S k =? length items)%nat.
      destruct (S k =? length items)%nat eqn:E; [reflexivity|].
      change (S k =? 0)%nat with false. cbv iota.
      rewrite firstn_cons, total_duration_cons, total_duration_firstn_format.
      destruct (Z.eqb_spec (Z.of_nat (length items) + 1) 1) as [E1|_]; [lia|].
      reflexivity.
  - rewrite (snapshot_unpinned rl session q P). cbv zeta.
    set (items := ranked rl session q).
    rewrite format_scored_length.
    destruct items as [|item items]; [destruct k; discriminate|].
    rewrite format_scored_cons. simpl length.
    change (1 =? 1) with true. cbv iota.
    destruct (Z.eqb_spec 1 (Z.of_nat (S (length items)))) as [E|NE].
    + destruct items; [|simpl length in E; lia].
      destruct k as [|[|k]]; [|discriminate..]. intro Hk. injection Hk as <-. reflexivity.
    + destruct k as [|k]; intro Hk.
      * injection Hk as <-. simpl.
        destruct items; [simpl in NE; lia|reflexivity].
      * simpl in Hk.
        eapply format_scored_wait in Hk; [|lia|lia]. rewrite Hk.
        change (S (S k) =? S (length items))%nat with (S k =? length items)%nat.
        destruct (S k =? length items)%nat eqn:E'; [reflexivity|].
        change (S k =? 0)%nat with false. cbv iota.
        rewrite firstn_cons, total_duration_cons, total_duration_firstn_format.
        reflexivity.
Qed.

Lemma total_duration_firstn_succ (l : list Ticket.t) : forall k t,
  nth_error l k = Some t ->
  total_duration (firstn (S k) l) = total_duration (firstn k l) + duration t.
Proof.
  unfold total_duration.
  induction l as [|x l IH]; intros [|k] t H; try discriminate.
  - injection H as <-. simpl. destruct l; simpl; lia.
  - simpl in H. specialize (IH k t H). simpl in *. lia.
Qed.

(** C3, as stated, fails.  Three tickets of 15 minutes each get the estimates
    15, 15 and 0: the second is not the first plus the first's duration
    (30), and the last is 0, not the 30 minutes of the two others. *)
Lemma wait_estimates_are_not_the_canonical_ones :
  map (fun t => (Ticket.estimated_wait_minutes t, duration t))
      (snapshot Samples.no_boost Samples.three_patients (Some Samples.booked_1_3_2))
  = [(15, 15); (15, 15); (0, 15)]
  /\ ~ wait_recurrence
         (snapshot Samples.no_boost Samples.three_patients (Some Samples.booked_1_3_2))
  /\ ~ last_waits_for_all_others
         (snapshot Samples.no_boost Samples.three_patients (Some Samples.booked_1_3_2)).
Proof.
  remember (snapshot _ _ _) as l eqn:E. vm_compute in E. subst l.
  split; [reflexivity|]. split.
  - intros [_ H]. specialize (H 0%nat _ _ eq_refl eq_refl). discriminate H.
  - intro H. specialize (H _ eq_refl). discriminate H.
Qed.

(** The loop sets the estimate of the last ticket to 0 (its branch
    [position == total_patients]), however many tickets stand before it. *)
Lemma last_ticket_estimate_is_zero
    (rl : Oracle) (session : Session) (q : option (list QueueEntry.t)) (t : Ticket.t) :
  nth_error (snapshot rl session q) (length (snapshot rl session q) - 1) = Some t ->
  Ticket.estimated_wait_minutes t = 0.
Proof.
  intro Hn. rewrite (snapshot_wait _ _ _ _ _ Hn).
  assert (length (snapshot rl session q) <> 0%nat).
  { intro E. apply length_zero_iff_nil in E. rewrite E in Hn. discriminate. }
  destruct (Nat.eqb_spec (S (length (snapshot rl session q) - 1))
              (length (snapshot rl session q))); [reflexivity|lia].
Qed.

(** C3, amended.  In every snapshot of [calculate_queue_order]: the ticket at
    position 1 waits its own duration when more tickets follow and 0 when it
    is alone; a ticket strictly between the first and the last waits the sum
    of the durations of all tickets before it, so that the second waits as
    long as the first, and from the third on each waits what its predecessor
    waits plus the predecessor's duration. *)
Theorem calculate_queue_order_wait_estimates
    (rl : Oracle) (session : Session) (q : option (list QueueEntry.t)) :
  let l := snapshot rl session q in
  (forall t, nth_error l 0 = Some t ->
     Ticket.estimated_wait_minutes t
     = if (length l =? 1)%nat then 0 else duration t)
  /\ (forall k t, (0 < k)%nat -> (S k < length l)%nat -> nth_error l k = Some t ->
        Ticket.estimated_wait_minutes t = total_duration (firstn k l))
  /\ (forall k prev t, (0 < k)%nat -> (S (S k) < length l)%nat ->
        nth_error l k = Some prev -> nth_error l (S k) = Some t ->
        Ticket.estimated_wait_minutes t
        = Ticket.estimated_wait_minutes prev + duration prev).
Proof.
  intro l. subst l.
  assert (W : forall k t, (0 < k)%nat -> (S k < length (snapshot rl session q))%nat ->
            nth_error (snapshot rl session q) k = Some t ->
            Ticket.estimated_wait_minutes t
            = total_duration (firstn k (snapshot rl session q))).
  { intros k t H0 Hk Hn. rewrite (snapshot_wait _ _ _ _ _ Hn).
    destruct (Nat.eqb_spec (S k) (length (snapshot rl session q))); [lia|].
    destruct (Nat.eqb_spec k 0); [lia|reflexivity]. }
  split; [|split; [exact W|]].
  - intros t Hn. rewrite (snapshot_wait _ _ _ _ _ Hn), Nat.eqb_sym. reflexivity.
  - intros k prev t H0 Hk Hp Hn.
    rewrite (W (S k) t) by (assumption || lia).
    rewrite (W k prev) by (assumption || lia).
    now apply total_duration_firstn_succ.
Qed.

End Waits.

(** ** The order behind the pinned ticket *)

Section Ordering.
Import DynamicQueueManager.

Lemma non_pinned_format rl session q :
  exists position total cumulative,
    non_pinned rl session q
    = format_scored (ranked rl session q) position total cumulative.
Proof.
  unfold non_pinned. destruct (pinned session q) as [item|] eqn:P.
  - rewrite (snapshot_pinned rl session q item P). simpl. eauto.
  - rewrite (snapshot_unpinned rl session q P). eauto.
Qed.

Lemma sorted_by_rounded_score (items : list PatientItem.t) : forall l : list Ticket.t,
  map Ticket.score l = map (fun item => round2 (PatientItem.score item)) items ->
  StronglySorted (desc PatientItem.score) items ->
  StronglySorted (desc Ticket.score) l.
Proof.
  induction items as [|item items IH]; intros [|t l] E S; try discriminate;
    [constructor|].
  simpl in E. injection E as Et El.
  inversion S as [|? ? S' F]; subst.
  constructor; [now apply IH|].
  apply Forall_map with (f := Ticket.score) (P := fun s => (s <= Ticket.score t)%Q).
  rewrite El, Et. apply Forall_map.
  eapply Forall_impl; [|exact F].
  intros a Ha. apply round2_mono, Ha.
Qed.

(** C4, as stated, fails.  Behind the pinned patient 1 come patient 2, then
    patient 3, with the same score of 28; patient 3 booked at time 20, before
    patient 2 at time 30. *)
Lemma ties_do_not_follow_booking_time :
  map (fun t => (Ticket.id t, Ticket.score t,
                 booking_timestamp Samples.booked_1_3_2 (Ticket.id t)))
      (non_pinned Samples.no_boost Samples.three_patients (Some Samples.booked_1_3_2))
  = [(2, 28%Q, Some 30); (3, 28%Q, Some 20)]
  /\ ~ ordered_by_score_then_booking Samples.booked_1_3_2
         (non_pinned Samples.no_boost Samples.three_patients
            (Some Samples.booked_1_3_2)).
Proof.
  remember (non_pinned _ _ _) as l eqn:E. vm_compute in E. subst l.
  split; [reflexivity|].
  intro H.
  destruct (H 0%nat 1%nat _ _ (Nat.lt_succ_diag_r 0) eq_refl eq_refl) as [_ Hb].
  specialize (Hb (Qeq_refl _) 30 20 eq_refl eq_refl). lia.
Qed.

(** Whole numbers of hundredths, which [round2] leaves alone. *)

Lemma round_half_even_integer (q : Q) (k : Z) :
  (q == inject_Z k)%Q -> round_half_even q = k.
Proof.
  intro E. unfold round_half_even.
  assert (F : Qfloor q = k) by (rewrite E; apply Qfloor_Z).
  rewrite F.
  assert (C : Qcompare (q - inject_Z k) (1 # 2) = Lt).
  { apply -> Qlt_alt. rewrite E. lra. }
  now rewrite C.
Qed.

Lemma round2_two_decimals (x : Q) : two_decimals x -> (round2 x == x)%Q.
Proof.
  intros [k E]. unfold round2. rewrite Qred_correct.
  rewrite (round_half_even_integer _ _ E).
  rewrite (Qmake_Qdiv k 100), <- E. field.
Qed.

Lemma two_decimals_compat (x y : Q) : (x == y)%Q -> two_decimals x -> two_decimals y.
Proof. intros E [k H]. exists k. now rewrite <- E. Qed.

Lemma two_decimals_integer (z : Z) : two_decimals (inject_Z z).
Proof. exists (z * 100). rewrite inject_Z_mult. reflexivity. Qed.

Lemma two_decimals_plus (x y : Q) :
  two_decimals x -> two_decimals y -> two_decimals (x + y).
Proof.
  intros [k H] [k' H']. exists (k + k').
  rewrite inject_Z_plus, <- H, <- H'. ring.
Qed.

Lemma two_decimals_base_score patient appointment_type emergency :
  two_decimals (PatientScorer.calculate_patient_score patient appointment_type emergency).
Proof.
  destruct emergency; [apply (two_decimals_integer 100)|].
  rewrite calculate_patient_score_sum.
  match goal with |- two_decimals (Qmax ?a ?b) => destruct (Q.max_dec a b) as [E|E] end.
  - eapply two_decimals_compat; [symmetry; exact E|apply two_decimals_integer].
  - eapply two_decimals_compat; [symmetry; exact E|apply (two_decimals_integer 1)].
Qed.

Lemma consult_two_decimals rl item :
  whole_boosts rl -> two_decimals (PatientItem.score item) ->
  two_decimals (PatientItem.score (value (consult rl item))).
Proof.
  intros H T. rewrite consult_score.
  destruct (rl _ _ _) as [|[r|]] eqn:E; try exact T.
  destruct (urgency_boost r) as [b|] eqn:B; [|exact T].
  destruct (Qeq_bool b 0); [exact T|].
  apply two_decimals_plus; [exact T|].
  destruct (H _ _ _ _ _ E B) as [k Hk].
  eapply two_decimals_compat; [symmetry; exact Hk|apply two_decimals_integer].
Qed.

Lemma patient_item_two_decimals session q p :
  two_decimals (PatientItem.score (patient_item session q p)).
Proof.
  unfold patient_item.
  destruct (queue_patient q p); destruct (filter _ _); apply two_decimals_base_score.
Qed.

Lemma boosted_two_decimals rl session q :
  whole_boosts rl ->
  Forall (fun item => two_decimals (PatientItem.score item)) (boosted rl session q).
Proof.
  intro H. unfold boosted. rewrite value_consult_top.
  assert (C : Forall (fun item => two_decimals (PatientItem.score item))
                (candidates session q)).
  { rewrite candidates_eq. apply Forall_map, Forall_forall. intros p _.
    apply patient_item_two_decimals. }
  rewrite <- (firstn_skipn 10 (candidates session q)) in C.
  apply Forall_app in C. destruct C as [C1 C2].
  apply Forall_app. split; [|exact C2].
  apply Forall_map. eapply Forall_impl; [|exact C1].
  intros item. now apply consult_two_decimals.
Qed.

Lemma Qeq_bool_compat (x y s : Q) : (x == y)%Q -> Qeq_bool x s = Qeq_bool y s.
Proof.
  intro E. destruct (Qeq_bool y s) eqn:B.
  - apply Qeq_bool_iff. apply Qeq_bool_iff in B. now rewrite E.
  - destruct (Qeq_bool x s) eqn:B'; [|reflexivity].
    apply Qeq_bool_iff in B'. rewrite E in B'. apply Qeq_bool_iff in B'. congruence.
Qed.

Lemma format_scored_filter_score (s : Q) items : forall position total cumulative,
  map Ticket.id
    (filter (fun t => Qeq_bool (Ticket.score t) s)
       (format_scored items position total cumulative))
  = map item_id
      (filter (fun item => Qeq_bool (round2 (PatientItem.score item)) s) items).
Proof.
  induction items as [|item items IH]; intros; [reflexivity|].
  rewrite format_scored_cons. cbn [filter]. 
  cbn [queue_item Ticket.score].
  destruct (Qeq_bool (round2 (PatientItem.score item)) s); cbn [map]; rewrite IH; reflexivity.
Qed.

Lemma tickets_of_a_score rl session q s :
  whole_boosts rl ->
  map Ticket.id (filter (fun t => Qeq_bool (Ticket.score t) s) (non_pinned rl session q))
  = map item_id
      (filter (fun item => Qeq_bool (PatientItem.score item) s) (boosted rl session q)).
Proof.
  intro H. destruct (non_pinned_format rl session q) as (p & T & c & E).
  rewrite E, format_scored_filter_score.
  rewrite <- (sort_desc_stable PatientItem.score s (boosted rl session q)), <- ranked_eq.
  f_equal. apply filter_ext_in. intros item Hin.
  apply Qeq_bool_compat, round2_two_decimals.
  pose proof (boosted_two_decimals rl session q H) as F.
  rewrite Forall_forall in F. apply F.
  rewrite ranked_eq in Hin.
  exact (Permutation_in _ (sort_desc_perm PatientItem.score _) Hin).
Qed.

(** Why the ties are those of the score before rounding.  Patient 2, boosted
    by 0.004, is sorted before patients 1 and 3; the three tickets show the
    same score 30, with patient 2 ahead of patient 1 against the order of
    the table. *)
Lemma equal_rounded_scores_may_reverse_table_order :
  map (fun t => (Ticket.id t, Ticket.score t))
    (snapshot Samples3.boost_third_decimal Samples.three_patients None)
  = [(2, 30%Q); (1, 30%Q); (3, 30%Q)]
  /\ map (fun item => (item_id item, PatientItem.score item))
       (ranked Samples3.boost_third_decimal Samples.three_patients None)
     = [(2, (30004 # 1000)%Q); (1, 30%Q); (3, 30%Q)]
  /\ map Patient.id (waiting_patients Samples.three_patients) = [1; 2; 3].
Proof. repeat split. Qed.

(** C4, amended.  The tickets behind the pinned one (all tickets when none is
    pinned) are the candidates in the order the sort leaves them: in
    descending order of their score after the oracle loop, candidates with
    equal scores in the order of their rows in the patient table (not of
    their booking times); the rounded scores shown on the tickets descend as
    well.  The ties are those of the score the sort compares, before it is
    rounded for the ticket.  When every boost of the oracle is a whole
    number, they are the ties of the scores shown as well: the tickets that
    show a given score are the candidates with that score, in the order of
    the table. *)
Theorem non_pinned_sorted_by_score_ties_in_table_order
    (rl : Oracle) (session : Session) (q : option (list QueueEntry.t)) :
  map Ticket.id (non_pinned rl session q) = map item_id (ranked rl session q)
  /\ map Ticket.score (non_pinned rl session q)
     = map (fun item => round2 (PatientItem.score item)) (ranked rl session q)
  /\ StronglySorted (desc PatientItem.score) (ranked rl session q)
  /\ (forall s,
        filter (fun item => Qeq_bool (PatientItem.score item) s) (ranked rl session q)
        = filter (fun item => Qeq_bool (PatientItem.score item) s)
            (boosted rl session q))
  /\ map item_id (boosted rl session q)
     = map Patient.id
         (filter (fun p => negb (is_first_appointment (first_appointment_patient_id q) p))
            (waiting_patients session))
  /\ StronglySorted (desc Ticket.score) (non_pinned rl session q)
  /\ (whole_boosts rl ->
      forall s,
        map Ticket.id
          (filter (fun t => Qeq_bool (Ticket.score t) s) (non_pinned rl session q))
        = map item_id
            (filter (fun item => Qeq_bool (PatientItem.score item) s)
               (boosted rl session q))).
Proof.
  destruct (non_pinned_format rl session q) as (p & T & c & E).
  assert (Hs : map Ticket.score (non_pinned rl session q)
               = map (fun item => round2 (PatientItem.score item)) (ranked rl session q))
    by (rewrite E; apply format_scored_scores).
  assert (Hd : StronglySorted (desc PatientItem.score) (ranked rl session q))
    by (rewrite ranked_eq; apply sort_desc_sorted).
  split; [|split; [|split; [|split; [|split; [|split]]]]].
  - rewrite E. apply format_scored_ids.
  - exact Hs.
  - exact Hd.
  - intro s. rewrite ranked_eq. apply sort_desc_stable.
  - unfold boosted. rewrite consult_top_ids. apply candidates_ids.
  - exact (sorted_by_rounded_score _ _ Hs Hd).
  - intros H s. now apply tickets_of_a_score.
Qed.

Lemma boost5_is_whole : whole_boosts Samples.boost5.
Proof.
  intros pid a pr r b H B. unfold Samples.boost5 in H.
  injection H as <-. cbn in B. injection B as <-.
  exists 5. reflexivity.
Qed.

Lemma non_pinned_sorted_by_score_ties_in_table_order_witness :
  map Ticket.id
    (filter (fun t => Qeq_bool (Ticket.score t) 33)
       (non_pinned Samples.boost5 Samples.three_patients (Some Samples.booked_1_3_2)))
  = [2; 3].
Proof.
  destruct (non_pinned_sorted_by_score_ties_in_table_order Samples.boost5
              Samples.three_patients (Some Samples.booked_1_3_2))
    as (_ & _ & _ & _ & _ & _ & H).
  rewrite (H boost5_is_whole 33%Q). reflexivity.
Defined.

End Ordering.

(** ** [/next_patient] when every patient has one booking *)

Section NextPatientOnce.
Import Main.

Lemma filter_all {A} (f : A -> bool) (l : list A) :
  (forall x, In x l -> f x = true) -> filter f l = l.
Proof.
  induction l as [|x l IH]; intro H; [reflexivity|].
  simpl. rewrite (H x (or_introl eq_refl)), IH; [reflexivity|].
  intros y Hy. apply H. now right.
Qed.

(** When the patient of the first booking is waiting and has no other entry
    in the queue, one call removes exactly that first entry and appends
    exactly one record to the history. *)
Lemma next_patient_removes_first_entry_when_booked_once
    (rl : Oracle) (str : Exn -> string) (now : Z) (st : State) first rest :
  appointment_queue st = first :: rest ->
  In (QueueEntry.patient_id first)
     (map Patient.id (DynamicQueueManager.waiting_patients (db st))) ->
  (forall e, In e rest -> QueueEntry.patient_id e <> QueueEntry.patient_id first) ->
  let st' := snd (value (get_next_patient_rl rl str now st)) in
  appointment_queue st' = rest
  /\ exists c, completed_patients st' = completed_patients st ++ [c].
Proof.
  intros Q Hw Hone st'.
  assert (Hne : appointment_queue st <> []) by (rewrite Q; discriminate).
  destruct (next_patient_effect rl str now st Hne) as [(c & Hc & _) Hq].
  fold st' in Hc, Hq. split; [|now exists c].
  destruct (pinned_head_of_waiting_patient rl (db st) first rest Hw)
    as (t & others & Hs & Hid & _).
  rewrite Q in Hq. rewrite Hs in Hq. rewrite Hq. simpl.
  rewrite Hid, Z.eqb_refl. simpl.
  apply filter_all. intros e He. apply negb_true_iff. apply Z.eqb_neq.
  now apply Hone.
Qed.

End NextPatientOnce.

(** ** The other wait estimate: [get_current_queue] *)

Section CurrentQueue.
Import Main.

Lemma current_queue_waits_from (queue : list QueueEntry.t) :
  forall i c k w d,
    0 < i ->
    nth_error (current_queue_waits queue i c) k = Some (w, d) ->
    w = c + Zsum (map entry_duration (firstn k queue)).
Proof.
  induction queue as [|e queue IH]; intros i c k w d Hi Hk.
  - destruct k; discriminate.
  - simpl in Hk. destruct (Z.eqb_spec i 0) as [E|_]; [lia|].
    destruct k as [|k].
    + injection Hk as <- _. simpl. lia.
    + simpl in Hk. apply IH in Hk; [|lia]. rewrite Hk. simpl.
      fold (entry_duration e). lia.
Qed.

(** [get_current_queue] estimates over the raw queue with another rule:
    every entry, the last included, waits the durations of all entries
    before it, and the first waits 0 even when others follow. *)
Lemma current_queue_waits_cumulative (queue : list QueueEntry.t) (k : nat) (w d : Z) :
  nth_error (current_queue_waits queue 0 0) k = Some (w, d) ->
  w = Zsum (map entry_duration (firstn k queue)).
Proof.
  destruct queue as [|e queue]; [destruct k; discriminate|].
  simpl. destruct k as [|k]; intro Hk.
  - injection Hk as <- _. reflexivity.
  - simpl in Hk. apply current_queue_waits_from in Hk; [|lia].
    rewrite Hk. reflexivity.
Qed.

End CurrentQueue.

(** * Further properties of the queue *)

(** ** Positions, statuses and durations of a snapshot *)

Section SnapshotShape.
Import DynamicQueueManager.

Lemma one_to_succ (n : nat) : one_to (S n) = 1 :: map (Z.add 1) (one_to n).
Proof.
  unfold one_to. simpl. f_equal.
  rewrite <- seq_shift, !map_map. apply map_ext. intro k. lia.
Qed.

Lemma format_scored_positions items : forall position total cumulative,
  map Ticket.queue_position (format_scored items position total cumulative)
  = map (fun k => position - 1 + k) (one_to (length items)).
Proof.
  induction items as [|item items IH]; intros p T c; [reflexivity|].
  rewrite format_scored_cons. simpl length. rewrite one_to_succ. simpl.
  f_equal; [lia|]. rewrite IH, map_map. apply map_ext. intro k. lia.
Qed.

Lemma snapshot_length rl session q :
  length (snapshot rl session q)
  = (match pinned session q with Some _ => 1 | None => 0 end
     + length (candidates session q))%nat.
Proof.
  destruct (pinned session q) as [item|] eqn:P.
  - rewrite (snapshot_pinned rl session q item P). cbv zeta. simpl.
    now rewrite format_scored_length, ranked_length.
  - rewrite (snapshot_unpinned rl session q P). cbv zeta.
    now rewrite format_scored_length, ranked_length.
Qed.

Lemma snapshot_positions rl session q :
  map Ticket.queue_position (snapshot rl session q)
  = one_to (length (snapshot rl session q)).
Proof.
  destruct (pinned session q) as [item|] eqn:P.
  - rewrite (snapshot_pinned rl session q item P). cbv zeta.
    simpl length. rewrite format_scored_length, one_to_succ. simpl. f_equal.
    rewrite format_scored_positions. apply map_ext. intro k. lia.
  - rewrite (snapshot_unpinned rl session q P). cbv zeta.
    rewrite format_scored_length, format_scored_positions.
    rewrite <- (map_id (one_to _)) at 2. apply map_ext. intro k. lia.
Qed.

Lemma one_to_bounds (n : nat) : Forall (fun k => 1 <= k <= Z.of_nat n) (one_to n).
Proof.
  unfold one_to. apply Forall_map, Forall_forall. intros k Hk.
  apply in_seq in Hk. lia.
Qed.

(** X1.  The tickets of a snapshot of [calculate_queue_order] are numbered
    1, 2, ..., N in the order of the list, with or without a pinned ticket:
    no position is skipped or used twice, and every position lies between 1
    and the number of tickets. *)
Theorem snapshot_positions_are_consecutive
    (rl : Oracle) (session : Session) (q : option (list QueueEntry.t)) :
  map Ticket.queue_position (snapshot rl session q)
  = one_to (length (snapshot rl session q))
  /\ Forall (fun t => 1 <= Ticket.queue_position t
                     <= Z.of_nat (length (snapshot rl session q)))
       (snapshot rl session q).
Proof.
  split; [apply snapshot_positions|].
  apply Forall_map with (f := Ticket.queue_position)
    (P := fun k => 1 <= k <= Z.of_nat (length (snapshot rl session q))).
  rewrite snapshot_positions. apply one_to_bounds.
Qed.

Lemma format_scored_Forall (P : Ticket.t -> Prop) items :
  (forall item position wait d, P (queue_item item position wait d)) ->
  forall position total cumulative,
    Forall P (format_scored items position total cumulative).
Proof.
  intro H. induction items as [|item items IH]; intros p T c; [constructor|].
  rewrite format_scored_cons. constructor; [apply H|apply IH].
Qed.

Lemma snapshot_Forall (P : Ticket.t -> Prop) rl session q :
  (forall item wait d, P (first_queue_item item wait d)) ->
  (forall item position wait d, P (queue_item item position wait d)) ->
  Forall P (snapshot rl session q).
Proof.
  intros H1 H2. destruct (pinned session q) as [item|] eqn:E.
  - rewrite (snapshot_pinned rl session q item E). cbv zeta.
    constructor; [apply H1|now apply format_scored_Forall].
  - rewrite (snapshot_unpinned rl session q E). now apply format_scored_Forall.
Qed.

Lemma appointment_durations_bounds (appointment_type : string) :
  12 <= dict_get appointment_durations appointment_type 15 <= 60.
Proof.
  unfold dict_get, appointment_durations. cbn [find fst snd].
  repeat match goal with
         | |- context [if ?c then _ else _] => destruct c
         end; cbn [snd]; lia.
Qed.

End SnapshotShape.

(** ** [/queue/real-time]: what the counters can show *)

Section RealTime.
Import DynamicQueueManager Main Endpoints.

Lemma filter_none {A} (f : A -> bool) (l : list A) :
  Forall (fun x => f x = false) l -> filter f l = [].
Proof.
  induction 1 as [|x l Hx _ IH]; [reflexivity|]. simpl. now rewrite Hx.
Qed.

Lemma in_firstn_in {A} (x : A) (n : nat) (l : list A) : In x (firstn n l) -> In x l.
Proof.
  intro H. rewrite <- (firstn_skipn n l). apply in_or_app. now left.
Qed.

Lemma in_skipn_in {A} (x : A) (n : nat) (l : list A) : In x (skipn n l) -> In x l.
Proof.
  intro H. rewrite <- (firstn_skipn n l). apply in_or_app. now right.
Qed.

Lemma filter_length_bound {A} (f : A -> bool) (l : list A) :
  (length (filter f l) <= length l)%nat.
Proof.
  induction l as [|x l IH]; simpl; [lia|]. destruct (f x); simpl; lia.
Qed.

Lemma filter_length_perm {A} (f : A -> bool) (l l' : list A) :
  Permutation l l' -> length (filter f l) = length (filter f l').
Proof.
  induction 1 as [|x l l' _ IH|x y l|l l' l'' _ IH1 _ IH2]; simpl.
  - reflexivity.
  - destruct (f x); simpl; now rewrite IH.
  - destruct (f x), (f y); reflexivity.
  - now rewrite IH1.
Qed.

Lemma value_get_real_time_queue rl now st :
  rt_queue (value (get_real_time_queue rl now st))
  = snapshot rl (db st) (Some (appointment_queue st)).
Proof. unfold get_real_time_queue. now rewrite value_bind. Qed.

Lemma metadata_get_real_time_queue rl now st :
  let live_queue := snapshot rl (db st) (Some (appointment_queue st)) in
  let m := rt_metadata (value (get_real_time_queue rl now st)) in
  rt_total_patients m = Z.of_nat (length live_queue)
  /\ rt_emergency_count m
     = count (fun item => String.eqb (Ticket.status item) "emergency") live_queue
  /\ rt_ai_optimized_count m = count Ticket.rl_optimized live_queue.
Proof. unfold get_real_time_queue. rewrite value_bind. repeat split. Qed.

(** X2.  The [emergency_count] of [get_real_time_queue] is 0 for every
    database and every booking queue: [calculate_queue_order] gives every
    ticket the status "waiting", also to patients booked as emergencies, and
    the counter counts the status "emergency". *)
Theorem real_time_emergency_count_is_zero (rl : Oracle) (now : Z) (st : State) :
  Forall (fun item => Ticket.status item = "waiting"%string)
    (rt_queue (value (get_real_time_queue rl now st)))
  /\ rt_emergency_count (rt_metadata (value (get_real_time_queue rl now st))) = 0.
Proof.
  destruct (metadata_get_real_time_queue rl now st) as (_ & He & _).
  rewrite value_get_real_time_queue. cbv zeta in He. rewrite He. split.
  - apply snapshot_Forall; reflexivity.
  - unfold count. rewrite filter_none; [reflexivity|].
    apply snapshot_Forall; reflexivity.
Qed.

Lemma patient_item_rl_recommendation session q p :
  PatientItem.rl_recommendation (patient_item session q p) = None.
Proof.
  unfold patient_item.
  destruct (queue_patient q p); destruct (filter _ _); reflexivity.
Qed.

Lemma format_scored_rl_optimized items : forall position total cumulative,
  length (filter Ticket.rl_optimized (format_scored items position total cumulative))
  = length (filter has_recommendation items).
Proof.
  induction items as [|item items IH]; intros p T c; [reflexivity|].
  rewrite format_scored_cons. simpl. unfold has_recommendation at 1.
  destruct (PatientItem.rl_recommendation item); simpl; now rewrite IH.
Qed.

Lemma ranked_recommendations_at_most_ten rl session q :
  (length (filter has_recommendation (ranked rl session q)) <= 10)%nat.
Proof.
  rewrite ranked_eq.
  rewrite (filter_length_perm _ _ _ (sort_desc_perm PatientItem.score _)).
  unfold boosted. rewrite value_consult_top, filter_app, length_app.
  rewrite (filter_none has_recommendation (skipn 10 _)).
  - cbn [length]. rewrite Nat.add_0_r.
    etransitivity; [apply filter_length_bound|].
    rewrite length_map. apply firstn_le_length.
  - rewrite candidates_eq. apply Forall_forall. intros item Hin.
    apply in_skipn_in in Hin. apply in_map_iff in Hin. destruct Hin as (p & <- & _).
    unfold has_recommendation. now rewrite patient_item_rl_recommendation.
Qed.

(** X3.  At most ten tickets of a snapshot are marked [rl_optimized], however
    many patients wait, and the [ai_optimized_count] of [get_real_time_queue]
    lies between 0 and 10. *)
Theorem real_time_ai_optimized_count_at_most_ten (rl : Oracle) (now : Z) (st : State) :
  0 <= rt_ai_optimized_count (rt_metadata (value (get_real_time_queue rl now st)))
    <= 10.
Proof.
  destruct (metadata_get_real_time_queue rl now st) as (_ & _ & Ha).
  cbv zeta in Ha. rewrite Ha. unfold count. split; [lia|].
  set (q := Some (appointment_queue st)).
  assert (H : (length (filter Ticket.rl_optimized (snapshot rl (db st) q)) <= 10)%nat).
  { destruct (pinned (db st) q) as [item|] eqn:P.
    - rewrite (snapshot_pinned rl _ _ item P). cbv zeta. simpl.
      rewrite format_scored_rl_optimized. apply ranked_recommendations_at_most_ten.
    - rewrite (snapshot_unpinned rl _ _ P). cbv zeta.
      rewrite format_scored_rl_optimized. apply ranked_recommendations_at_most_ten. }
  lia.
Qed.

End RealTime.

(** ** When the oracle fails *)

Section OracleDown.
Import DynamicQueueManager.

Lemma consult_raises rl item :
  rl (item_id item) (PatientItem.appointment_type item)
     (Patient.risk_level (PatientItem.patient item)) = RLRaises ->
  consult rl item
  = (item, [RLCall (item_id item) (PatientItem.appointment_type item)
              (Patient.risk_level (PatientItem.patient item));
            LogWarning (item_id item)]).
Proof. unfold consult, item_id. intro H. rewrite H. reflexivity. Qed.

Lemma mapM_consult_raises rl l :
  (forall a b c, rl a b c = RLRaises) ->
  value (mapM (consult rl) l) = l
  /\ warnings (effects (mapM (consult rl) l)) = map item_id l.
Proof.
  intro H. rewrite value_mapM, effects_mapM. split.
  - rewrite <- (map_id l) at 2. apply map_ext. intro item.
    now rewrite consult_raises.
  - induction l as [|item l IH]; [reflexivity|].
    simpl. rewrite warnings_app, IH, consult_raises by apply H. reflexivity.
Qed.

Lemma consult_returns_none session q p :
  value (consult (fun _ _ _ => RLReturns None) (patient_item session q p))
  = patient_item session q p.
Proof.
  rewrite value_consult.
  pose proof (patient_item_rl_recommendation session q p) as H.
  destruct (patient_item session q p). simpl in *. now subst.
Qed.

(** X4.  When every call of the oracle raises, [calculate_queue_order] still
    returns: the candidates keep their base scores, the snapshot is the one
    obtained from an oracle that answers [None] every time, and exactly one
    warning is logged per consulted candidate, that is for the first ten
    candidates at most. *)
Theorem oracle_failure_degrades_to_base_scores
    (rl : Oracle) (session : Session) (q : option (list QueueEntry.t)) :
  (forall patient_id appointment_type priority,
     rl patient_id appointment_type priority = RLRaises) ->
  boosted rl session q = candidates session q
  /\ snapshot rl session q = snapshot (fun _ _ _ => RLReturns None) session q
  /\ warnings (effects (calculate_queue_order rl session q))
     = map item_id (firstn 10 (candidates session q)).
Proof.
  intro H.
  assert (B : boosted rl session q = candidates session q).
  { unfold boosted, consult_top. rewrite value_bind, value_ret.
    rewrite (proj1 (mapM_consult_raises rl _ H)). apply firstn_skipn. }
  assert (B' : boosted (fun _ _ _ => RLReturns None) session q = candidates session q).
  { unfold boosted. rewrite value_consult_top.
    rewrite <- (firstn_skipn 10 (candidates session q)) at 3. f_equal.
    rewrite <- (map_id (firstn 10 _)) at 2. apply map_ext_in.
    intros item Hin. apply in_firstn_in in Hin. rewrite candidates_eq in Hin.
    apply in_map_iff in Hin. destruct Hin as (p & <- & _).
    apply consult_returns_none. }
  split; [exact B|]. split.
  - destruct (pinned session q) as [item|] eqn:P.
    + rewrite (snapshot_pinned rl _ _ item P),
        (snapshot_pinned (fun _ _ _ => RLReturns None) _ _ item P).
      cbv zeta. now rewrite !ranked_eq, B, B'.
    + rewrite (snapshot_unpinned rl _ _ P),
        (snapshot_unpinned (fun _ _ _ => RLReturns None) _ _ P).
      cbv zeta. now rewrite !ranked_eq, B, B'.
  - rewrite effects_calculate_queue_order.
    apply (proj2 (mapM_consult_raises rl _ H)).
Qed.

Lemma oracle_failure_degrades_to_base_scores_witness :
  boosted Samples.failing Samples.three_patients (Some Samples.booked_1_3_2)
  = candidates Samples.three_patients (Some Samples.booked_1_3_2)
  /\ snapshot Samples.failing Samples.three_patients (Some Samples.booked_1_3_2)
     = snapshot (fun _ _ _ => RLReturns None) Samples.three_patients
         (Some Samples.booked_1_3_2)
  /\ warnings (effects (calculate_queue_order Samples.failing Samples.three_patients
                          (Some Samples.booked_1_3_2)))
     = map item_id (firstn 10 (candidates Samples.three_patients
                                 (Some Samples.booked_1_3_2))).
Proof.
  apply (oracle_failure_degrades_to_base_scores Samples.failing
           Samples.three_patients (Some Samples.booked_1_3_2)).
  reflexivity.
Defined.

End OracleDown.

(** ** Waits grow along the queue *)

Section MonotoneWaits.
Import DynamicQueueManager.

Lemma snapshot_durations_bounds rl session q :
  Forall (fun t => 12 <= duration t <= 60) (snapshot rl session q).
Proof.
  assert (F : forall items p T c,
             Forall (fun t => 12 <= duration t <= 60) (format_scored items p T c)).
  { intros items p T c.
    apply Forall_map with (f := duration) (P := fun d => 12 <= d <= 60).
    rewrite format_scored_durations. apply Forall_map, Forall_forall.
    intros item _. apply appointment_durations_bounds. }
  destruct (pinned session q) as [item|] eqn:P.
  - rewrite (snapshot_pinned rl session q item P). cbv zeta.
    constructor; [apply appointment_durations_bounds|apply F].
  - rewrite (snapshot_unpinned rl session q P). apply F.
Qed.

(** X5.  Leaving the last ticket aside, the wait estimates of a snapshot never
    decrease from one position to the next: the second ticket waits exactly
    as long as the first, and from then on every ticket waits strictly longer
    than the one before it. *)
Theorem wait_estimates_grow_before_the_last
    (rl : Oracle) (session : Session) (q : option (list QueueEntry.t))
    (k : nat) (a b : Ticket.t) :
  (S (S k) < length (snapshot rl session q))%nat ->
  nth_error (snapshot rl session q) k = Some a ->
  nth_error (snapshot rl session q) (S k) = Some b ->
  Ticket.estimated_wait_minutes a <= Ticket.estimated_wait_minutes b
  /\ (k = 0%nat -> Ticket.estimated_wait_minutes b = Ticket.estimated_wait_minutes a)
  /\ ((0 < k)%nat -> Ticket.estimated_wait_minutes a < Ticket.estimated_wait_minutes b).
Proof.
  intros Hk Ha Hb.
  pose proof (snapshot_wait _ _ _ _ _ Ha) as Wa.
  pose proof (snapshot_wait _ _ _ _ _ Hb) as Wb.
  destruct (Nat.eqb_spec (S k) (length (snapshot rl session q))); [lia|].
  destruct (Nat.eqb_spec (S (S k)) (length (snapshot rl session q))); [lia|].
  change (S k =? 0)%nat with false in Wb. cbv iota in Wb.
  rewrite (total_duration_firstn_succ _ _ _ Ha) in Wb.
  assert (D : 12 <= duration a <= 60).
  { pose proof (snapshot_durations_bounds rl session q) as F.
    rewrite Forall_forall in F. apply F. eapply nth_error_In, Ha. }
  destruct k as [|k].
  - simpl in Wa, Wb. unfold total_duration in Wb. simpl in Wb.
    repeat split; lia.
  - change (S k =? 0)%nat with false in Wa. cbv iota in Wa.
    repeat split; lia.
Qed.

Lemma wait_estimates_grow_before_the_last_witness :
  exists a b,
    nth_error (snapshot Samples.boost5 Samples.eleven_patients None) 3 = Some a
    /\ nth_error (snapshot Samples.boost5 Samples.eleven_patients None) 4 = Some b
    /\ Ticket.estimated_wait_minutes a < Ticket.estimated_wait_minutes b.
Proof.
  remember (snapshot _ _ _) as l eqn:E.
  assert (N : length l = 11%nat) by (subst l; vm_compute; reflexivity).
  destruct (nth_error l 3) as [a|] eqn:Ha;
    [|apply nth_error_None in Ha; lia].
  destruct (nth_error l 4) as [b|] eqn:Hb;
    [|apply nth_error_None in Hb; lia].
  exists a, b. split; [reflexivity|]. split; [reflexivity|].
  subst l.
  apply (wait_estimates_grow_before_the_last Samples.boost5 Samples.eleven_patients
           None 3 a b); [rewrite N; lia|exact Ha|exact Hb|lia].
Defined.

End MonotoneWaits.

(** ** With unique patient ids *)

Section UniqueIds.
Import DynamicQueueManager.

Lemma NoDup_filter {A} (f : A -> bool) (l : list A) : NoDup l -> NoDup (filter f l).
Proof.
  induction 1 as [|x l Hx _ IH]; simpl; [constructor|].
  destruct (f x); [|exact IH].
  constructor; [|exact IH]. intro H. apply filter_In in H. tauto.
Qed.

Lemma NoDup_map_filter {A B} (g : A -> B) (f : A -> bool) (l : list A) :
  NoDup (map g l) -> NoDup (map g (filter f l)).
Proof.
  induction l as [|x l IH]; simpl; intro H; [constructor|].
  inversion H as [|? ? Hx Hl]; subst.
  destruct (f x); [|now apply IH].
  simpl. constructor; [|now apply IH].
  intro Hin. apply Hx. apply in_map_iff in Hin. destruct Hin as (y & Hy & Hin).
  apply filter_In in Hin. apply in_map_iff. exists y. tauto.
Qed.

Lemma perm_pick (i : Z) (l : list Z) :
  NoDup l -> In i l ->
  Permutation (i :: filter (fun j => negb (j =? i)) l) l.
Proof.
  induction 1 as [|x l Hx Hl IH]; intros Hin; [destruct Hin|].
  simpl. destruct (Z.eqb_spec x i) as [->|NE]; simpl.
  - constructor. rewrite filter_all; [reflexivity|].
    intros y Hy. apply negb_true_iff, Z.eqb_neq. intros ->. contradiction.
  - destruct Hin as [->|Hin]; [congruence|].
    rewrite perm_swap. constructor. now apply IH.
Qed.

Lemma map_filter_ids (i : Z) (l : list Patient.t) :
  map Patient.id (filter (fun p => negb (Patient.id p =? i)) l)
  = filter (fun j => negb (j =? i)) (map Patient.id l).
Proof.
  induction l as [|p l IH]; [reflexivity|].
  simpl. destruct (Patient.id p =? i); simpl; now rewrite IH.
Qed.

(** X6.  When no two rows of the patient table share an id, every waiting
    patient has exactly one ticket: the ids of a snapshot are a rearrangement
    of the ids of the waiting patients, so the snapshot is as long as the
    list of waiting patients and no id occurs twice in it. *)
Theorem snapshot_has_one_ticket_per_waiting_patient
    (rl : Oracle) (session : Session) (q : option (list QueueEntry.t)) :
  NoDup (map Patient.id (patients session)) ->
  Permutation (map Ticket.id (snapshot rl session q))
    (map Patient.id (waiting_patients session))
  /\ length (snapshot rl session q) = length (waiting_patients session)
  /\ NoDup (map Ticket.id (snapshot rl session q)).
Proof.
  intro ND.
  assert (NW : NoDup (map Patient.id (waiting_patients session)))
    by (apply NoDup_map_filter, ND).
  assert (P : Permutation (map Ticket.id (snapshot rl session q))
                (map Patient.id (waiting_patients session))).
  { destruct (pinned session q) as [item|] eqn:E.
    - rewrite (snapshot_pinned rl session q item E). cbv zeta. simpl.
      rewrite format_scored_ids, (ranked_ids_perm rl session q), candidates_ids.
      destruct (pinned_item_first session q item E) as [Hw Hf].
      rewrite Hf. simpl. rewrite map_filter_ids. unfold item_id.
      apply perm_pick; [exact NW|]. apply in_map. exact Hw.
    - rewrite (snapshot_unpinned rl session q E). cbv zeta.
      rewrite format_scored_ids, (ranked_ids_perm rl session q), candidates_ids.
      rewrite filter_all; [reflexivity|].
      intros p Hin. rewrite pinned_eq in E.
      destruct (find _ _) eqn:F; [discriminate|].
      apply in_rev in Hin. now rewrite (find_none _ _ F p Hin). }
  split; [exact P|]. split.
  - rewrite <- (length_map Ticket.id), <- (length_map Patient.id).
    now apply Permutation_length.
  - apply (Permutation_NoDup (Permutation_sym P) NW).
Qed.

Lemma snapshot_has_one_ticket_per_waiting_patient_witness :
  length (snapshot Samples.boost5 Samples.head_scheduled (Some Samples.booked_1_2))
  = length (waiting_patients Samples.head_scheduled).
Proof.
  apply (snapshot_has_one_ticket_per_waiting_patient Samples.boost5
           Samples.head_scheduled (Some Samples.booked_1_2)).
  simpl. repeat constructor; simpl; intuition discriminate.
Defined.

End UniqueIds.

(** ** [/next_patient]: what a call keeps *)

Section NextPatientFrame.
Import Main.

Lemma one_to_snoc (n : nat) : one_to (S n) = one_to n ++ [Z.of_nat n + 1].
Proof. unfold one_to. now rewrite seq_S, map_app. Qed.

(** X7.  [get_next_patient_rl] keeps the numbering of the history: if the
    records are numbered 1, 2, ..., n in the order they were appended, they
    still are after the call, whether it admits a ticket, falls back to the
    first booking or raises on an empty queue. *)
Theorem next_patient_keeps_completion_orders
    (rl : Oracle) (str : Exn -> string) (now : Z) (st : State) :
  completion_orders_consecutive (completed_patients st) ->
  completion_orders_consecutive
    (completed_patients (snd (value (get_next_patient_rl rl str now st)))).
Proof.
  intro H. destruct (appointment_queue st) as [|first rest] eqn:Q.
  - unfold get_next_patient_rl. rewrite Q. exact H.
  - assert (Hne : appointment_queue st <> []) by (rewrite Q; discriminate).
    destruct (next_patient_effect rl str now st Hne) as [(c & Hc & Ho) _].
    unfold completion_orders_consecutive in *.
    rewrite Hc, map_app, length_app, H, Nat.add_1_r, one_to_snoc. simpl.
    now rewrite Ho.
Qed.

Lemma next_patient_keeps_completion_orders_witness :
  completion_orders_consecutive
    (completed_patients
       (snd (value (get_next_patient_rl Samples.no_boost Samples.str_exn 5
                      (mkState Samples.three_patients Samples.booked_1_3_2 []))))).
Proof.
  apply (next_patient_keeps_completion_orders Samples.no_boost Samples.str_exn 5
           (mkState Samples.three_patients Samples.booked_1_3_2 [])).
  reflexivity.
Defined.

Lemma incl_filter {A} (f : A -> bool) (l : list A) : incl (filter f l) l.
Proof. intros x H. apply filter_In in H. tauto. Qed.

(** X8.  A call of [get_next_patient_rl] never touches the database and never
    adds to the booking queue: the queue it leaves holds only entries it
    held before and is not longer; and when the call returns, the
    [remaining_queue_size] of the response is the length of the queue left,
    with [rl_decision] true exactly when the ordered queue was not empty. *)
Theorem next_patient_frame
    (rl : Oracle) (str : Exn -> string) (now : Z) (st : State) :
  let r := value (get_next_patient_rl rl str now st) in
  db (snd r) = db st
  /\ incl (appointment_queue (snd r)) (appointment_queue st)
  /\ (length (appointment_queue (snd r)) <= length (appointment_queue st))%nat
  /\ (forall resp, fst r = Returned resp ->
        remaining_queue_size resp = Z.of_nat (length (appointment_queue (snd r)))
        /\ (rl_decision resp = true
            <-> snapshot rl (db st) (Some (appointment_queue st)) <> [])).
Proof.
  unfold get_next_patient_rl, snapshot.
  destruct (appointment_queue st) as [|first rest] eqn:Q.
  - simpl. rewrite Q. split; [reflexivity|]. split; [apply incl_refl|].
    split; [simpl; lia|]. intros resp H. discriminate H.
  - rewrite value_bind.
    destruct (value (DynamicQueueManager.calculate_queue_order rl (db st)
                       (Some (first :: rest)))) as [|selected others];
      unfold value, ret; cbn [fst snd db appointment_queue].
    + split; [reflexivity|]. split; [apply incl_tl, incl_refl|].
      split; [simpl; lia|]. intros resp H. injection H as <-.
      cbn [remaining_queue_size rl_decision].
      split; [reflexivity|]. split; [discriminate|]. intro E. now elim E.
    + split; [reflexivity|].
      split; [apply (incl_filter _ (first :: rest))|].
      split; [apply (filter_length_bound _ (first :: rest))|].
      intros resp H. injection H as <-.
      cbn [remaining_queue_size rl_decision].
      split; [reflexivity|]. split; [discriminate|reflexivity].
Qed.

End NextPatientFrame.

(** ** [reorder_queue_for_emergency]: one ticket, one head *)

Section EmergencyOnce.
Import DynamicQueueManager.

Lemma snapshot_positions_at_least_one rl session q :
  Forall (fun t => 1 <= Ticket.queue_position t) (snapshot rl session q).
Proof.
  apply Forall_map with (f := Ticket.queue_position) (P := fun k => 1 <= k).
  rewrite snapshot_positions.
  eapply Forall_impl; [|apply one_to_bounds]. intros k Hk. simpl in Hk. lia.
Qed.

(** X9.  When the patient exists, the list returned by
    [reorder_queue_for_emergency] holds exactly one ticket of that patient,
    the one in front, even if the patient was already in the queue; and that
    ticket is alone at position 1, every other ticket standing at position 2
    or later. *)
Theorem emergency_patient_appears_once_and_alone_at_position_one
    (rl : Oracle) (session : Session) (emergency_patient_id : Z) (p : Patient.t) :
  session_get session emergency_patient_id = Some p ->
  let result := value (reorder_queue_for_emergency rl session emergency_patient_id) in
  count (fun t => Ticket.id t =? emergency_patient_id) result = 1
  /\ count (fun t => Ticket.queue_position t =? 1) result = 1
  /\ (length result <= S (length (snapshot rl session None)))%nat.
Proof.
  intros H result. subst result.
  rewrite (value_reorder_present rl session _ p H).
  destruct (session_get_id _ _ _ H) as [Hid _].
  set (others := filter (fun item => negb (Ticket.id item =? emergency_patient_id))
                   (snapshot rl session None)).
  unfold count. simpl filter.
  rewrite Hid, Z.eqb_refl. simpl length.
  assert (F1 : filter (fun t => Ticket.id t =? emergency_patient_id)
                 (map delay_item others) = []).
  { apply filter_none, Forall_map, Forall_forall. intros t Ht.
    apply filter_In in Ht. destruct Ht as [_ Ht]. simpl.
    now apply negb_true_iff in Ht. }
  assert (F2 : filter (fun t => Ticket.queue_position t =? 1)
                 (map delay_item others) = []).
  { apply filter_none, Forall_map, Forall_forall. intros t Ht.
    apply filter_In in Ht. destruct Ht as [Ht _].
    pose proof (snapshot_positions_at_least_one rl session None) as F.
    rewrite Forall_forall in F. specialize (F t Ht). simpl.
    apply Z.eqb_neq. lia. }
  rewrite F1, F2, length_map. repeat split.
  pose proof (filter_length_bound
                (fun item => negb (Ticket.id item =? emergency_patient_id))
                (snapshot rl session None)).
  fold others in H0. lia.
Qed.

Lemma emergency_patient_appears_once_and_alone_at_position_one_witness :
  count (fun t => Ticket.id t =? 2)
    (value (reorder_queue_for_emergency Samples.no_boost Samples.three_patients 2))
  = 1.
Proof.
  apply (emergency_patient_appears_once_and_alone_at_position_one Samples.no_boost
           Samples.three_patients 2 (Samples.patient 2 30 "low")).
  reflexivity.
Defined.

End EmergencyOnce.

(** ** Emergencies come first *)

Section EmergencyFirst.
Import DynamicQueueManager PatientScorer.

Lemma patient_item_base_scored session q p : base_scored (patient_item session q p).
Proof.
  unfold base_scored, patient_item.
  destruct (queue_patient q p); destruct (filter _ _); reflexivity.
Qed.

Lemma consult_keeps_base_score rl item :
  never_boosts rl -> base_scored item -> base_scored (value (consult rl item)).
Proof.
  intros Hq Hb. unfold base_scored in *. rewrite value_consult.
  destruct (rl _ _ _) as [|[r|]] eqn:E; simpl; try exact Hb.
  destruct (urgency_boost r) as [b|] eqn:B; [|exact Hb].
  rewrite (Qeq_eq_bool _ _ (Hq _ _ _ _ _ E B)). exact Hb.
Qed.

Lemma ranked_base_scored rl session q :
  never_boosts rl -> Forall base_scored (ranked rl session q).
Proof.
  intro Hq. rewrite ranked_eq.
  apply (Permutation_Forall (Permutation_sym (sort_desc_perm PatientItem.score _))).
  unfold boosted. rewrite value_consult_top.
  assert (C : Forall base_scored (candidates session q)).
  { rewrite candidates_eq. apply Forall_map, Forall_forall. intros p _.
    apply patient_item_base_scored. }
  rewrite <- (firstn_skipn 10 (candidates session q)) in C.
  apply Forall_app in C. destruct C as [C1 C2].
  apply Forall_app. split; [|exact C2].
  apply Forall_map. eapply Forall_impl; [|exact C1].
  intros item. now apply consult_keeps_base_score.
Qed.

Lemma non_emergency_score_below_100 patient appointment_type :
  (calculate_patient_score patient appointment_type false < 100)%Q.
Proof.
  rewrite calculate_patient_score_sum.
  pose proof (score_terms_bounds patient appointment_type) as [Hl Hu].
  set (z := risk_level_weight patient + age_bonus patient
            + condition_severity_bonus patient
            + appointment_type_weight appointment_type
            + no_show_adjustment patient) in *.
  assert (H1 : (1 <= inject_Z z)%Q) by (unfold Qle; simpl; lia).
  rewrite (Q.max_l _ _ H1). unfold Qlt. simpl. lia.
Qed.

Lemma StronglySorted_nth {A} (R : A -> A -> Prop) (l : list A) :
  StronglySorted R l ->
  forall i j a b, (i < j)%nat ->
    nth_error l i = Some a -> nth_error l j = Some b -> R a b.
Proof.
  induction 1 as [|x l _ IH F]; intros i j a b Hij Ha Hb.
  - destruct i; discriminate.
  - destruct j as [|j]; [lia|]. simpl in Hb.
    destruct i as [|i].
    + injection Ha as <-. rewrite Forall_forall in F.
      apply F. eapply nth_error_In, Hb.
    + simpl in Ha. apply (IH i j); [lia|assumption..].
Qed.

Lemma format_scored_is_emergency items : forall position total cumulative,
  map Ticket.is_emergency (format_scored items position total cumulative)
  = map (fun item => Some (PatientItem.is_emergency item)) items.
Proof.
  induction items as [|item items IH]; intros p T c; [reflexivity|].
  rewrite format_scored_cons. simpl. now rewrite IH.
Qed.

(** X10.  When the oracle moves no score, the emergencies lead the tickets
    behind the pinned one: no ticket without the emergency flag stands before
    a ticket with it, whatever the risk, age, conditions or booking time of
    the patients. *)
Theorem emergencies_lead_the_non_pinned_tickets
    (rl : Oracle) (session : Session) (q : option (list QueueEntry.t))
    (i j : nat) (ti tj : Ticket.t) :
  never_boosts rl ->
  (i < j)%nat ->
  nth_error (non_pinned rl session q) i = Some ti ->
  nth_error (non_pinned rl session q) j = Some tj ->
  Ticket.is_emergency tj = Some true ->
  Ticket.is_emergency ti = Some true.
Proof.
  intros Hq Hij Hi Hj Ej.
  destruct (non_pinned_format rl session q) as (p & T & c & E).
  rewrite E in Hi, Hj.
  pose proof (format_scored_is_emergency (ranked rl session q) p T c) as M.
  assert (Xi : nth_error (map Ticket.is_emergency
                            (format_scored (ranked rl session q) p T c)) i
               = Some (Ticket.is_emergency ti)) by (now apply map_nth_error).
  assert (Xj : nth_error (map Ticket.is_emergency
                            (format_scored (ranked rl session q) p T c)) j
               = Some (Ticket.is_emergency tj)) by (now apply map_nth_error).
  rewrite M in Xi, Xj.
  rewrite nth_error_map in Xi, Xj.
  destruct (nth_error (ranked rl session q) i) as [a|] eqn:Ha; [|discriminate].
  destruct (nth_error (ranked rl session q) j) as [b|] eqn:Hb; [|discriminate].
  simpl in Xi, Xj. injection Xi as Xi. injection Xj as Xj.
  rewrite <- Xi. rewrite <- Xj in Ej. injection Ej as Ej.
  assert (S : StronglySorted (desc PatientItem.score) (ranked rl session q))
    by (rewrite ranked_eq; apply sort_desc_sorted).
  pose proof (StronglySorted_nth _ _ S i j a b Hij Ha Hb) as Hab.
  pose proof (ranked_base_scored rl session q Hq) as B.
  rewrite Forall_forall in B.
  pose proof (B a (nth_error_In _ _ Ha)) as Ba.
  pose proof (B b (nth_error_In _ _ Hb)) as Bb.
  unfold desc, base_scored in *. rewrite Ej in Bb.
  destruct (PatientItem.is_emergency a); [reflexivity|].
  exfalso.
  pose proof (non_emergency_score_below_100 (PatientItem.patient a)
                (PatientItem.appointment_type a)) as L.
  rewrite <- Ba in L. rewrite Bb in Hab.
  change (calculate_patient_score (PatientItem.patient b)
            (PatientItem.appointment_type b) true) with 100%Q in Hab.
  lra.
Qed.

Lemma emergencies_lead_the_non_pinned_tickets_witness :
  exists ti,
    nth_error (non_pinned Samples.no_boost Samples.three_patients
                 (Some Samples2.booked_two_emergencies)) 0 = Some ti
    /\ Ticket.is_emergency ti = Some true.
Proof.
  destruct (nth_error (non_pinned Samples.no_boost Samples.three_patients
                         (Some Samples2.booked_two_emergencies)) 0) as [ti|] eqn:Hi;
    [|vm_compute in Hi; discriminate].
  destruct (nth_error (non_pinned Samples.no_boost Samples.three_patients
                         (Some Samples2.booked_two_emergencies)) 1) as [tj|] eqn:Hj;
    [|vm_compute in Hj; discriminate].
  exists ti. split; [reflexivity|].
  apply (emergencies_lead_the_non_pinned_tickets Samples.no_boost
           Samples.three_patients (Some Samples2.booked_two_emergencies) 0 1 ti tj).
  - intros pid type prio r b E B. injection E as <-. discriminate B.
  - lia.
  - exact Hi.
  - exact Hj.
  - vm_compute in Hj. injection Hj as <-. reflexivity.
Defined.

End EmergencyFirst.

(** ** [/queue/update-priorities] *)

Section UpdatePriorities.
Import DynamicQueueManager Main Endpoints.

Lemma renumber_cons item rest index cumulative :
  renumber (item :: rest) index cumulative
  = {| Ticket.id := Ticket.id item;
       Ticket.name := Ticket.name item;
       Ticket.age := Ticket.age item;
       Ticket.conditions := Ticket.conditions item;
       Ticket.risk_level := Ticket.risk_level item;
       Ticket.score := Ticket.score item;
       Ticket.queue_position := index + 1;
       Ticket.estimated_wait_minutes :=
         if index =? 0 then ticket_duration item else cumulative;
       Ticket.appointment_duration := Some (ticket_duration item);
       Ticket.appointment_type := Ticket.appointment_type item;
       Ticket.is_emergency := Ticket.is_emergency item;
       Ticket.status := Ticket.status item;
       Ticket.priority_reason := Ticket.priority_reason item;
       Ticket.rl_optimized := Ticket.rl_optimized item |}
    :: renumber rest (index + 1)
         (if index =? 0 then ticket_duration item
          else cumulative + ticket_duration item).
Proof. simpl. destruct (index =? 0); reflexivity. Qed.

Lemma renumber_ids_scores items : forall index cumulative,
  map (fun t => (Ticket.id t, Ticket.score t)) (renumber items index cumulative)
  = map (fun t => (Ticket.id t, Ticket.score t)) items.
Proof.
  induction items as [|item items IH]; intros i c; [reflexivity|].
  rewrite renumber_cons. simpl. now rewrite IH.
Qed.




Lemma renumber_durations items : forall index cumulative,
  map duration (renumber items index cumulative) = map ticket_duration items.
Proof.
  induction items as [|item items IH]; intros i c; [reflexivity|].
  rewrite renumber_cons. simpl. now rewrite IH.
Qed.


Lemma renumber_wait_from items : forall index cumulative k t,
  0 < index ->
  nth_error (renumber items index cumulative) k = Some t ->
  Ticket.estimated_wait_minutes t
  = cumulative + Zsum (map ticket_duration (firstn k items)).
Proof.
  induction items as [|item items IH]; intros i c k t Hi Hk.
  - destruct k; discriminate.
  - rewrite renumber_cons in Hk.
    destruct (Z.eqb_spec i 0) as [E|_]; [lia|].
    destruct k as [|k].
    + injection Hk as <-. simpl. lia.
    + simpl in Hk. apply IH in Hk; [|lia]. rewrite Hk. simpl. lia.
Qed.


(** The queue [update_queue_priorities] returns to an authorized caller. *)
Lemma value_update_queue_priorities rl updates role now st :
  authorized role = true ->
  exists r,
    value (update_queue_priorities rl updates role now st) = Returns r
    /\ pu_updated_queue r
       = renumber
           (sort_desc Ticket.score
              (map (adjust updates)
                 (snapshot rl (db st) (Some (appointment_queue st))))) 0 0.
Proof.
  intro H. unfold update_queue_priorities. rewrite H. simpl negb. cbv iota.
  rewrite value_bind. eexists. split; reflexivity.
Qed.



(** X12.  In the queue returned by [update_queue_priorities] the first ticket
    waits its own duration, also when it is the only one, and every later
    ticket, the last included, waits the sum of the durations of all tickets
    before it; each ticket carries the duration of its appointment type. *)
Theorem update_priorities_wait_estimates
    (rl : Oracle) (updates : list (Z * Q)) (role : string) (now : Z) (st : State) :
  authorized role = true ->
  exists r,
    value (update_queue_priorities rl updates role now st) = Returns r
    /\ (forall k t, nth_error (pu_updated_queue r) k = Some t ->
          Ticket.appointment_duration t = Some (ticket_duration t)
          /\ Ticket.estimated_wait_minutes t
             = if (k =? 0)%nat then duration t
               else total_duration (firstn k (pu_updated_queue r))).
Proof.
  intro H.
  destruct (value_update_queue_priorities rl updates role now st H) as (r & Hr & Hq).
  exists r. split; [exact Hr|]. rewrite Hq.
  set (l := sort_desc Ticket.score _).
  intros k t Hk. destruct l as [|item l]; [destruct k; discriminate|].
  rewrite renumber_cons in Hk |- *. change (0 =? 0) with true in *. cbv iota in *.
  destruct k as [|k].
  - injection Hk as <-. split; reflexivity.
  - simpl in Hk. split.
    + assert (D : forall items i c k t,
                 nth_error (renumber items i c) k = Some t ->
                 Ticket.appointment_duration t = Some (ticket_duration t)).
      { clear. induction items as [|x items IH]; intros i c k t Hk.
        - destruct k; discriminate.
        - rewrite renumber_cons in Hk. destruct k as [|k].
          + injection Hk as <-. reflexivity.
          + simpl in Hk. now apply IH in Hk. }
      now apply D in Hk.
    + apply renumber_wait_from in Hk; [|lia]. rewrite Hk.
      change (S k =? 0)%nat with false. cbv iota.
      rewrite firstn_cons, total_duration_cons. unfold total_duration.
      rewrite <- (firstn_map duration), renumber_durations, firstn_map. reflexivity.
Qed.

Lemma update_priorities_wait_estimates_witness :
  exists r,
    value (update_queue_priorities Samples.no_boost [] "admin" 0
             (mkState Samples.three_patients Samples.booked_1_3_2 [])) = Returns r
    /\ (forall k t, nth_error (pu_updated_queue r) k = Some t ->
          Ticket.appointment_duration t = Some (ticket_duration t)
          /\ Ticket.estimated_wait_minutes t
             = if (k =? 0)%nat then duration t
               else total_duration (firstn k (pu_updated_queue r))).
Proof.
  apply (update_priorities_wait_estimates Samples.no_boost [] "admin" 0
           (mkState Samples.three_patients Samples.booked_1_3_2 [])).
  reflexivity.
Defined.

(** X13.  [update_queue_priorities] gives every ticket whose patient id is a
    key of [priority_updates] exactly the score stored under that key and
    clears its [rl_optimized] mark; every other ticket keeps the score it had
    in the snapshot. *)
Theorem update_priorities_applies_the_overrides
    (rl : Oracle) (updates : list (Z * Q)) (role : string) (now : Z) (st : State) :
  authorized role = true ->
  exists r,
    value (update_queue_priorities rl updates role now st) = Returns r
    /\ Permutation
         (map (fun t => (Ticket.id t, Ticket.score t)) (pu_updated_queue r))
         (map (fun t => (Ticket.id t,
                         match updates_get updates (Ticket.id t) with
                         | Some new_score => new_score
                         | None => Ticket.score t
                         end))
            (snapshot rl (db st) (Some (appointment_queue st))))
    /\ Forall (fun t => updates_get updates (Ticket.id t) <> None ->
                        Ticket.rl_optimized t = false)
         (pu_updated_queue r).
Proof.
  intro H.
  destruct (value_update_queue_priorities rl updates role now st H) as (r & Hr & Hq).
  exists r. split; [exact Hr|]. rewrite Hq.
  set (s := snapshot rl (db st) (Some (appointment_queue st))).
  split.
  - rewrite renumber_ids_scores.
    rewrite (Permutation_map _ (sort_desc_perm Ticket.score (map (adjust updates) s))).
    rewrite map_map.
    replace (map (fun x => (Ticket.id (adjust updates x), Ticket.score (adjust updates x))) s)
      with (map (fun t => (Ticket.id t,
                           match updates_get updates (Ticket.id t) with
                           | Some new_score => new_score
                           | None => Ticket.score t
                           end)) s); [reflexivity|].
    apply map_ext. intro t. unfold adjust. now destruct (updates_get updates _).
  - assert (R : forall items i c,
               Forall (fun t => updates_get updates (Ticket.id t) <> None ->
                                Ticket.rl_optimized t = false) items ->
               Forall (fun t => updates_get updates (Ticket.id t) <> None ->
                                Ticket.rl_optimized t = false) (renumber items i c)).
    { clear. induction items as [|x items IH]; intros i c F; [constructor|].
      inversion F; subst. rewrite renumber_cons. constructor; [assumption|now apply IH]. }
    apply R.
    apply (Permutation_Forall (Permutation_sym (sort_desc_perm Ticket.score _))).
    apply Forall_map, Forall_forall. intros t _. unfold adjust.
    destruct (updates_get updates (Ticket.id t)) eqn:E; simpl.
    + reflexivity.
    + intro N. now rewrite E in N.
Qed.

Lemma update_priorities_applies_the_overrides_witness :
  exists r,
    value (update_queue_priorities Samples.boost5 [(2, 99%Q)] "admin" 0
             (mkState Samples.three_patients Samples.booked_1_3_2 [])) = Returns r
    /\ Permutation
         (map (fun t => (Ticket.id t, Ticket.score t)) (pu_updated_queue r))
         (map (fun t => (Ticket.id t,
                         match updates_get [(2, 99%Q)] (Ticket.id t) with
                         | Some new_score => new_score
                         | None => Ticket.score t
                         end))
            (snapshot Samples.boost5 Samples.three_patients (Some Samples.booked_1_3_2)))
    /\ Forall (fun t => updates_get [(2, 99%Q)] (Ticket.id t) <> None ->
                        Ticket.rl_optimized t = false)
         (pu_updated_queue r).
Proof.
  apply (update_priorities_applies_the_overrides Samples.boost5 [(2, 99%Q)] "admin" 0
           (mkState Samples.three_patients Samples.booked_1_3_2 [])).
  reflexivity.
Defined.

End UpdatePriorities.

(** ** The stable ascending sort *)

Section SortAscFacts.
Context {A : Type} (key : A -> Z).

Lemma insert_asc_perm (x : A) (l : list A) :
  Permutation (insert_asc key x l) (x :: l).
Proof.
  induction l as [|y l IH]; simpl; [reflexivity|].
  destruct (key y <? key x); [|reflexivity].
  rewrite IH. apply perm_swap.
Qed.

Lemma sort_asc_perm (l : list A) : Permutation (sort_asc key l) l.
Proof.
  induction l as [|x l IH]; simpl; [reflexivity|].
  rewrite insert_asc_perm. now constructor.
Qed.

Lemma insert_asc_sorted (x : A) (l : list A) :
  StronglySorted (asc key) l -> StronglySorted (asc key) (insert_asc key x l).
Proof.
  induction 1 as [|y l Hs IH Hy]; simpl.
  - constructor; constructor.
  - destruct (Z.ltb_spec (key y) (key x)) as [E|E].
    + constructor; [exact IH|].
      apply (Permutation_Forall (Permutation_sym (insert_asc_perm x l))).
      constructor; [|exact Hy]. unfold asc. lia.
    + constructor; [constructor; assumption|].
      constructor; [exact E|].
      eapply Forall_impl; [|exact Hy]. unfold asc. intros z Hz. lia.
Qed.

Lemma sort_asc_sorted (l : list A) : StronglySorted (asc key) (sort_asc key l).
Proof.
  induction l as [|x l IH]; simpl; [constructor|].
  now apply insert_asc_sorted.
Qed.

Lemma insert_asc_filter (p : A -> bool) (x : A) (l : list A) :
  (forall y, p x = true -> p y = true -> (key y <? key x) = false) ->
  filter p (insert_asc key x l) = filter p (x :: l).
Proof.
  intro Hp. induction l as [|y l IH]; [reflexivity|].
  simpl insert_asc. destruct (key y <? key x) eqn:E; [|reflexivity].
  simpl in *. rewrite IH.
  destruct (p x) eqn:Px; [|reflexivity].
  destruct (p y) eqn:Py; [|reflexivity].
  rewrite (Hp y eq_refl Py) in E. discriminate.
Qed.

(** Elements with equal keys keep the order they had. *)
Lemma sort_asc_stable (k : Z) (l : list A) :
  filter (fun a => key a =? k) (sort_asc key l) = filter (fun a => key a =? k) l.
Proof.
  induction l as [|x l IH]; [reflexivity|].
  simpl sort_asc. rewrite insert_asc_filter.
  - simpl. rewrite IH. reflexivity.
  - intros y Hx Hy. apply Z.eqb_eq in Hx, Hy. apply Z.ltb_ge. lia.
Qed.

(** A first element with the least key stays first. *)
Lemma sort_asc_least_first (x : A) (l : list A) :
  (forall y, In y l -> key x <= key y) ->
  sort_asc key (x :: l) = x :: sort_asc key l.
Proof.
  intro H. simpl.
  assert (F : forall y, In y (sort_asc key l) -> key x <= key y).
  { intros y Hy. apply H. apply (Permutation_in _ (sort_asc_perm l) Hy). }
  destruct (sort_asc key l) as [|y l']; [reflexivity|].
  simpl. destruct (Z.ltb_spec (key y) (key x)) as [E|_]; [|reflexivity].
  specialize (F y (or_introl eq_refl)). lia.
Qed.

End SortAscFacts.

(** ** [/queue/reorder_rl] *)

Section ReorderRL.
Import DynamicQueueManager Main Endpoints.

Lemma patient_order_lower items : forall i pid j,
  patient_order items i pid = Some j -> i <= j.
Proof.
  induction items as [|item items IH]; intros i pid j H; [discriminate|].
  simpl in H. destruct (patient_order items (i + 1) pid) as [j'|] eqn:E.
  - injection H as <-. apply IH in E. lia.
  - destruct (Ticket.id item =? pid); [|discriminate]. injection H as <-. lia.
Qed.

Lemma patient_order_absent items : forall i pid,
  Forall (fun t => Ticket.id t <> pid) items -> patient_order items i pid = None.
Proof.
  induction items as [|item items IH]; intros i pid F; [reflexivity|].
  inversion F as [|? ? Hx Hl]; subst. simpl. rewrite (IH _ _ Hl).
  destruct (Z.eqb_spec (Ticket.id item) pid); [contradiction|reflexivity].
Qed.

Lemma order_key_nonneg items x : 0 <= order_key items x.
Proof.
  unfold order_key. destruct (patient_order items 0 _) as [j|] eqn:E; [|lia].
  now apply patient_order_lower in E.
Qed.

(** What [reorder_queue_with_rl] leaves. *)
Lemma state_reorder_queue_with_rl rl st :
  let st' := snd (value (reorder_queue_with_rl rl st)) in
  db st' = db st
  /\ completed_patients st' = completed_patients st
  /\ (appointment_queue st' = appointment_queue st
      \/ appointment_queue st'
         = sort_asc (order_key (snapshot rl (db st) (Some (appointment_queue st))))
             (appointment_queue st)).
Proof.
  unfold reorder_queue_with_rl, snapshot.
  destruct (appointment_queue st) as [|first rest] eqn:Q.
  - simpl. rewrite Q. auto.
  - rewrite value_bind.
    destruct (value (calculate_queue_order rl (db st) (Some (first :: rest))))
      as [|t others]; unfold value, ret; cbn [fst snd db appointment_queue completed_patients].
    + rewrite Q. auto.
    + auto.
Qed.

(** X14.  [reorder_queue_with_rl] loses and invents no booking: the queue it
    leaves is a rearrangement of the queue it found, of the same length; the
    database and the completed history are left as they were. *)
Theorem reorder_rl_rearranges_the_queue (rl : Oracle) (st : State) :
  let st' := snd (value (reorder_queue_with_rl rl st)) in
  Permutation (appointment_queue st') (appointment_queue st)
  /\ length (appointment_queue st') = length (appointment_queue st)
  /\ db st' = db st
  /\ completed_patients st' = completed_patients st.
Proof.
  intro st'. destruct (state_reorder_queue_with_rl rl st) as (Hd & Hc & Hq).
  fold st' in Hd, Hc, Hq.
  assert (P : Permutation (appointment_queue st') (appointment_queue st)).
  { destruct Hq as [-> | ->]; [reflexivity|apply sort_asc_perm]. }
  repeat split; try assumption. now apply Permutation_length.
Qed.

Lemma reordered_queue rl st t others :
  appointment_queue st <> [] ->
  snapshot rl (db st) (Some (appointment_queue st)) = t :: others ->
  appointment_queue (snd (value (reorder_queue_with_rl rl st)))
  = sort_asc (order_key (t :: others)) (appointment_queue st).
Proof.
  unfold reorder_queue_with_rl, snapshot. intros Hne Hs.
  destruct (appointment_queue st) as [|first rest] eqn:Q; [congruence|].
  rewrite value_bind, Hs. reflexivity.
Qed.

(** X15.  When somebody waits, [reorder_queue_with_rl] leaves the bookings
    in the order of the snapshot: sorted by the position of their patient's
    ticket, bookings of patients without a ticket behind (key 999), and
    bookings with the same key in the order they had. *)
Theorem reorder_rl_follows_the_snapshot (rl : Oracle) (st : State) :
  appointment_queue st <> [] ->
  snapshot rl (db st) (Some (appointment_queue st)) <> [] ->
  let key := order_key (snapshot rl (db st) (Some (appointment_queue st))) in
  let queue' := appointment_queue (snd (value (reorder_queue_with_rl rl st))) in
  StronglySorted (asc key) queue'
  /\ (forall k, filter (fun x => key x =? k) queue'
                = filter (fun x => key x =? k) (appointment_queue st)).
Proof.
  intros Hne Hs key queue'. subst key queue'.
  destruct (snapshot rl (db st) (Some (appointment_queue st))) as [|t others] eqn:E;
    [congruence|].
  rewrite (reordered_queue rl st t others Hne E). split.
  - apply sort_asc_sorted.
  - intro k. apply sort_asc_stable.
Qed.

Lemma reorder_rl_follows_the_snapshot_witness :
  map QueueEntry.patient_id
    (appointment_queue
       (snd (value (reorder_queue_with_rl Samples.no_boost
                      (mkState Samples.three_patients Samples.booked_1_3_2 [])))))
  = [1; 2; 3]
  /\ StronglySorted
       (asc (order_key (snapshot Samples.no_boost Samples.three_patients
                          (Some Samples.booked_1_3_2))))
       (appointment_queue
          (snd (value (reorder_queue_with_rl Samples.no_boost
                         (mkState Samples.three_patients Samples.booked_1_3_2 []))))).
Proof.
  split; [vm_compute; reflexivity|].
  apply (reorder_rl_follows_the_snapshot Samples.no_boost
           (mkState Samples.three_patients Samples.booked_1_3_2 [])).
  - discriminate.
  - vm_compute. discriminate.
Defined.

Lemma pinned_ticket_id_is_unique rl session first rest :
  In (QueueEntry.patient_id first) (map Patient.id (waiting_patients session)) ->
  exists t others,
    snapshot rl session (Some (first :: rest)) = t :: others
    /\ Ticket.id t = QueueEntry.patient_id first
    /\ Forall (fun t' => Ticket.id t' <> QueueEntry.patient_id first) others.
Proof.
  intro Hin.
  destruct (pinned_some session first rest Hin) as (item & P & Hid).
  rewrite (snapshot_pinned rl _ _ item P). cbv zeta.
  eexists; eexists. split; [reflexivity|]. split; [exact Hid|].
  apply Forall_map with (f := Ticket.id)
    (P := fun i => i <> QueueEntry.patient_id first).
  rewrite format_scored_ids.
  apply (Permutation_Forall (Permutation_sym (ranked_ids_perm rl session _))).
  rewrite candidates_ids. apply Forall_map, Forall_forall.
  intros p Hp. apply filter_In in Hp. destruct Hp as [_ Hp].
  simpl in Hp. apply negb_true_iff in Hp. now apply Z.eqb_neq.
Qed.

(** X16.  When the patient of the first booking is a waiting patient,
    [reorder_queue_with_rl] keeps that booking at the head of the queue, so
    the next snapshot pins the same patient. *)
Theorem reorder_rl_keeps_the_pinned_booking_first
    (rl : Oracle) (st : State) (first : QueueEntry.t) (rest : list QueueEntry.t) :
  appointment_queue st = first :: rest ->
  In (QueueEntry.patient_id first) (map Patient.id (waiting_patients (db st))) ->
  hd_error (appointment_queue (snd (value (reorder_queue_with_rl rl st))))
  = Some first.
Proof.
  intros Q Hin.
  destruct (pinned_ticket_id_is_unique rl (db st) first rest Hin)
    as (t & others & Hs & Hid & Hu).
  assert (Hne : appointment_queue st <> []) by (rewrite Q; discriminate).
  rewrite <- Q in Hs. rewrite (reordered_queue rl st t others Hne Hs), Q.
  rewrite sort_asc_least_first; [reflexivity|].
  intros y _.
  assert (K : order_key (t :: others) first = 0).
  { unfold order_key. simpl. rewrite (patient_order_absent _ _ _ Hu).
    now rewrite Hid, Z.eqb_refl. }
  rewrite K. apply order_key_nonneg.
Qed.

Lemma reorder_rl_keeps_the_pinned_booking_first_witness :
  hd_error
    (appointment_queue
       (snd (value (reorder_queue_with_rl Samples.boost5
                      (mkState Samples.three_patients Samples.booked_1_2_1 [])))))
  = Some (Samples.entry 1 "checkup" false 10).
Proof.
  apply (reorder_rl_keeps_the_pinned_booking_first Samples.boost5
           (mkState Samples.three_patients Samples.booked_1_2_1 [])
           (Samples.entry 1 "checkup" false 10)
           [Samples.entry 2 "checkup" false 20; Samples.entry 1 "followup" false 30]).
  - reflexivity.
  - simpl. tauto.
Defined.

End ReorderRL.

(** ** [/queue/current] *)

Section CurrentQueueFacts.
Import Main Endpoints.

Lemma enhance_cons patient rest now i cumulative :
  enhance (patient :: rest) now i cumulative
  = EnhancedPatient.mk patient (i + 1)
      (if i =? 0 then 0 else cumulative) (entry_duration patient)
      (now - QueueEntry.queue_timestamp patient)
    :: enhance rest now (i + 1)
         (if i =? 0 then entry_duration patient
          else cumulative + entry_duration patient).
Proof.
  simpl. unfold entry_duration.
  destruct (i =? 0); [reflexivity|]. destruct (i =? 1); reflexivity.
Qed.

Lemma enhance_waits queue now : forall i c,
  map (fun p => (EnhancedPatient.estimated_wait p, EnhancedPatient.appointment_duration p))
      (enhance queue now i c)
  = current_queue_waits queue i c.
Proof.
  induction queue as [|e queue IH]; intros i c; [reflexivity|].
  rewrite enhance_cons. simpl. fold (entry_duration e).
  destruct (i =? 0); simpl; now rewrite IH.
Qed.

Lemma enhance_entries queue now : forall i c,
  map EnhancedPatient.entry (enhance queue now i c) = queue.
Proof.
  induction queue as [|e queue IH]; intros i c; [reflexivity|].
  rewrite enhance_cons. simpl. now rewrite IH.
Qed.

Lemma enhance_positions queue now : forall i c,
  map EnhancedPatient.current_position (enhance queue now i c)
  = map (fun k => i + k) (one_to (length queue)).
Proof.
  induction queue as [|e queue IH]; intros i c; [reflexivity|].
  rewrite enhance_cons. simpl length. rewrite one_to_succ. simpl. f_equal.
  rewrite IH, map_map. apply map_ext. intro k. lia.
Qed.

Lemma entry_duration_bounds e : 12 <= entry_duration e <= 60.
Proof. apply appointment_durations_bounds. Qed.

Lemma Zsum_firstn_succ (l : list Z) : forall k d,
  nth_error l k = Some d -> Zsum (firstn (S k) l) = Zsum (firstn k l) + d.
Proof.
  induction l as [|x l IH]; intros [|k] d H; try discriminate.
  - injection H as <-. simpl. destruct l; simpl; lia.
  - simpl in H. specialize (IH k d H). simpl in *. lia.
Qed.

(** X17.  [get_current_queue] lists the bookings in queue order, numbered
    1, 2, ..., n.  The first waits 0, every other one, the last included,
    waits the sum of the durations of all bookings before it; so the waits
    strictly increase along the queue. *)
Theorem current_queue_positions_and_waits (now : Z) (st : State) :
  let queue := cq_queue (get_current_queue now st) in
  map EnhancedPatient.entry queue = appointment_queue st
  /\ map EnhancedPatient.current_position queue = one_to (length (appointment_queue st))
  /\ (forall k p, nth_error queue k = Some p ->
        EnhancedPatient.estimated_wait p
        = Zsum (map entry_duration (firstn k (appointment_queue st))))
  /\ (forall k p p', nth_error queue k = Some p -> nth_error queue (S k) = Some p' ->
        EnhancedPatient.estimated_wait p < EnhancedPatient.estimated_wait p').
Proof.
  cbn [get_current_queue cq_queue].
  assert (W : forall k p,
             nth_error (enhance (appointment_queue st) now 0 0) k = Some p ->
             EnhancedPatient.estimated_wait p
             = Zsum (map entry_duration (firstn k (appointment_queue st)))).
  { intros k p H.
    apply (current_queue_waits_cumulative (appointment_queue st) k _
             (EnhancedPatient.appointment_duration p)).
    rewrite <- (enhance_waits _ now), nth_error_map, H. reflexivity. }
  split; [apply enhance_entries|]. split; [|split; [exact W|]].
  - rewrite enhance_positions.
    rewrite <- (map_id (one_to _)) at 2. apply map_ext. intro k. lia.
  - intros k p p' Hp Hp'. rewrite (W _ _ Hp), (W _ _ Hp').
    assert (He : nth_error (appointment_queue st) k = Some (EnhancedPatient.entry p)).
    { rewrite <- (enhance_entries (appointment_queue st) now 0 0) at 1.
      now rewrite nth_error_map, Hp. }
    rewrite <- !firstn_map.
    rewrite (Zsum_firstn_succ _ k (entry_duration (EnhancedPatient.entry p)));
      [|now rewrite nth_error_map, He].
    pose proof (entry_duration_bounds (EnhancedPatient.entry p)). lia.
Qed.

(** X18.  In the summary of [get_current_queue] the number waiting is the
    queue length less the patient being seen (0 for an empty queue), and the
    wait announced for the next patient is the duration of the first
    booking's appointment when a second booking exists and 0 otherwise. *)
Theorem current_queue_summary (now : Z) (st : State) :
  let r := get_current_queue now st in
  cq_total_patients r = Z.max 0 (Z.of_nat (length (appointment_queue st)) - 1)
  /\ qs_total_in_queue (cq_queue_summary r) = cq_total_patients r
  /\ qs_next_patient_wait (cq_queue_summary r)
     = match appointment_queue st with
       | first :: _ :: _ => entry_duration first
       | _ => 0
       end
  /\ qs_current_patient_duration (cq_queue_summary r)
     = match appointment_queue st with
       | first :: _ => entry_duration first
       | [] => 0
       end
  /\ option_map EnhancedPatient.entry (cq_next_patient r)
     = nth_error (appointment_queue st) 1
  /\ option_map EnhancedPatient.entry (cq_current_patient r)
     = nth_error (appointment_queue st) 0.
Proof.
  cbn [get_current_queue cq_total_patients cq_queue_summary qs_total_in_queue
       qs_next_patient_wait qs_current_patient_duration cq_next_patient
       cq_current_patient].
  destruct (appointment_queue st) as [|first [|second rest]].
  - repeat split.
  - repeat split.
  - rewrite !enhance_cons. change (0 =? 0) with true. change (0 + 1 =? 0) with false.
    cbv iota. repeat split.
    assert (E : (Z.of_nat (length (first :: second :: rest)) <=? 1) = false)
      by (apply Z.leb_gt; simpl length; lia).
    rewrite E. cbn [nth_error EnhancedPatient.estimated_wait]. reflexivity.
Qed.

End CurrentQueueFacts.

(** ** [/queue/assign-next] *)

Section AssignNext.
Import DynamicQueueManager Main Endpoints.

Lemma waiting_after_scheduling session pid :
  waiting_patients
    (mkSession (patients session)
       (appointments session ++ [Appointment.mk pid "checkup" "scheduled"]))
  = filter (fun p => negb (Patient.id p =? pid)) (waiting_patients session).
Proof.
  unfold waiting_patients, scheduled_patient_ids. simpl patients. simpl appointments.
  rewrite filter_app, map_app. simpl.
  induction (patients session) as [|p l IH]; [reflexivity|].
  simpl. rewrite existsb_app. simpl. rewrite orb_false_r, negb_orb.
  destruct (existsb _ _); simpl.
  - exact IH.
  - destruct (Patient.id p =? pid); simpl; now rewrite IH.
Qed.

Lemma sort_desc_head {A} (key : A -> Q) (l : list A) (x : A) (rest : list A) :
  sort_desc key l = x :: rest ->
  In x l /\ forall y, In y l -> (key y <= key x)%Q.
Proof.
  intro E. pose proof (sort_desc_perm key l) as P.
  pose proof (sort_desc_sorted key l) as S. rewrite E in P, S.
  split.
  - apply (Permutation_in _ P). now left.
  - intros y Hy. apply (Permutation_in _ (Permutation_sym P)) in Hy.
    inversion S as [|? ? _ F]; subst. destruct Hy as [<-|Hy].
    + apply Qle_refl.
    + rewrite Forall_forall in F. apply (F y Hy).
Qed.

(** X19.  When [assign_next_patient] answers "success", the patient it
    assigned is a waiting patient of the highest priority score; the
    database has gained exactly one appointment, a scheduled one for that
    patient; the waiting patients are the former ones less that patient,
    who is therefore in no later snapshot of the queue, whether still booked
    in the raw queue or not. *)
Theorem assign_next_schedules_the_top_waiting_patient
    (slots : SlotOracle) (parse : string -> Parsed) (role : string)
    (session session' : Session) (resp : AssignNext) :
  assign_next_patient slots parse role session = (Returns resp, session') ->
  an_status resp = "success"%string ->
  exists p,
    In p (waiting_patients session)
    /\ (forall p', In p' (waiting_patients session) ->
          patient_priority_score p' <= patient_priority_score p)
    /\ option_map as_patient_id (an_assignment resp) = Some (Patient.id p)
    /\ patients session' = patients session
    /\ appointments session'
       = appointments session ++ [Appointment.mk (Patient.id p) "checkup" "scheduled"]
    /\ waiting_patients session'
       = filter (fun p' => negb (Patient.id p' =? Patient.id p)) (waiting_patients session)
    /\ (forall rl q, ~ In (Patient.id p) (map Ticket.id (snapshot rl session' q))).
Proof.
  unfold assign_next_patient. intros H Hs.
  destruct (negb (authorized role)); [discriminate|].
  destruct (sort_desc _ (waiting_patients session)) as [|p rest] eqn:E.
  { injection H as <- _. discriminate Hs. }
  destruct (slots (Patient.id p)) as [m|r].
  { injection H as <- _. discriminate Hs. }
  destruct (rec_status r) as [s|]; [|injection H as <- _; discriminate Hs].
  destruct (available_slots r) as [|best_slot others];
    [injection H as <- _; discriminate Hs|].
  destruct (String.eqb s "success"); [|injection H as <- _; discriminate Hs].
  destruct (parse (slot_datetime best_slot)) as [m|d t];
    [injection H as <- _; discriminate Hs|].
  injection H as <- <-.
  destruct (sort_desc_head _ _ _ _ E) as [Hin Hmax].
  exists p. split; [exact Hin|]. split.
  { intros p' Hp'. rewrite Zle_Qle. now apply Hmax. }
  split; [reflexivity|]. split; [reflexivity|]. split; [reflexivity|].
  assert (W : waiting_patients
                (mkSession (patients session)
                   (appointments session
                    ++ [Appointment.mk (Patient.id p) "checkup" "scheduled"]))
              = filter (fun p' => negb (Patient.id p' =? Patient.id p))
                  (waiting_patients session))
    by apply waiting_after_scheduling.
  split; [exact W|].
  intros rl q Hq. apply snapshot_ids in Hq. rewrite W in Hq.
  apply in_map_iff in Hq. destruct Hq as (p' & Hid & Hp').
  apply filter_In in Hp'. destruct Hp' as [_ Hp'].
  rewrite Hid, Z.eqb_refl in Hp'. discriminate.
Qed.

Lemma assign_next_schedules_the_top_waiting_patient_witness :
  exists p,
    In p (waiting_patients Samples2.mixed_patients)
    /\ Patient.id p = 2
    /\ forall rl q,
         ~ In (Patient.id p)
             (map Ticket.id
                (snapshot rl
                   (snd (assign_next_patient Samples2.one_slot Samples2.parse_sample
                           "doctor" Samples2.mixed_patients)) q)).
Proof.
  destruct (assign_next_patient Samples2.one_slot Samples2.parse_sample "doctor"
              Samples2.mixed_patients) as [res s'] eqn:E.
  assert (E' := E). vm_compute in E'. injection E' as Hres Hs'.
  rewrite <- Hres in E.
  destruct (assign_next_schedules_the_top_waiting_patient _ _ _ _ _ _ E eq_refl)
    as (p & Hin & _ & Hid & _ & _ & _ & Hsnap).
  exists p. split; [exact Hin|]. split; [|exact Hsnap].
  simpl in Hid. now injection Hid as <-.
Defined.

(** X20.  Whenever [assign_next_patient] does not answer "success" (nobody
    waits, no slot is offered, the service or the date parsing raises, or the
    caller is not authorized) the database is left as it was; and for an
    authorized caller the answer is "no_waiting_patients" exactly when no
    patient waits. *)
Theorem assign_next_without_success_changes_nothing
    (slots : SlotOracle) (parse : string -> Parsed) (role : string)
    (session : Session) :
  let r := assign_next_patient slots parse role session in
  (forall e, fst r = Raises e -> snd r = session)
  /\ (forall resp, fst r = Returns resp -> an_status resp <> "success"%string ->
        snd r = session)
  /\ (authorized role = true ->
      (waiting_patients session = []
       <-> exists resp, fst r = Returns resp
                        /\ an_status resp = "no_waiting_patients"%string)).
Proof.
  unfold assign_next_patient.
  destruct (authorized role); simpl negb; cbv iota.
  2: { simpl. repeat split; try reflexivity; try discriminate.
       all: intros; discriminate. }
  assert (N : sort_desc (fun p => inject_Z (patient_priority_score p))
                (waiting_patients session) = []
              <-> waiting_patients session = []).
  { split; intro H.
    - pose proof (sort_desc_length (fun p => inject_Z (patient_priority_score p))
                    (waiting_patients session)) as L.
      rewrite H in L. simpl in L. symmetry in L. now apply length_zero_iff_nil.
    - now rewrite H. }
  destruct (sort_desc _ (waiting_patients session)) as [|p rest] eqn:E.
  { simpl. split; [discriminate|]. split; [reflexivity|]. intros _. split.
    - intros _. eexists. split; reflexivity.
    - intros _. now apply N. }
  assert (NE : waiting_patients session <> []).
  { intro H. apply N in H. discriminate H. }
  destruct (slots (Patient.id p)) as [m|r]; simpl.
  { split; [discriminate|]. split; [reflexivity|]. intros _. split; [contradiction|].
    intros (resp & H & Hs). injection H as <-. discriminate Hs. }
  destruct (rec_status r) as [s|]; simpl.
  2: { split; [discriminate|]. split; [reflexivity|]. intros _.
       split; [contradiction|].
       intros (resp & H & Hs). injection H as <-. discriminate Hs. }
  destruct (available_slots r) as [|best_slot others]; simpl.
  { split; [discriminate|]. split; [reflexivity|]. intros _. split; [contradiction|].
    intros (resp & H & Hs). injection H as <-. discriminate Hs. }
  destruct (String.eqb s "success"); simpl.
  2: { split; [discriminate|]. split; [reflexivity|]. intros _.
       split; [contradiction|].
       intros (resp & H & Hs). injection H as <-. discriminate Hs. }
  destruct (parse (slot_datetime best_slot)) as [m|d t]; simpl.
  { split; [discriminate|]. split; [reflexivity|]. intros _. split; [contradiction|].
    intros (resp & H & Hs). injection H as <-. discriminate Hs. }
  split; [discriminate|]. split.
  - intros resp H Hs. injection H as <-. now elim Hs.
  - intros _. split; [contradiction|].
    intros (resp & H & Hs). injection H as <-. discriminate Hs.
Qed.

End AssignNext.

(** ** The first booking of a scheduled patient *)

Section PinnedHeadLost.
Import DynamicQueueManager Main Endpoints.

(** [assign_next_patient] leaves the database as it was or adds one
    scheduled appointment, for a waiting patient. *)
Lemma session_after_assign_next
    (slots : SlotOracle) (parse : string -> Parsed) (role : string) (session : Session) :
  snd (assign_next_patient slots parse role session) = session
  \/ exists p,
       In p (waiting_patients session)
       /\ snd (assign_next_patient slots parse role session)
          = mkSession (patients session)
              (appointments session ++ [Appointment.mk (Patient.id p) "checkup" "scheduled"]).
Proof.
  unfold assign_next_patient.
  destruct (negb (authorized role)); [now left|].
  destruct (sort_desc _ (waiting_patients session)) as [|p rest] eqn:E; [now left|].
  destruct (slots (Patient.id p)) as [m|r]; [now left|].
  destruct (rec_status r) as [s|]; [|now left].
  destruct (available_slots r) as [|best_slot others]; [now left|].
  destruct (String.eqb s "success"); [|now left].
  destruct (parse (slot_datetime best_slot)) as [m|d t]; [now left|].
  right. exists p. split; [|reflexivity].
  now destruct (sort_desc_head _ _ _ _ E).
Qed.

(** The pin survives [assign_next_patient] unless the patient it schedules
    is the patient of the first booking, who then has no ticket in any
    snapshot while the booking stays at the head of the raw queue. *)
Lemma assign_next_keeps_the_pin_of_the_others
    (rl : Oracle) (slots : SlotOracle) (parse : string -> Parsed) (role : string)
    (session : Session) (first : QueueEntry.t) (rest : list QueueEntry.t) :
  In (QueueEntry.patient_id first) (map Patient.id (waiting_patients session)) ->
  pinned_head_holds rl (snd (assign_next_patient slots parse role session)) first rest
  \/ forall rl' q,
       ~ In (QueueEntry.patient_id first)
           (map Ticket.id
              (snapshot rl' (snd (assign_next_patient slots parse role session)) q)).
Proof.
  intro Hin.
  destruct (session_after_assign_next slots parse role session) as [->|(p & Hp & ->)].
  - left. now apply pinned_head_of_waiting_patient.
  - destruct (Z.eqb_spec (Patient.id p) (QueueEntry.patient_id first)) as [E|N].
    + right. intros rl' q Hq. apply snapshot_ids in Hq.
      rewrite waiting_after_scheduling in Hq.
      apply in_map_iff in Hq. destruct Hq as (p' & Hid & Hp').
      apply filter_In in Hp'. destruct Hp' as [_ Hp'].
      rewrite Hid, <- E, Z.eqb_refl in Hp'. discriminate.
    + left. apply pinned_head_of_waiting_patient.
      rewrite waiting_after_scheduling.
      apply in_map_iff in Hin. destruct Hin as (p' & Hid & Hp').
      apply in_map_iff. exists p'. split; [exact Hid|].
      apply filter_In. split; [exact Hp'|].
      apply negb_true_iff, Z.eqb_neq. congruence.
Qed.

(** C1, at the failing input.  Patients 1, 2 and 3 wait; patient 1 booked
    first, then patient 2.  The ticket of patient 1 is at position 1.  Then
    [/queue/assign-next] gives patient 1 a scheduled appointment and leaves
    the raw queue alone: the booking of patient 1 is still the first raw
    booking, but the snapshot is patient 3, then patient 2, and patient 1 has
    no ticket at all.  Position 1 has changed hands though neither
    [get_next_patient_rl] nor [reorder_queue_for_emergency] was called; and
    [reorder_queue_with_rl] now moves the booking of patient 2 to the head of
    the raw queue, after which position 1 goes to patient 2. *)
Lemma first_booking_loses_position_one_once_scheduled :
  map Ticket.id (snapshot Samples.no_boost Samples.three_patients
                   (Some Samples.booked_1_2)) = [1; 3; 2]
  /\ Samples3.after_assign_next
     = mkSession (patients Samples.three_patients)
         [Appointment.mk 1 "checkup" "scheduled"]
  /\ map Ticket.id (snapshot Samples.no_boost Samples3.after_assign_next
                      (Some Samples.booked_1_2)) = [3; 2]
  /\ ~ pinned_head_holds Samples.no_boost Samples3.after_assign_next
         (Samples.entry 1 "checkup" false 10) [Samples.entry 2 "checkup" false 20]
  /\ map QueueEntry.patient_id
       (appointment_queue
          (snd (value (reorder_queue_with_rl Samples.no_boost
                         (mkState Samples3.after_assign_next Samples.booked_1_2 [])))))
     = [2; 1]
  /\ map Ticket.id
       (snapshot Samples.no_boost Samples3.after_assign_next
          (Some [Samples.entry 2 "checkup" false 20; Samples.entry 1 "checkup" false 10]))
     = [2; 3].
Proof.
  split; [reflexivity|]. split; [reflexivity|]. split; [reflexivity|].
  split; [|split; reflexivity].
  intros (t & others & Hs & Hid & _).
  vm_compute in Hs. injection Hs as <- _. discriminate Hid.
Qed.

End PinnedHeadLost.

(** ** [/queue/emergency-reorder] *)

Section EmergencyEndpoint.
Import DynamicQueueManager Main Endpoints.

Lemma rl_calls_reorder_queue_for_emergency rl session pid :
  rl_calls (effects (reorder_queue_for_emergency rl session pid))
  = match session_lookup session pid with
    | LookupRaises =>
        rl_calls (effects (calculate_queue_order rl session None))
        ++ rl_calls (effects (calculate_queue_order rl session None))
    | LookupReturns _ => rl_calls (effects (calculate_queue_order rl session None))
    end.
Proof.
  unfold reorder_queue_for_emergency. rewrite effects_bind, rl_calls_app.
  destruct (session_lookup session pid) as [|[p|]].
  - rewrite effects_bind, rl_calls_app. reflexivity.
  - rewrite effects_ret. apply app_nil_r.
  - rewrite effects_ret. apply app_nil_r.
Qed.

(** X21.  For an authorized caller [emergency_queue_reorder] answers
    "success" exactly when the patient id is that of a row of the patient
    table; it then hands out the list of [reorder_queue_for_emergency] and
    counts as affected every ticket but the first.  For an unknown patient it
    answers "error" and hands out no queue: with the message "Failed to
    reorder queue for emergency patient" when nobody waits; otherwise with
    "Emergency patient not found" for an id that SQLite can hold, and with
    "Emergency queue reorder failed: " and the text of the exception for an
    id out of that range, whose lookup raises.  In that last case the queue
    order has been computed twice, in every other case once. *)
Theorem emergency_endpoint_succeeds_iff_patient_exists
    (rl : Oracle) (str_overflow : string) (emergency_patient_id : Z) (role : string)
    (now : Z) (session : Session) :
  authorized role = true ->
  exists r,
    value (emergency_queue_reorder rl str_overflow emergency_patient_id role now session)
    = Returns r
    /\ (er_status r = "success"%string
        <-> session_get session emergency_patient_id <> None)
    /\ (session_get session emergency_patient_id <> None ->
        er_reordered_queue r
        = Some (value (reorder_queue_for_emergency rl session emergency_patient_id))
        /\ er_total_affected_patients r
           = Some (count (fun t => negb (Ticket.id t =? emergency_patient_id))
                     (snapshot rl session None)))
    /\ (session_get session emergency_patient_id = None ->
        er_status r = "error"%string
        /\ er_reordered_queue r = None
        /\ er_message r
           = match snapshot rl session None with
             | [] => "Failed to reorder queue for emergency patient"%string
             | _ :: _ =>
                 if sqlite_integer emergency_patient_id
                 then "Emergency patient not found"%string
                 else ("Emergency queue reorder failed: " ++ str_overflow)%string
             end)
    /\ rl_calls
         (effects (emergency_queue_reorder rl str_overflow emergency_patient_id role now
                     session))
       = match session_get session emergency_patient_id,
               sqlite_integer emergency_patient_id with
         | None, false =>
             rl_calls (effects (calculate_queue_order rl session None))
             ++ rl_calls (effects (calculate_queue_order rl session None))
         | _, _ => rl_calls (effects (calculate_queue_order rl session None))
         end.
Proof.
  intro H. unfold emergency_queue_reorder. rewrite H. simpl negb. cbv iota.
  rewrite value_bind, effects_bind, rl_calls_app, rl_calls_reorder_queue_for_emergency.
  destruct (session_get session emergency_patient_id) as [p|] eqn:G.
  - rewrite (value_reorder_present rl session _ p G).
    rewrite (session_lookup_present _ _ _ G).
    unfold value, effects, ret. cbn [fst snd rl_calls flat_map]. rewrite app_nil_r.
    eexists. split; [reflexivity|].
    cbn [er_status er_reordered_queue er_total_affected_patients er_message].
    split; [split; [discriminate|reflexivity]|]. split; [|split; [discriminate|]].
    + intros _. split; [reflexivity|]. f_equal. unfold count.
      cbn [length]. rewrite length_map. lia.
    + now destruct (sqlite_integer emergency_patient_id).
  - rewrite (value_reorder_absent rl session _ G).
    rewrite (session_lookup_absent _ _ G).
    destruct (snapshot rl session None) as [|t others];
      destruct (sqlite_integer emergency_patient_id);
      unfold value, effects, ret; cbn [fst snd rl_calls flat_map];
      rewrite app_nil_r; eexists; (split; [reflexivity|]);
      cbn [er_status er_reordered_queue er_total_affected_patients er_message];
      (split; [split; [discriminate|intro N; now elim N]|]);
      (split; [intro N; now elim N|]); repeat split.
Qed.

Lemma emergency_endpoint_succeeds_iff_patient_exists_witness :
  (exists r,
     value (emergency_queue_reorder Samples.no_boost "too large" 2 "admin" 0
              Samples.three_patients)
     = Returns r
     /\ er_status r = "success"%string)
  /\ (exists r,
        value (emergency_queue_reorder Samples.no_boost "too large" (2 ^ 63) "admin" 0
                 Samples.three_patients)
        = Returns r
        /\ er_message r = "Emergency queue reorder failed: too large"%string).
Proof.
  split.
  - destruct (emergency_endpoint_succeeds_iff_patient_exists Samples.no_boost
                "too large" 2 "admin" 0 Samples.three_patients eq_refl)
      as (r & Hr & Hs & _).
    exists r. split; [exact Hr|]. apply Hs. discriminate.
  - destruct (emergency_endpoint_succeeds_iff_patient_exists Samples.no_boost
                "too large" (2 ^ 63) "admin" 0 Samples.three_patients eq_refl)
      as (r & Hr & _ & _ & Hm & _).
    exists r. split; [exact Hr|]. apply Hm. reflexivity.
Defined.

(** X22.  The three guarded endpoints let in the roles "admin" and "doctor"
    and no other.  For any other role each of them raises the HTTP error
    403 "Not authorized" before doing anything: the oracle is not called,
    nothing is logged and the database is not touched. *)
Theorem guarded_endpoints_refuse_other_roles
    (rl : Oracle) (slots : SlotOracle) (parse : string -> Parsed)
    (str_overflow : string) (role : string) (now : Z) :
  (authorized role = true <-> role = "admin"%string \/ role = "doctor"%string)
  /\ (authorized role = false ->
      (forall updates st,
         update_queue_priorities rl updates role now st
         = (Raises (HTTPException 403 "Not authorized"), []))
      /\ (forall session,
            assign_next_patient slots parse role session
            = (Raises (HTTPException 403 "Not authorized"), session))
      /\ (forall pid session,
            emergency_queue_reorder rl str_overflow pid role now session
            = (Raises (HTTPException 403 "Not authorized"), []))).
Proof.
  split.
  - unfold authorized. simpl. rewrite orb_false_r, orb_true_iff, !String.eqb_eq.
    reflexivity.
  - intro H. unfold update_queue_priorities, assign_next_patient,
      emergency_queue_reorder. rewrite H. repeat split.
Qed.

End EmergencyEndpoint.

(** ** [models.py]: [get_priority_score] *)

Section PriorityScore.
Import Models.

Lemma lower_char_idempotent (c : ascii) :
  PyStr.lower_char (PyStr.lower_char c) = PyStr.lower_char c.
Proof. destruct c as [[] [] [] [] [] [] [] []]; reflexivity. Qed.

Lemma lower_idempotent (s : string) : PyStr.lower (PyStr.lower s) = PyStr.lower s.
Proof.
  induction s as [|c s IH]; [reflexivity|].
  simpl. now rewrite lower_char_idempotent, IH.
Qed.

Lemma get_priority_score_cases (priority : string) :
  let p := PyStr.lower priority in
  get_priority_score (VStr priority)
  = if String.eqb "very_low" p then 1
    else if String.eqb "low" p then 2
    else if String.eqb "medium" p then 3
    else if String.eqb "high" p then 4
    else if String.eqb "very_high" p then 5
    else if String.eqb "critical" p then 7
    else if String.eqb "emergency" p then 7
    else 3.
Proof.
  unfold get_priority_score, PriorityLevel_members. cbn [find level_value].
  repeat match goal with
         | |- context [if ?c then _ else _] => destruct c; [reflexivity|]
         end.
  reflexivity.
Qed.

Lemma int_of_float_bounds (x : Q) :
  ((0 <= x)%Q -> (inject_Z (int_of_float x) <= x < inject_Z (int_of_float x) + 1)%Q)
  /\ ((x <= 0)%Q -> (inject_Z (int_of_float x) - 1 < x <= inject_Z (int_of_float x))%Q).
Proof.
  destruct x as [a b]. unfold int_of_float, Qle, Qlt. cbn [Qnum Qden].
  pose proof (Z.quot_rem' a (Z.pos b)) as E.
  split; intro H; simpl in H; rewrite Z.mul_1_r in H; simpl.
  - pose proof (Z.rem_bound_pos a (Z.pos b) H (Pos2Z.is_pos b)) as R.
    rewrite !Z.mul_1_r. lia.
  - pose proof (Z.rem_bound_pos_neg a (Z.pos b) (Pos2Z.is_pos b) H) as R.
    rewrite !Z.mul_1_r. lia.
Qed.

(** X23.  [get_priority_score] on a string returns a rank between 1 and 7,
    never 6; it does not look at the case of the letters; a string that is
    the name of no priority level gets the rank 3 of "medium"; and the
    levels rank very_low 1, low 2, medium 3, high 4, very_high 5, critical
    and emergency 7.  A number is not ranked but handed back through [int]:
    an integer as it is, so that any integer is a possible result, [True] and
    [False] as 1 and 0, a float cut off towards zero.  Any other value gets
    the rank 3. *)
Theorem get_priority_score_ranks :
  (forall priority : string,
     (1 <= get_priority_score (VStr priority) <= 7
      /\ get_priority_score (VStr priority) <> 6)
     /\ get_priority_score (VStr (PyStr.lower priority))
        = get_priority_score (VStr priority)
     /\ ((forall level, level_value level <> PyStr.lower priority) ->
         get_priority_score (VStr priority) = 3))
  /\ map (fun level => get_priority_score (VStr (level_value level)))
       PriorityLevel_members
     = [1; 2; 3; 4; 5; 7; 7]
  /\ (forall n : Z, get_priority_score (VInt n) = n)
  /\ (forall b : bool, get_priority_score (VBool b) = if b then 1 else 0)
  /\ (forall x : Q,
        ((0 <= x)%Q ->
         (inject_Z (get_priority_score (VFloat x)) <= x
          < inject_Z (get_priority_score (VFloat x)) + 1)%Q)
        /\ ((x <= 0)%Q ->
            (inject_Z (get_priority_score (VFloat x)) - 1 < x
             <= inject_Z (get_priority_score (VFloat x)))%Q))
  /\ get_priority_score VOther = 3.
Proof.
  split; [|split; [reflexivity|split; [reflexivity|split; [reflexivity|split]]]].
  - intro priority. split; [|split].
    + rewrite get_priority_score_cases. cbv zeta.
      repeat match goal with
             | |- context [if ?c then _ else _] => destruct c
             end; lia.
    + rewrite !get_priority_score_cases. cbv zeta. now rewrite lower_idempotent.
    + intro H. rewrite get_priority_score_cases. cbv zeta.
      repeat match goal with
             | |- context [if String.eqb ?a ?b then _ else _] =>
                 destruct (String.eqb_spec a b) as [E|_];
                 [exfalso;
                  first [apply (H VERY_LOW); exact E | apply (H LOW); exact E
                        | apply (H MEDIUM); exact E | apply (H HIGH); exact E
                        | apply (H VERY_HIGH); exact E | apply (H CRITICAL); exact E
                        | apply (H EMERGENCY); exact E]|]
             end.
      reflexivity.
  - intro x. apply int_of_float_bounds.
  - reflexivity.
Qed.

End PriorityScore.

(** ** [encode_patient] and [encode_queue] *)

Section EncodingFacts.
Import Encoding.

Lemma type_map_bounds (a : string) : 0 <= dict_get type_map a 0 <= 5.
Proof.
  unfold dict_get, type_map. cbn [find fst snd].
  repeat match goal with
         | |- context [if ?c then _ else _] => destruct c
         end; cbn [snd]; lia.
Qed.

Lemma gender_map_bounds (g : string) : 0 <= dict_get gender_map g 2 <= 2.
Proof.
  unfold dict_get, gender_map. cbn [find fst snd].
  repeat match goal with
         | |- context [if ?c then _ else _] => destruct c
         end; cbn [snd]; lia.
Qed.

Lemma priority_rank_bounds (p : string) :
  1 <= Models.get_priority_score (Models.VStr p) <= 7.
Proof.
  rewrite get_priority_score_cases. cbv zeta.
  repeat match goal with
         | |- context [if ?c then _ else _] => destruct c
         end; lia.
Qed.

Lemma unit_fraction (z n : Z) :
  0 < n -> 0 <= z <= n -> (0 <= inject_Z z / inject_Z n <= 1)%Q.
Proof.
  intros Hn [Hl Hu].
  assert (Qn : (0 < inject_Z n)%Q) by (unfold Qlt; simpl; lia).
  split.
  - apply Qle_shift_div_l; [exact Qn|]. rewrite Qmult_0_l.
    unfold Qle. simpl. lia.
  - apply Qle_shift_div_r; [exact Qn|]. rewrite Qmult_1_l.
    rewrite <- Zle_Qle. exact Hu.
Qed.

Lemma unit_fraction_inv (z n : Z) :
  0 < n -> (0 <= inject_Z z / inject_Z n <= 1)%Q -> 0 <= z <= n.
Proof.
  intros Hn [Hl Hu].
  assert (Qn : (0 < inject_Z n)%Q) by (unfold Qlt; simpl; lia).
  assert (E : (inject_Z z == inject_Z z / inject_Z n * inject_Z n)%Q).
  { field. intro N. rewrite N in Qn. now apply Qlt_irrefl in Qn. }
  split.
  - rewrite Zle_Qle, E. apply Qmult_le_0_compat; [exact Hl|now apply Qlt_le_weak].
  - rewrite Zle_Qle.
    pose proof (Qmult_le_compat_r _ _ (inject_Z n) Hu (Qlt_le_weak _ _ Qn)) as L.
    rewrite Qmult_1_l, <- E in L. exact L.
Qed.

(** The priority component leaves the unit interval for a number that is no
    rank: a priority of 100 gives 16.5, and [False] gives -1/6. *)
Lemma encode_patient_numeric_priority :
  nth 1 (encode_patient
           (PatientData.mk None (Some (Models.VInt 100)) None None None None)) 0%Q
  = (99 / 6)%Q
  /\ nth 1 (encode_patient
              (PatientData.mk None (Some (Models.VBool false)) None None None None)) 0%Q
     = (-1 / 6)%Q.
Proof. split; reflexivity. Qed.

(** X24.  The vector of [encode_patient] has six components.  Those for the
    appointment type, the emergency flag (0 or 1) and the gender lie between
    0 and 1, whatever the dict holds or lacks.  The priority component is
    the score of [get_priority_score], less 1, over 6: it lies between 0 and
    1 exactly when that score lies between 1 and 7, which it does when the
    dict has no priority or one that is no number, and need not when the
    priority is a number.  The age component is at most 1, and the symptom
    component, the length over 200, is not negative. *)
Theorem encode_patient_components (patient_data : PatientData.t) :
  exists type priority emergency gender age symptoms,
    encode_patient patient_data = [type; priority; emergency; gender; age; symptoms]
    /\ (0 <= type <= 1)%Q
    /\ ((0 <= priority <= 1)%Q
        <-> 1 <= Models.get_priority_score
                   (get_or (PatientData.priority patient_data) (Models.VStr "medium"))
            <= 7)
    /\ match PatientData.priority patient_data with
       | Some (Models.VBool _) | Some (Models.VInt _) | Some (Models.VFloat _) => True
       | Some (Models.VStr _) | Some Models.VOther | None => (0 <= priority <= 1)%Q
       end
    /\ (emergency = 0%Q \/ emergency = 1%Q)
    /\ (0 <= gender <= 1)%Q
    /\ (age <= 1)%Q
    /\ (0 <= symptoms)%Q
    /\ (symptoms * 200
        == inject_Z (Z.of_nat (String.length
                                 (get_or (PatientData.symptoms patient_data) ""%string))))%Q.
Proof.
  unfold encode_patient. do 6 eexists. split; [reflexivity|].
  split; [apply (unit_fraction _ 5); [lia|apply type_map_bounds]|].
  assert (R : forall z : Z, (0 <= inject_Z (z - 1) / 6 <= 1)%Q <-> 1 <= z <= 7).
  { intro z. split; intro H.
    - apply (unit_fraction_inv _ 6) in H; lia.
    - apply (unit_fraction _ 6); lia. }
  split; [apply R|].
  split.
  { destruct (PatientData.priority patient_data) as [[s| | | |]|]; try exact I;
      cbn [get_or]; apply R; try (cbn [Models.get_priority_score]; lia);
      apply priority_rank_bounds. }
  split; [destruct (get_or (PatientData.is_emergency patient_data) false); auto|].
  split; [apply (unit_fraction _ 2); [lia|apply gender_map_bounds]|].
  split; [apply Q.le_min_r|].
  split.
  - apply Qle_shift_div_l; [reflexivity|]. rewrite Qmult_0_l.
    unfold Qle. simpl. lia.
  - field.
Qed.

Lemma encode_patient_length (patient_data : PatientData.t) :
  length (encode_patient patient_data) = 6%nat.
Proof. reflexivity. Qed.

(** X25.  [encode_queue] always returns fifty rows of six numbers: the
    encodings of the first fifty entries of the queue, in order, followed by
    rows of zeros when the queue is shorter; entries beyond the fiftieth are
    dropped. *)
Theorem encode_queue_has_fifty_rows (queue : list PatientData.t) :
  length (encode_queue queue) = 50%nat
  /\ Forall (fun row => length row = 6%nat) (encode_queue queue)
  /\ encode_queue queue
     = map encode_patient (firstn 50 queue)
       ++ repeat (repeat 0%Q 6) (50 - length queue).
Proof.
  assert (E : encode_queue queue
              = map encode_patient (firstn 50 queue)
                ++ repeat (repeat 0%Q 6) (50 - length queue)).
  { unfold encode_queue. cbv zeta. rewrite length_map.
    destruct (Nat.le_gt_cases (length queue) 50) as [L|L].
    - rewrite firstn_all2 by (rewrite length_app, length_map, repeat_length; lia).
      now rewrite (firstn_all2 queue L).
    - replace (50 - length queue)%nat with 0%nat by lia.
      cbn [repeat]. rewrite !app_nil_r. apply firstn_map. }
  split; [|split; [|exact E]].
  - rewrite E, length_app, length_map, length_firstn, repeat_length. lia.
  - rewrite E. apply Forall_app. split.
    + apply Forall_map, Forall_forall. intros p _. apply encode_patient_length.
    + apply Forall_forall. intros row Hrow. apply repeat_spec in Hrow.
      now subst row.
Qed.

End EncodingFacts.

(** ** [/next_patient]: who is admitted *)

Section NextPatientWho.
Import DynamicQueueManager Main.

Lemma snapshot_nil_iff rl session q :
  snapshot rl session q = [] <-> waiting_patients session = [].
Proof.
  split; intro H.
  - destruct (waiting_patients session) as [|p l] eqn:W; [reflexivity|].
    exfalso.
    assert (I : In (Patient.id p) (map Ticket.id (snapshot rl session q))).
    { apply snapshot_ids. rewrite W. now left. }
    rewrite H in I. exact I.
  - destruct (snapshot rl session q) as [|t l] eqn:S; [reflexivity|].
    exfalso.
    assert (I : In (Ticket.id t) (map Patient.id (waiting_patients session))).
    { apply (snapshot_ids rl session q). rewrite S. now left. }
    rewrite H in I. exact I.
Qed.

(** X26.  When the patient of the first booking is a waiting patient with no
    other booking in the queue, [get_next_patient_rl] admits that patient:
    the response carries that patient's ticket, at position 1, as an RL
    decision; exactly the first booking leaves the queue, the others keeping
    their order; and the history gains one record, of that ticket. *)
Theorem next_patient_admits_the_first_booking
    (rl : Oracle) (str : Exn -> string) (now : Z) (st : State)
    (first : QueueEntry.t) (rest : list QueueEntry.t) :
  appointment_queue st = first :: rest ->
  In (QueueEntry.patient_id first) (map Patient.id (waiting_patients (db st))) ->
  (forall e, In e rest -> QueueEntry.patient_id e <> QueueEntry.patient_id first) ->
  exists t,
    Ticket.id t = QueueEntry.patient_id first
    /\ Ticket.queue_position t = 1
    /\ value (get_next_patient_rl rl str now st)
       = (Returned (mkResponse (AssignedTicket t) true "RL model optimization"
                      (Z.of_nat (length rest))),
          mkState (db st) rest
            (completed_patients st
             ++ [mkCompleted (AssignedTicket t) now
                   (Z.of_nat (length (completed_patients st)) + 1)])).
Proof.
  intros Q Hw Hone.
  destruct (pinned_head_of_waiting_patient rl (db st) first rest Hw)
    as (t & others & Hs & Hid & Hpos).
  exists t. split; [exact Hid|]. split; [exact Hpos|].
  unfold get_next_patient_rl. rewrite Q, value_bind.
  unfold snapshot in Hs. rewrite Hs.
  assert (F : filter (fun p => negb (QueueEntry.patient_id p =? Ticket.id t))
                (first :: rest) = rest).
  { simpl. rewrite Hid, Z.eqb_refl. simpl. apply filter_all.
    intros e He. apply negb_true_iff, Z.eqb_neq. now apply Hone. }
  unfold value, ret. cbn [fst]. now rewrite F.
Qed.

Lemma next_patient_admits_the_first_booking_witness :
  exists t,
    Ticket.id t = 1
    /\ Ticket.queue_position t = 1
    /\ value (get_next_patient_rl Samples.boost5 Samples.str_exn 9
                (mkState Samples.three_patients Samples.booked_1_3_2 []))
       = (Returned (mkResponse (AssignedTicket t) true "RL model optimization" 2),
          mkState Samples.three_patients
            [Samples.entry 3 "checkup" false 20; Samples.entry 2 "checkup" false 30]
            [mkCompleted (AssignedTicket t) 9 1]).
Proof.
  apply (next_patient_admits_the_first_booking Samples.boost5 Samples.str_exn 9
           (mkState Samples.three_patients Samples.booked_1_3_2 [])
           (Samples.entry 1 "checkup" false 10)
           [Samples.entry 3 "checkup" false 20; Samples.entry 2 "checkup" false 30]).
  - reflexivity.
  - simpl. tauto.
  - simpl. intros e [<-|[<-|[]]]; discriminate.
Defined.

(** X27.  When the queue holds bookings but no patient of the table waits
    (all have scheduled appointments), [get_next_patient_rl] falls back to
    first-in first-out: it returns the first booking itself, not as an RL
    decision, removes exactly that booking and records it in the history;
    the oracle is not called. *)
Theorem next_patient_falls_back_to_fifo
    (rl : Oracle) (str : Exn -> string) (now : Z) (st : State)
    (first : QueueEntry.t) (rest : list QueueEntry.t) :
  appointment_queue st = first :: rest ->
  waiting_patients (db st) = [] ->
  get_next_patient_rl rl str now st
  = (Returned (mkResponse (AssignedEntry first) false "FIFO fallback"
                 (Z.of_nat (length rest))),
     mkState (db st) rest
       (completed_patients st
        ++ [mkCompleted (AssignedEntry first) now
              (Z.of_nat (length (completed_patients st)) + 1)]),
     []).
Proof.
  intros Q W.
  assert (S : snapshot rl (db st) (Some (first :: rest)) = [])
    by (now apply snapshot_nil_iff).
  assert (T : effects (calculate_queue_order rl (db st) (Some (first :: rest))) = []).
  { rewrite effects_calculate_queue_order, candidates_eq, W. reflexivity. }
  unfold get_next_patient_rl. rewrite Q.
  rewrite (M_eta (calculate_queue_order rl (db st) (Some (first :: rest)))).
  unfold snapshot in S. rewrite S, T. reflexivity.
Qed.

Lemma next_patient_falls_back_to_fifo_witness :
  fst (fst (get_next_patient_rl Samples.boost5 Samples.str_exn 3
              (mkState (mkSession [Samples.patient 1 30 "low"]
                          [Appointment.mk 1 "consultation" "scheduled"])
                 Samples.booked_1_2 [])))
  = Returned (mkResponse (AssignedEntry (Samples.entry 1 "checkup" false 10)) false
                "FIFO fallback" 1).
Proof.
  rewrite (next_patient_falls_back_to_fifo Samples.boost5 Samples.str_exn 3
             (mkState (mkSession [Samples.patient 1 30 "low"]
                         [Appointment.mk 1 "consultation" "scheduled"])
                Samples.booked_1_2 [])
             (Samples.entry 1 "checkup" false 10)
             [Samples.entry 2 "checkup" false 20] eq_refl eq_refl).
  reflexivity.
Defined.

End NextPatientWho.
